(** * mcp-mem0: configuration builder and administrative scripts

    A shallow embedding of [src/utils.py], [scripts/mem0_memory_manager.py]
    and [scripts/qdrant_manager.py].

    The Python code is dynamically typed, raises exceptions, mutates the
    process environment, reads standard input, prints, and talks to two
    external services (the mem0 memory client and the Qdrant client).  The
    embedding keeps all of that explicit:

    - Python values are the inductive type [value];
    - a computation is a function from a state to an outcome and a new
      state ([M]); the outcome is a returned value, a raised [Exception] or
      a [sys.exit];
    - [os.environ] is a [gmap string string];
    - the external services are abstract state machines (classes [Mem0] and
      [Qdrant]); every call made to them is also recorded in a log, so that
      "which calls were made, in which order" can be stated. *)

From Stdlib Require Import ZArith String Ascii Floats.
From stdpp Require Import base gmap strings list.

Set Warnings "-register-all,-inexact-float".
Open Scope string_scope.
Open Scope list_scope.

(** ** Python values *)

(** The fragment of Python data that reaches this code: [None], booleans,
    integers, floats (IEEE binary64, as in CPython), strings, lists, and
    dictionaries with string keys.  A dictionary is an association list in
    insertion order, which is the order Python keeps. *)
Inductive value :=
| VNone
| VBool (b : bool)
| VInt (z : Z)
| VFloat (f : float)
| VStr (s : string)
| VList (l : list value)
| VDict (d : list (string * value)).

(** An instance of (a subclass of) Python's [Exception]: class name and
    message.  [SystemExit] is not an [Exception]; it is the [Exit] outcome
    below. *)
Record exception := Exception { exc_class : string; exc_msg : string }.

(** Truthiness, as used by [if x:], [not x] and [x or y]. *)
Definition truthy (v : value) : bool :=
  match v with
  | VNone => false
  | VBool b => b
  | VInt z => negb (z =? 0)%Z
  | VFloat f => negb (PrimFloat.eqb f 0%float)
  | VStr s => negb (String.eqb s "")
  | VList l => match l with [] => false | _ => true end
  | VDict d => match d with [] => false | _ => true end
  end.

(** An [Optional[str]], as returned by [os.getenv] or argparse. *)
Definition of_opt (o : option string) : value :=
  match o with Some s => VStr s | None => VNone end.

Definition truthy_opt (o : option string) : bool := truthy (of_opt o).

(** [o == 'lit'] for an optional string [o]. *)
Definition eqs (o : option string) (lit : string) : bool :=
  bool_decide (o = Some lit).

(** [o or 'default'] for an optional string [o]. *)
Definition or_default (o : option string) (dflt : string) : string :=
  match o with
  | Some s => if String.eqb s "" then dflt else s
  | None => dflt
  end.

(** [len(v)]: defined on strings, lists and dictionaries.  A string is
    its sequence of [ascii] characters, so a character outside ASCII
    counts for the bytes that encode it, where Python counts one. *)
Definition py_len (v : value) : option nat :=
  match v with
  | VStr s => Some (String.length s)
  | VList l => Some (length l)
  | VDict d => Some (length d)
  | _ => None
  end.

(** The elements [for x in v] runs over: the items of a list, the
    characters of a string, the keys of a dictionary. *)
Definition py_iter (v : value) : option (list value) :=
  match v with
  | VStr s => Some (map (fun c => VStr (String c EmptyString)) (list_ascii_of_string s))
  | VList l => Some l
  | VDict d => Some (map (fun kv => VStr (fst kv)) d)
  | _ => None
  end.

(** [d.get(k)] and ['k' in d] on a dictionary. *)
Fixpoint dict_get (d : list (string * value)) (k : string) : option value :=
  match d with
  | [] => None
  | (k', v) :: d' => if String.eqb k' k then Some v else dict_get d' k
  end.

(** [d[k] = v]: overwrite in place, or append a new key. *)
Fixpoint dict_set (d : list (string * value)) (k : string) (v : value)
  : list (string * value) :=
  match d with
  | [] => [(k, v)]
  | (k', v') :: d' =>
      if String.eqb k' k then (k', v) :: d' else (k', v') :: dict_set d' k v
  end.

Definition dict_keys (d : list (string * value)) : list string := map fst d.

Definition is_list (v : value) : bool :=
  match v with VList _ => true | _ => false end.

Definition is_dict (v : value) : bool :=
  match v with VDict _ => true | _ => false end.

(** ** Computations: state, exceptions and process exit *)

Inductive result (A : Type) :=
| Ok (a : A)
| Raise (e : exception)
| Exit (code : Z).
Arguments Ok {A} a.
Arguments Raise {A} e.
Arguments Exit {A} code.

(** A computation over a state [St].  The state is kept when an exception
    is raised: what was printed or written before stays. *)
Definition M (St A : Type) : Type := St -> result A * St.

Definition ret {St A} (a : A) : M St A := fun s => (Ok a, s).

Definition bind {St A B} (m : M St A) (k : A -> M St B) : M St B :=
  fun s =>
    match m s with
    | (Ok a, s') => k a s'
    | (Raise e, s') => (Raise e, s')
    | (Exit c, s') => (Exit c, s')
    end.

Definition raise {St A} (e : exception) : M St A := fun s => (Raise e, s).

(** [sys.exit(code)]. *)
Definition sys_exit {St A} (code : Z) : M St A := fun s => (Exit code, s).

(** [try: body / except Exception as e: handler e].  A [sys.exit] in the
    body is not caught. *)
Definition try_except {St A} (body : M St A) (handler : exception -> M St A)
  : M St A :=
  fun s =>
    match body s with
    | (Raise e, s') => handler e s'
    | r => r
    end.

Declare Scope py_scope.
Delimit Scope py_scope with py.
Notation "x <- m ;; k" := (bind m (fun x => k))
  (at level 100, m at next level, right associativity) : py_scope.
Notation "m ;; k" := (bind m (fun _ => k))
  (at level 100, right associativity) : py_scope.
Open Scope py_scope.

Definition when {St} (b : bool) (m : M St unit) : M St unit :=
  if b then m else ret tt.

(** [for x in xs: ...], a loop that updates the local variables [acc]; an
    exception leaving the body ends the loop. *)
Fixpoint for_fold {St A B} (xs : list A) (acc : B) (body : B -> A -> M St B)
  : M St B :=
  match xs with
  | [] => ret acc
  | x :: xs' => acc' <- body acc x ;; for_fold xs' acc' body
  end.

(** Runs [m] and hands back its exception, if any, as a value. *)
Definition attempt {St A} (m : M St A) : M St (exception + A) :=
  fun s =>
    match m s with
    | (Ok a, s') => (Ok (inr a), s')
    | (Raise e, s') => (Ok (inl e), s')
    | (Exit c, s') => (Exit c, s')
    end.

(** [v[k]] on a dictionary. *)
Definition getitem {St} (v : value) (k : string) : M St value :=
  match v with
  | VDict d =>
      match dict_get d k with
      | Some x => ret x
      | None => raise (Exception "KeyError" k)
      end
  | _ => raise (Exception "TypeError" "object is not subscriptable")
  end.

(** [v[k] = x]; returns the updated container. *)
Definition setitem {St} (v : value) (k : string) (x : value) : M St value :=
  match v with
  | VDict d => ret (VDict (dict_set d k x))
  | _ => raise (Exception "TypeError" "object does not support item assignment")
  end.

(** [v.get(k, dflt)]: only dictionaries have the method.  The message of
    the [AttributeError], which in Python names the type of [v], is kept
    without it. *)
Definition method_get {St} (v : value) (k : string) (dflt : value) : M St value :=
  match v with
  | VDict d => ret (default dflt (dict_get d k))
  | _ => raise (Exception "AttributeError" "object has no attribute 'get'")
  end.

(** [v[:n]]: a prefix of a string or of a list.  Strings are sequences of
    [ascii] characters; a character outside ASCII takes several of them,
    which only moves the place where the displayed text is cut. *)
Definition slice_to {St} (n : nat) (v : value) : M St value :=
  match v with
  | VStr s => ret (VStr (String.substring 0 n s))
  | VList l => ret (VList (take n l))
  | _ => raise (Exception "TypeError" "object is not subscriptable")
  end.

(** [len(v)] and iteration, in a computation. *)
Definition len {St} (v : value) : M St nat :=
  match py_len v with
  | Some n => ret n
  | None => raise (Exception "TypeError" "object has no len()")
  end.

Definition iter {St} (v : value) : M St (list value) :=
  match py_iter v with
  | Some l => ret l
  | None => raise (Exception "TypeError" "object is not iterable")
  end.

(** [v[k1][k2][k3] = x]: the two inner dictionaries are reached through
    the outer one, so the update is visible in [v]. *)
Definition setitem3 {St} (v : value) (k1 k2 k3 : string) (x : value) : M St value :=
  v1 <- getitem v k1 ;;
  v2 <- getitem v1 k2 ;;
  v2' <- setitem v2 k3 x ;;
  v1' <- setitem v1 k2 v2' ;;
  setitem v k1 v1'.

(** ** The process: environment, terminal, external service *)

(** What [print] writes: an f-string is kept as its fragments, literal
    text and interpolated values, so that no formatting of Python values
    has to be fixed. *)
Inductive fragment :=
| Lit (s : string)
| Val (v : value)
| Exc (e : exception).

Definition line := list fragment.

(** [S] is the state of the external service the script talks to and [L]
    the type of the entries of the call log. *)
Record world (S L : Type) := World {
  environ : gmap string string;
  stdin : list string;
  stdout : list line;
  service : S;
  calls : list L
}.
Arguments World {S L}.
Arguments environ {S L}.
Arguments stdin {S L}.
Arguments stdout {S L}.
Arguments service {S L}.
Arguments calls {S L}.

Section Process.
Context {S L : Type}.
Local Abbreviation W := (world S L).

Definition set_environ (f : gmap string string -> gmap string string) (w : W) : W :=
  World (f (environ w)) (stdin w) (stdout w) (service w) (calls w).
(** [print(...)]. *)
Definition print (l : line) : M W unit :=
  fun w => (Ok tt, World (environ w) (stdin w) (stdout w ++ [l]) (service w) (calls w)).

(** [input(prompt)]: writes the prompt, reads one line; [EOFError] at
    end of input. *)
Definition input (prompt : line) : M W string :=
  fun w =>
    let w' := World (environ w) (stdin w) (stdout w ++ [prompt]) (service w) (calls w) in
    match stdin w with
    | [] => (Raise (Exception "EOFError" "EOF when reading a line"), w')
    | s :: rest =>
        (Ok s, World (environ w) rest (stdout w ++ [prompt]) (service w) (calls w))
    end.

(** A call to the external service: logged, then performed; the service
    answers with a value or raises. *)
Definition call {A} (entry : L) (op : S -> (exception + A) * S) : M W A :=
  fun w =>
    let '(r, s') := op (service w) in
    let w' := World (environ w) (stdin w) (stdout w) s' (calls w ++ [entry]) in
    match r with
    | inl e => (Raise e, w')
    | inr a => (Ok a, w')
    end.

(** [os.getenv(k)] and [os.environ.get(k)]. *)
Definition getenv (k : string) : M W (option string) :=
  fun w => (Ok (environ w !! k), w).

(** [os.getenv(k, default)]. *)
Definition getenv_default (k dflt : string) : M W string :=
  fun w => (Ok (default dflt (environ w !! k)), w).

(** [os.environ[k] = v]. *)
Definition putenv (k v : string) : M W unit :=
  fun w => (Ok tt, set_environ (insert k v) w).
End Process.

(** ** The external mem0 client *)

(** [Memory.from_config(config)] builds the client from the configuration
    (and reads credentials from the environment); [get_all], [delete] and
    [delete_all] are the three client methods the scripts use.  Nothing is
    assumed about them: each may answer or raise, and may change the
    service. *)
Class Mem0 (S : Type) := {
  mem_from_config : value -> gmap string string -> S -> (exception + unit) * S;
  mem_get_all : option string -> option string -> option string ->
                S -> (exception + value) * S;
  mem_delete : value -> S -> (exception + unit) * S;
  mem_delete_all : option string -> option string -> option string ->
                   S -> (exception + unit) * S
}.

Inductive mem_call :=
| FromConfig (config : value)
| GetAll (user_id agent_id run_id : option string)
| Delete (memory_id : value)
| DeleteAll (user_id agent_id run_id : option string).

(** ** [src/utils.py] *)

Module Utils.
Section Builder.
Context {S L : Type}.
Local Abbreviation W := (world S L).

(** Lines 28-70: "Configure LLM based on provider". *)
Definition configure_llm (llm_provider llm_api_key llm_model : option string)
    (config : value) : M W value :=
  if eqs llm_provider "openai" || eqs llm_provider "openrouter" then
    config <- setitem config "llm"
      (VDict [("provider", VStr "openai");
              ("config", VDict [("model", of_opt llm_model);
                                ("temperature", VFloat 0.2);
                                ("max_tokens", VInt 2000)])]) ;;
    openai_api_key <- getenv "OPENAI_API_KEY" ;;
    when (truthy_opt llm_api_key && negb (truthy_opt openai_api_key))
         (putenv "OPENAI_API_KEY" (default "" llm_api_key)) ;;
    when (eqs llm_provider "openrouter" && truthy_opt llm_api_key)
         (putenv "OPENROUTER_API_KEY" (default "" llm_api_key)) ;;
    ret config
  else if eqs llm_provider "github_copilot" then
    setitem config "llm"
      (VDict [("provider", VStr "litellm");
              ("config", VDict [("model", VStr (or_default llm_model "github_copilot/gpt-4o"));
                                ("temperature", VFloat 0.2);
                                ("max_tokens", VInt 2000)])])
  else if eqs llm_provider "ollama" then
    config <- setitem config "llm"
      (VDict [("provider", VStr "ollama");
              ("config", VDict [("model", of_opt llm_model);
                                ("temperature", VFloat 0.2);
                                ("max_tokens", VInt 2000)])]) ;;
    llm_base_url <- getenv "LLM_BASE_URL" ;;
    if truthy_opt llm_base_url then
      setitem3 config "llm" "config" "ollama_base_url" (of_opt llm_base_url)
    else ret config
  else ret config.

(** Lines 72-107: "Configure embedder based on provider". *)
Definition configure_embedder (llm_provider llm_api_key embedding_model : option string)
    (config : value) : M W value :=
  if eqs llm_provider "openai" then
    config <- setitem config "embedder"
      (VDict [("provider", VStr "openai");
              ("config", VDict [("model", VStr (or_default embedding_model "text-embedding-3-small"));
                                ("embedding_dims", VInt 1536)])]) ;;
    openai_api_key <- getenv "OPENAI_API_KEY" ;;
    when (truthy_opt llm_api_key && negb (truthy_opt openai_api_key))
         (putenv "OPENAI_API_KEY" (default "" llm_api_key)) ;;
    ret config
  else if eqs llm_provider "github_copilot" then
    setitem config "embedder"
      (VDict [("provider", VStr "github_copilot");
              ("config", VDict [("model", VStr (or_default embedding_model "github_copilot/text-embedding-3-small"));
                                ("embedding_dims", VInt 1536)])])
  else if eqs llm_provider "ollama" then
    config <- setitem config "embedder"
      (VDict [("provider", VStr "ollama");
              ("config", VDict [("model", VStr (or_default embedding_model "nomic-embed-text"));
                                ("embedding_dims", VInt 768)])]) ;;
    embedding_base_url <- getenv "LLM_BASE_URL" ;;
    if truthy_opt embedding_base_url then
      setitem3 config "embedder" "config" "ollama_base_url" (of_opt embedding_base_url)
    else ret config
  else ret config.

(** Lines 110-114: the dimensionality handed to the vector store. *)
Definition vector_store_dims (llm_provider : option string) : Z :=
  let embedding_dims := 1536%Z in
  if eqs llm_provider "openai" || eqs llm_provider "github_copilot" then 1536%Z
  else if eqs llm_provider "ollama" then 768%Z
  else embedding_dims.

(** Lines 116-139: Qdrant or Supabase. *)
Definition configure_vector_store (llm_provider : option string) (config : value)
  : M W value :=
  let embedding_dims := vector_store_dims llm_provider in
  vector_store_provider <- getenv_default "VECTOR_STORE_PROVIDER" "supabase" ;;
  if String.eqb vector_store_provider "qdrant" then
    collection_name <- getenv_default "QDRANT_COLLECTION_NAME" "mem0_memories" ;;
    url <- getenv "QDRANT_URL" ;;
    api_key <- getenv "QDRANT_API_KEY" ;;
    setitem config "vector_store"
      (VDict [("provider", VStr "qdrant");
              ("config", VDict [("collection_name", VStr collection_name);
                                ("embedding_model_dims", VInt embedding_dims);
                                ("url", of_opt url);
                                ("api_key", of_opt api_key)])])
  else
    connection_string <- getenv_default "DATABASE_URL" "" ;;
    setitem config "vector_store"
      (VDict [("provider", VStr "supabase");
              ("config", VDict [("connection_string", VStr connection_string);
                                ("collection_name", VStr "mem0_memories");
                                ("embedding_model_dims", VInt embedding_dims)])]).

(** [get_mem0_client], lines 18-141: everything before the call of the
    external factory.  Returns the dictionary [config]. *)
Definition get_mem0_client_config : M W value :=
  llm_provider <- getenv "LLM_PROVIDER" ;;
  llm_api_key <- getenv "LLM_API_KEY" ;;
  llm_model <- getenv "LLM_CHOICE" ;;
  embedding_model <- getenv "EMBEDDING_MODEL_CHOICE" ;;
  let config := VDict [] in
  config <- configure_llm llm_provider llm_api_key llm_model config ;;
  config <- configure_embedder llm_provider llm_api_key embedding_model config ;;
  configure_vector_store llm_provider config.
End Builder.

Section Client.
Context {S : Type} `{Mem0 S}.

(** [get_mem0_client], whole: line 144 hands the configuration to
    [Memory.from_config]. *)
Definition get_mem0_client : M (world S mem_call) unit :=
  config <- get_mem0_client_config ;;
  env <- (fun w => (Ok (environ w), w)) ;;
  call (FromConfig config) (mem_from_config config env).
End Client.
End Utils.

(** ** [scripts/mem0_memory_manager.py] *)

Module MemoryManager.

(** The namespace argparse returns. *)
Record args := Args {
  database_url : option string;
  interactive : bool;
  list_all : bool;
  list_memories_flag : bool;
  delete_memory : bool;
  delete_user_memories_flag : bool;
  delete_agent_memories_flag : bool;
  delete_run_memories_flag : bool;
  safe_delete_all : bool;
  user_id : option string;
  agent_id : option string;
  run_id : option string;
  memory_id : option string
}.

Definition DEFAULT_USER_ID : string := "user".

(** "Handle different response formats" (lines 221-226, and again lines
    301-304). *)
Definition memories_list_of (memories : value) : value :=
  match memories with
  | VDict d =>
      match dict_get d "results" with
      | Some results => results
      | None => VList []
      end
  | VList _ => memories
  | _ => VList []
  end.

Section Manager.
Context {S : Type} `{Mem0 S}.
Local Abbreviation W := (world S mem_call).

(** Lines 68-110: "Configure LLM based on provider", the manager's own
    copy of the step. *)
Definition configure_llm (llm_provider llm_api_key llm_model : option string)
    (config : value) : M W value :=
  if eqs llm_provider "openai" || eqs llm_provider "openrouter" then
    config <- setitem config "llm"
      (VDict [("provider", VStr "openai");
              ("config", VDict [("model", of_opt llm_model);
                                ("temperature", VFloat 0.2);
                                ("max_tokens", VInt 2000)])]) ;;
    openai_api_key <- getenv "OPENAI_API_KEY" ;;
    when (truthy_opt llm_api_key && negb (truthy_opt openai_api_key))
         (putenv "OPENAI_API_KEY" (default "" llm_api_key)) ;;
    when (eqs llm_provider "openrouter" && truthy_opt llm_api_key)
         (putenv "OPENROUTER_API_KEY" (default "" llm_api_key)) ;;
    ret config
  else if eqs llm_provider "github_copilot" then
    setitem config "llm"
      (VDict [("provider", VStr "litellm");
              ("config", VDict [("model", VStr (or_default llm_model "github_copilot/gpt-4o"));
                                ("temperature", VFloat 0.2);
                                ("max_tokens", VInt 2000)])])
  else if eqs llm_provider "ollama" then
    config <- setitem config "llm"
      (VDict [("provider", VStr "ollama");
              ("config", VDict [("model", of_opt llm_model);
                                ("temperature", VFloat 0.2);
                                ("max_tokens", VInt 2000)])]) ;;
    llm_base_url <- getenv "LLM_BASE_URL" ;;
    if truthy_opt llm_base_url then
      setitem3 config "llm" "config" "ollama_base_url" (of_opt llm_base_url)
    else ret config
  else ret config.

(** Lines 112-147: "Configure embedder based on provider", the manager's
    own copy. *)
Definition configure_embedder (llm_provider llm_api_key embedding_model : option string)
    (config : value) : M W value :=
  if eqs llm_provider "openai" then
    config <- setitem config "embedder"
      (VDict [("provider", VStr "openai");
              ("config", VDict [("model", VStr (or_default embedding_model "text-embedding-3-small"));
                                ("embedding_dims", VInt 1536)])]) ;;
    openai_api_key <- getenv "OPENAI_API_KEY" ;;
    when (truthy_opt llm_api_key && negb (truthy_opt openai_api_key))
         (putenv "OPENAI_API_KEY" (default "" llm_api_key)) ;;
    ret config
  else if eqs llm_provider "github_copilot" then
    setitem config "embedder"
      (VDict [("provider", VStr "github_copilot");
              ("config", VDict [("model", VStr (or_default embedding_model "github_copilot/text-embedding-3-small"));
                                ("embedding_dims", VInt 1536)])])
  else if eqs llm_provider "ollama" then
    config <- setitem config "embedder"
      (VDict [("provider", VStr "ollama");
              ("config", VDict [("model", VStr (or_default embedding_model "nomic-embed-text"));
                                ("embedding_dims", VInt 768)])]) ;;
    embedding_base_url <- getenv "LLM_BASE_URL" ;;
    if truthy_opt embedding_base_url then
      setitem3 config "embedder" "config" "ollama_base_url" (of_opt embedding_base_url)
    else ret config
  else ret config.

(** Lines 150-154: the dimensionality handed to the vector store. *)
Definition embedding_dims (llm_provider : option string) : Z :=
  let embedding_dims := 1536%Z in
  if eqs llm_provider "openai" || eqs llm_provider "github_copilot" then 1536%Z
  else if eqs llm_provider "ollama" then 768%Z
  else embedding_dims.

(** [get_mem0_client], lines 57-163: everything before the call of the
    external factory.  The vector store is the Supabase one. *)
Definition get_mem0_client_config : M W value :=
  llm_provider <- getenv "LLM_PROVIDER" ;;
  llm_api_key <- getenv "LLM_API_KEY" ;;
  llm_model <- getenv "LLM_CHOICE" ;;
  embedding_model <- getenv "EMBEDDING_MODEL_CHOICE" ;;
  let config := VDict [] in
  config <- configure_llm llm_provider llm_api_key llm_model config ;;
  config <- configure_embedder llm_provider llm_api_key embedding_model config ;;
  let embedding_dims := embedding_dims llm_provider in
  connection_string <- getenv_default "DATABASE_URL" "" ;;
  setitem config "vector_store"
    (VDict [("provider", VStr "supabase");
            ("config", VDict [("connection_string", VStr connection_string);
                              ("collection_name", VStr "mem0_memories");
                              ("embedding_model_dims", VInt embedding_dims)])]).

Definition get_mem0_client : M W unit :=
  config <- get_mem0_client_config ;;
  env <- (fun w => (Ok (environ w), w)) ;;
  call (FromConfig config) (mem_from_config config env).

(** Lines 186-205 of [MemoryManager.__init__]: the [try] statement. *)
Definition init_try : M W unit :=
  try_except
    (get_mem0_client ;;
     print [Lit "✅ Connected to mem0 successfully"] ;;
     llm_provider <- getenv_default "LLM_PROVIDER" "not set" ;;
     llm_model <- getenv_default "LLM_CHOICE" "not set" ;;
     print [Lit "🤖 LLM Provider: "; Val (VStr llm_provider)] ;;
     print [Lit "📝 LLM Model: "; Val (VStr llm_model)])
    (fun e =>
       print [Lit "❌ Failed to initialize mem0: "; Exc e] ;;
       print [Lit "💡 Check your .env file and ensure all required environment variables are set:"] ;;
       print [Lit "   - DATABASE_URL (required)"] ;;
       print [Lit "   - LLM_PROVIDER (openai, github_copilot, ollama)"] ;;
       print [Lit "   - LLM_CHOICE (model name)"] ;;
       print [Lit "   - LLM_API_KEY (if using OpenAI/OpenRouter)"] ;;
       print [Lit "   - EMBEDDING_MODEL_CHOICE (optional)"] ;;
       sys_exit 1).

(** [MemoryManager.__init__]. *)
Definition init (database_url : option string) : M W unit :=
  (if truthy_opt database_url then
     putenv "DATABASE_URL" (default "" database_url) ;;
     print [Lit "🔗 Using provided database URL: ";
            Val (VStr (String.substring 0 50 (default "" database_url))); Lit "..."]
   else
     env_url <- getenv "DATABASE_URL" ;;
     if truthy_opt env_url then
       print [Lit "🔗 Using DATABASE_URL from environment: ";
              Val (VStr (String.substring 0 50 (default "" env_url))); Lit "..."]
     else
       print [Lit "⚠️  Warning: No DATABASE_URL found in .env or environment."]) ;;
  init_try.

(** The body of the display loop of [list_memories] (lines 231-236),
    for entry number [i]. *)
Definition show_memory (i : nat) (memory : value) : M W unit :=
  id <- method_get memory "id" (VStr "unknown") ;;
  print [Lit "   "; Val (VInt (Z.of_nat i)); Lit ". ID: "; Val id] ;;
  text <- method_get memory "memory" (VStr "N/A") ;;
  text <- slice_to 100 text ;;
  print [Lit "      Memory: "; Val text; Lit "..."] ;;
  uid <- method_get memory "user_id" (VStr "N/A") ;;
  print [Lit "      User ID: "; Val uid] ;;
  aid <- method_get memory "agent_id" (VStr "N/A") ;;
  print [Lit "      Agent ID: "; Val aid] ;;
  created <- method_get memory "created_at" (VStr "N/A") ;;
  print [Lit "      Created: "; Val created] ;;
  print [].

(** [for i, memory in enumerate(items, i): ...]. *)
Fixpoint show_memories (i : nat) (items : list value) : M W unit :=
  match items with
  | [] => ret tt
  | memory :: rest => show_memory i memory ;; show_memories (Datatypes.S i) rest
  end.

Definition list_memories (user_id agent_id run_id : option string) : M W value :=
  try_except
    (user_id <-
       (if negb (truthy_opt user_id) && negb (truthy_opt agent_id)
           && negb (truthy_opt run_id)
        then
          print [Lit "🔍 Fetching memories for default user: "; Val (VStr DEFAULT_USER_ID)] ;;
          ret (Some DEFAULT_USER_ID)
        else
          print [Lit "🔍 Fetching memories..."] ;;
          ret user_id) ;;
     memories <- call (GetAll user_id agent_id run_id)
                      (mem_get_all user_id agent_id run_id) ;;
     let memories_list := memories_list_of memories in
     n <- len memories_list ;;
     print [Lit "📋 Found "; Val (VInt (Z.of_nat n)); Lit " memories"] ;;
     items <- iter memories_list ;;
     show_memories 1 items ;;
     ret memories_list)
    (fun e =>
       print [Lit "❌ Error listing memories: "; Exc e] ;;
       ret (VList [])).

Definition delete_memory_by_id (memory_id : string) : M W bool :=
  try_except
    (print [Lit "🗑️  Deleting memory with ID: "; Val (VStr memory_id)] ;;
     call (Delete (VStr memory_id)) (mem_delete (VStr memory_id)) ;;
     print [Lit "✅ Memory deleted successfully"] ;;
     ret true)
    (fun e =>
       print [Lit "❌ Error deleting memory "; Val (VStr memory_id); Lit ": "; Exc e] ;;
       ret false).

Definition delete_user_memories (user_id : string) : M W bool :=
  try_except
    (print [Lit "🗑️  Deleting all memories for user: "; Val (VStr user_id)] ;;
     call (DeleteAll (Some user_id) None None) (mem_delete_all (Some user_id) None None) ;;
     print [Lit "✅ All user memories deleted successfully"] ;;
     ret true)
    (fun e =>
       print [Lit "❌ Error deleting user memories: "; Exc e] ;;
       ret false).

Definition delete_agent_memories (agent_id : string) : M W bool :=
  try_except
    (print [Lit "🗑️  Deleting all memories for agent: "; Val (VStr agent_id)] ;;
     call (DeleteAll None (Some agent_id) None) (mem_delete_all None (Some agent_id) None) ;;
     print [Lit "✅ All agent memories deleted successfully"] ;;
     ret true)
    (fun e =>
       print [Lit "❌ Error deleting agent memories: "; Exc e] ;;
       ret false).

Definition delete_run_memories (run_id : string) : M W bool :=
  try_except
    (print [Lit "🗑️  Deleting all memories for run: "; Val (VStr run_id)] ;;
     call (DeleteAll None None (Some run_id)) (mem_delete_all None None (Some run_id)) ;;
     print [Lit "✅ All run memories deleted successfully"] ;;
     ret true)
    (fun e =>
       print [Lit "❌ Error deleting run memories: "; Exc e] ;;
       ret false).

(** The handler of the inner [try] of [safe_delete_all_memories] (line
    326).  It prints the local variable [memory_id], which is unbound
    ([None]) until the first [memory.get('id')] has returned: printing
    it then raises. *)
Definition could_not_delete (memory_id : option value) (e : exception) : M W unit :=
  match memory_id with
  | Some v => print [Lit "⚠️  Could not delete memory "; Val v; Lit ": "; Exc e]
  | None =>
      raise (Exception "UnboundLocalError"
               "cannot access local variable 'memory_id' where it is not associated with a value")
  end.

(** One turn of the loop of lines 319-326.  The locals are [memory_id]
    and [deleted_count].  The [try] block has two places that can raise,
    the call of [memory.get], before [memory_id] is assigned, and the
    call of the client, after it; the handler sees the locals as they
    are at that place. *)
Definition delete_one (locals : option value * nat) (memory : value)
  : M W (option value * nat) :=
  let '(memory_id, deleted_count) := locals in
  got <- attempt (method_get memory "id" VNone) ;;
  match got with
  | inl e => could_not_delete memory_id e ;; ret (memory_id, deleted_count)
  | inr id =>
      let memory_id := Some id in
      if truthy id then
        try_except
          (call (Delete id) (mem_delete id) ;;
           ret (memory_id, Datatypes.S deleted_count))
          (fun e => could_not_delete memory_id e ;; ret (memory_id, deleted_count))
      else ret (memory_id, deleted_count)
  end.

Definition safe_delete_all_memories : M W bool :=
  try_except
    (print [Lit "🗑️  Safely deleting all mem0 memories..."] ;;
     print [Lit "💡 This deletes memory data but preserves database structure"] ;;
     all_memories <- call (GetAll (Some DEFAULT_USER_ID) None None)
                          (mem_get_all (Some DEFAULT_USER_ID) None None) ;;
     let memories_list := memories_list_of all_memories in
     if negb (truthy memories_list) then
       print [Lit "📭 No memories found to delete"] ;;
       ret true
     else
       n <- len memories_list ;;
       print [Lit "📋 Found "; Val (VInt (Z.of_nat n)); Lit " memories to delete"] ;;
       confirmation <- input [Lit "Type 'DELETE' to proceed: "] ;;
       if negb (String.eqb confirmation "DELETE") then
         print [Lit "❌ Operation cancelled"] ;;
         ret false
       else
         items <- iter memories_list ;;
         locals <- for_fold items (None, 0) delete_one ;;
         print [Lit "✅ Successfully deleted "; Val (VInt (Z.of_nat (snd locals)));
                Lit " memories"] ;;
         ret true)
    (fun e =>
       print [Lit "❌ Error deleting memories: "; Exc e] ;;
       ret false).

(** [interactive_mode], lines 335-386.  [strip] is Python's [str.strip].
    The [while True] loop is unrolled [fuel] times; every turn reads at
    least one line, so with [fuel] the number of lines left on standard
    input the last unrolling finds it empty and, like the program, ends
    with the [EOFError] of [input] ([interactive_loop_fuel] below: more
    turns change nothing). *)
Variable strip : string -> string.

Definition nl : string := String "010"%char EmptyString.

Definition print_menu : M W unit :=
  print [Lit (nl +:+ "Available actions:")] ;;
  print [Lit "1. List all memories"] ;;
  print [Lit "2. List memories by user ID"] ;;
  print [Lit "3. List memories by agent ID"] ;;
  print [Lit "4. Delete specific memory by ID"] ;;
  print [Lit "5. Delete all memories for a user"] ;;
  print [Lit "6. Delete all memories for an agent"] ;;
  print [Lit "7. Delete all memories for a run"] ;;
  print [Lit "8. Safe delete all memories (recommended)"] ;;
  print [Lit "9. Exit"].

(** [x = input(prompt).strip()], then [if x: action x]. *)
Definition ask {A} (prompt : string) (action : string -> M W A) : M W unit :=
  x <- input [Lit prompt] ;;
  let x := strip x in
  if negb (String.eqb x "") then action x ;; ret tt else ret tt.

Fixpoint interactive_loop (fuel : nat) : M W unit :=
  print_menu ;;
  choice <- input [Lit (nl +:+ "Enter your choice (1-9): ")] ;;
  let choice := strip choice in
  match fuel with
  | 0 => ret tt
  | Datatypes.S fuel' =>
      if String.eqb choice "1" then
        list_memories None None None ;; interactive_loop fuel'
      else if String.eqb choice "2" then
        ask "Enter user ID: " (fun user_id => list_memories (Some user_id) None None) ;;
        interactive_loop fuel'
      else if String.eqb choice "3" then
        ask "Enter agent ID: " (fun agent_id => list_memories None (Some agent_id) None) ;;
        interactive_loop fuel'
      else if String.eqb choice "4" then
        ask "Enter memory ID: " delete_memory_by_id ;;
        interactive_loop fuel'
      else if String.eqb choice "5" then
        ask "Enter user ID: " delete_user_memories ;;
        interactive_loop fuel'
      else if String.eqb choice "6" then
        ask "Enter agent ID: " delete_agent_memories ;;
        interactive_loop fuel'
      else if String.eqb choice "7" then
        ask "Enter run ID: " delete_run_memories ;;
        interactive_loop fuel'
      else if String.eqb choice "8" then
        safe_delete_all_memories ;; interactive_loop fuel'
      else if String.eqb choice "9" then
        print [Lit "👋 Goodbye!"]
      else
        print [Lit "❌ Invalid choice. Please try again."] ;;
        interactive_loop fuel'
  end.

Definition interactive_mode : M W unit :=
  print [Lit (nl +:+ "🧠 mem0 Interactive Memory Manager")] ;;
  print [Lit "=================================================="] ;;
  fuel <- (fun w => (Ok (length (stdin w)), w)) ;;
  interactive_loop fuel.

(** [main], lines 436-474, after argparse has produced [a]. *)
Definition main (a : args) : M W unit :=
  init (database_url a) ;;
  if interactive a then
    interactive_mode
  else if list_all a || list_memories_flag a then
    list_memories (user_id a) (agent_id a) (run_id a) ;; ret tt
  else if delete_memory a then
    when (negb (truthy_opt (memory_id a)))
      (print [Lit "❌ Error: --memory-id is required for --delete-memory"] ;;
       sys_exit 1) ;;
    delete_memory_by_id (default "" (memory_id a)) ;; ret tt
  else if delete_user_memories_flag a then
    when (negb (truthy_opt (user_id a)))
      (print [Lit "❌ Error: --user-id is required for --delete-user-memories"] ;;
       sys_exit 1) ;;
    delete_user_memories (default "" (user_id a)) ;; ret tt
  else if delete_agent_memories_flag a then
    when (negb (truthy_opt (agent_id a)))
      (print [Lit "❌ Error: --agent-id is required for --delete-agent-memories"] ;;
       sys_exit 1) ;;
    delete_agent_memories (default "" (agent_id a)) ;; ret tt
  else if delete_run_memories_flag a then
    when (negb (truthy_opt (run_id a)))
      (print [Lit "❌ Error: --run-id is required for --delete-run-memories"] ;;
       sys_exit 1) ;;
    delete_run_memories (default "" (run_id a)) ;; ret tt
  else if safe_delete_all a then
    safe_delete_all_memories ;; ret tt
  else
    print [Lit "🧠 mem0 Memory Manager"] ;;
    print [Lit "========================================"] ;;
    print [Lit "Use --help for usage information"] ;;
    print [Lit "Use --interactive for interactive mode"] ;;
    print [Lit (nl +:+ "Quick examples:")] ;;
    print [Lit "  python scripts/mem0_memory_manager.py --interactive"] ;;
    print [Lit "  python scripts/mem0_memory_manager.py --list-all"] ;;
    print [Lit "  python scripts/mem0_memory_manager.py --safe-delete-all"].
End Manager.
End MemoryManager.

(** ** The external Qdrant client *)

Inductive distance := COSINE.

(** A point as [scroll] returns it. *)
Record point := Point { point_id : value; payload : value }.

(** The methods of [QdrantClient] used by the three commands embedded
    below.  [qd_get_collections] answers with the names of the collections
    (the [name] of each entry of [.collections]); [qd_scroll] with the
    first component of the pair [scroll] returns. *)
Class Qdrant (S : Type) := {
  qd_get_collections : S -> (exception + list string) * S;
  qd_delete_collection : string -> S -> (exception + unit) * S;
  qd_create_collection : string -> Z -> distance -> S -> (exception + unit) * S;
  qd_scroll : string -> Z -> S -> (exception + list point) * S;
  qd_delete : string -> list value -> S -> (exception + unit) * S
}.

Inductive qd_call :=
| GetCollections
| DeleteCollection (collection_name : string)
| CreateCollection (collection_name : string) (size : Z) (dist : distance)
| Scroll (collection_name : string) (limit : Z)
| DeletePoints (collection_name : string) (ids : list value).

(** ** [scripts/qdrant_manager.py] *)

Module QdrantManager.

(** The dictionary [load_env_config] returns; its keys are fixed. *)
Record config := Config {
  url : option string;
  api_key : option string;
  collection_name : string;
  embedding_dims : Z;
  llm_provider : string
}.

(** The namespace argparse returns for the collection commands. *)
Record args := Args {
  arg_collection_name : option string;
  force : bool
}.

(** [str.lower] on ASCII letters.  Other characters are left as they are;
    no character outside ASCII lowers to an ASCII letter [y], so the test
    [confirm.lower() != 'y'] is decided as in Python. *)
Definition lower_ascii (c : ascii) : ascii :=
  let n := nat_of_ascii c in
  if (65 <=? n)%nat && (n <=? 90)%nat then ascii_of_nat (n + 32) else c.

Fixpoint lower (s : string) : string :=
  match s with
  | EmptyString => EmptyString
  | String c s' => String (lower_ascii c) (lower s')
  end.

Definition get_embedding_dimensions (llm_provider : string) : Z :=
  if String.eqb llm_provider "openai" || String.eqb llm_provider "github_copilot"
  then 1536%Z
  else if String.eqb llm_provider "ollama" then 768%Z
  else 1536%Z.

Section Manager.
Context {S : Type} `{Qdrant S}.
Local Abbreviation W := (world S qd_call).

(** The first of the three candidate [.env] files that exists, with the
    bindings [load_dotenv] reads from it.  They depend on the environment
    of the moment: with [override=True] a [${VAR}] in a value of the file
    is resolved against [os.environ], so the file is a function of the
    environment.  And Python's [int] on strings; the message of its
    [ValueError] is kept without the offending literal that ends it in
    Python. *)
Variable dotenv : option (string * (gmap string string -> gmap string string)).
Variable py_int : string -> option Z.

Definition load_env_config : M W config :=
  match dotenv with
  | Some (env_path, file) =>
      (fun w => (Ok tt, set_environ (fun env => file env ∪ env) w)) ;;
      print [Lit "Loaded environment from: "; Val (VStr env_path)]
  | None => print [Lit "Warning: No .env file found"]
  end ;;
  url <- getenv "QDRANT_URL" ;;
  api_key <- getenv "QDRANT_API_KEY" ;;
  collection_name <- getenv_default "QDRANT_COLLECTION_NAME" "mem0_memories" ;;
  dims <- getenv_default "EMBEDDING_DIMS" "1536" ;;
  embedding_dims <-
    match py_int dims with
    | Some n => ret n
    | None => raise (Exception "ValueError" "invalid literal for int() with base 10")
    end ;;
  llm_provider <- getenv_default "LLM_PROVIDER" "github_copilot" ;;
  ret (Config url api_key collection_name embedding_dims llm_provider).

(** Building the client object makes no request. *)
Definition get_qdrant_client (cfg : config) : M W unit :=
  if negb (truthy_opt (url cfg)) || negb (truthy_opt (api_key cfg)) then
    raise (Exception "ValueError"
             "QDRANT_URL and QDRANT_API_KEY must be set in environment")
  else ret tt.

(** [config = load_env_config()] then [client = get_qdrant_client(config)],
    the two lines every command starts with. *)
Definition connect : M W config :=
  cfg <- load_env_config ;;
  get_qdrant_client cfg ;;
  ret cfg.

(** Lines 98-111 of [create_collection]: the creation itself. *)
Definition create (cfg : config) (collection_name : string) (embedding_dims : Z)
  : M W unit :=
  print [Lit "Creating collection '"; Val (VStr collection_name); Lit "' with ";
         Val (VInt embedding_dims); Lit " dimensions..."] ;;
  call (CreateCollection collection_name embedding_dims COSINE)
       (qd_create_collection collection_name embedding_dims COSINE) ;;
  print [Lit "✅ Collection '"; Val (VStr collection_name); Lit "' created successfully!"] ;;
  print [Lit "   - Dimensions: "; Val (VInt embedding_dims)] ;;
  print [Lit "   - Distance: COSINE"] ;;
  print [Lit "   - Provider: "; Val (VStr (llm_provider cfg))].

(** Lines 85-114 of [create_collection]: the [try] statement. *)
Definition create_collection_try (cfg : config) (collection_name : string)
    (embedding_dims : Z) (force : bool) : M W unit :=
  try_except
    (collections <- call GetCollections qd_get_collections ;;
     let existing := filter (fun c => c = collection_name) collections in
     match existing with
     | _ :: _ =>
         if negb force then
           print [Lit "Collection '"; Val (VStr collection_name);
                  Lit "' already exists. Use --force to recreate."]
         else
           print [Lit "Deleting existing collection '"; Val (VStr collection_name);
                  Lit "'..."] ;;
           call (DeleteCollection collection_name)
                (qd_delete_collection collection_name) ;;
           create cfg collection_name embedding_dims
     | [] => create cfg collection_name embedding_dims
     end)
    (fun e => print [Lit "❌ Error creating collection: "; Exc e]).

Definition create_collection (a : args) : M W unit :=
  cfg <- connect ;;
  let collection_name := or_default (arg_collection_name a) (collection_name cfg) in
  let embedding_dims := get_embedding_dimensions (llm_provider cfg) in
  create_collection_try cfg collection_name embedding_dims (force a).

(** Lines 160-165 of [delete_collection]: the [try] statement. *)
Definition delete_collection_try (name : string) : M W unit :=
  try_except
    (call (DeleteCollection name) (qd_delete_collection name) ;;
     print [Lit "✅ Collection '"; Val (VStr name); Lit "' deleted successfully!"])
    (fun e => print [Lit "❌ Error deleting collection: "; Exc e]).

Definition delete_collection (a : args) : M W unit :=
  if negb (truthy_opt (arg_collection_name a)) then
    print [Lit "❌ Collection name is required for deletion"]
  else
    let name := default "" (arg_collection_name a) in
    connect ;;
    if negb (force a) then
      confirm <- input [Lit "Are you sure you want to delete collection '";
                        Val (VStr name); Lit "'? (y/N): "] ;;
      if negb (String.eqb (lower confirm) "y") then
        print [Lit "Operation cancelled."]
      else delete_collection_try name
    else delete_collection_try name.

(** Lines 215-217 of [clear_collection]: the name of the collection,
    which loads the configuration a first time when no name is given on
    the command line, and the connection. *)
Definition clear_collection_setup (a : args) : M W string :=
  collection_name <-
    (if truthy_opt (arg_collection_name a) then ret (default "" (arg_collection_name a))
     else cfg <- load_env_config ;; ret (collection_name cfg)) ;;
  connect ;;
  ret collection_name.

(** Lines 225-236 of [clear_collection]: the [try] statement. *)
Definition clear_collection_try (collection_name : string) : M W unit :=
  try_except
    (points <- call (Scroll collection_name 10000)
                    (qd_scroll collection_name 10000) ;;
     match points with
     | _ :: _ =>
         let point_ids := map point_id points in
         call (DeletePoints collection_name point_ids)
              (qd_delete collection_name point_ids) ;;
         print [Lit "✅ Cleared "; Val (VInt (Z.of_nat (length point_ids)));
                Lit " vectors from collection '"; Val (VStr collection_name); Lit "'"]
     | [] =>
         print [Lit "Collection '"; Val (VStr collection_name);
                Lit "' is already empty"]
     end)
    (fun e => print [Lit "❌ Error clearing collection: "; Exc e]).

Definition clear_collection (a : args) : M W unit :=
  collection_name <- clear_collection_setup a ;;
  if negb (force a) then
    confirm <- input [Lit "Are you sure you want to clear all vectors from '";
                      Val (VStr collection_name); Lit "'? (y/N): "] ;;
    if negb (String.eqb (lower confirm) "y") then
      print [Lit "Operation cancelled."]
    else clear_collection_try collection_name
  else clear_collection_try collection_name.
End Manager.
End QdrantManager.

(** ** The read-only methods of the Qdrant client *)

(** [info.config.params.vectors]: a [VectorParams] object with its [size]
    and [distance], or an object of class [cls] without an attribute
    [size] ([None], or the dictionary of a collection with named
    vectors). *)
Inductive vectors_config :=
| VectorParams (size distance : value)
| NoSize (cls : string).

(** What [get_collection] answers with.  [vectors] is [None] when
    [info.config] has no [params] or [params] no [vectors];
    [payload_schema] is [None] when the attribute is missing. *)
Record collection_description := CollectionDescription {
  status : value;
  points_count : value;
  indexed_vectors_count : value;
  vectors : option vectors_config;
  payload_schema : option value
}.

(** [get_collection], [count] (answering with [result.count]) and
    [get_cluster_info], beside the methods of [Qdrant]. *)
Class QdrantInfo (S : Type) `{Qdrant S} := {
  qd_get_collection : string -> S -> (exception + collection_description) * S;
  qd_count : string -> S -> (exception + value) * S;
  qd_get_cluster_info : S -> (exception + value) * S
}.

Inductive info_call :=
| Basic (c : qd_call)
| GetCollection (collection_name : string)
| Count (collection_name : string)
| GetClusterInfo.

(** Runs a computation written for one call log in a process that keeps
    another one: the entries it adds are translated by [f]. *)
Definition relabel {S L L' A} (f : L -> L') (m : M (world S L) A)
  : M (world S L') A :=
  fun w =>
    let '(r, w1) := m (World (environ w) (stdin w) (stdout w) (service w) []) in
    (r, World (environ w1) (stdin w1) (stdout w1) (service w1)
          (calls w ++ map f (calls w1))).

(** [s * n] on a string. *)
Fixpoint str_mul (s : string) (n : nat) : string :=
  match n with
  | O => ""
  | Datatypes.S n' => s ++ str_mul s n'
  end.

(** ** [scripts/qdrant_manager.py]: the read-only commands *)

Module QdrantInspect.

(** The namespace argparse returns for [collection-info] and
    [count-vectors]. *)
Record args := Args { arg_collection_name : option string }.

Section Inspect.
Context {S : Type} `{QdrantInfo S}.
Local Abbreviation W := (world S info_call).

Variable dotenv : option (string * (gmap string string -> gmap string string)).
Variable py_int : string -> option Z.

(** [str] on the values of a payload schema, and [json.dumps(d, indent=2)]
    on a dictionary of strings. *)
Variable py_str : value -> string.
Variable json_dumps : list (string * string) -> string.

Definition load_env_config : M W QdrantManager.config :=
  relabel Basic (QdrantManager.load_env_config dotenv py_int).

Definition get_qdrant_client (cfg : QdrantManager.config) : M W unit :=
  relabel Basic (QdrantManager.get_qdrant_client cfg).

Definition connect : M W QdrantManager.config :=
  relabel Basic (QdrantManager.connect dotenv py_int).

(** Lines 131-140 of [list_collections]: the body of the loop. *)
Definition show_collection (name : string) : M W unit :=
  info <- call (GetCollection name) (qd_get_collection name) ;;
  print [Lit "📁 "; Val (VStr name)] ;;
  print [Lit "   - Vectors: "; Val (points_count info)] ;;
  print [Lit "   - Status: "; Val (status info)] ;;
  match vectors info with
  | Some (VectorParams size distance) =>
      print [Lit "   - Dimensions: "; Val size] ;;
      print [Lit "   - Distance: "; Val distance]
  | _ => ret tt
  end ;;
  print [].

(** Lines 121-143 of [list_collections]: the [try] statement. *)
Definition list_collections_try : M W unit :=
  try_except
    (collections <- call (Basic GetCollections) qd_get_collections ;;
     match collections with
     | [] => print [Lit "No collections found."]
     | _ :: _ =>
         print [Lit "Available collections:"] ;;
         print [Lit (str_mul "-" 50)] ;;
         for_fold collections tt (fun _ name => show_collection name)
     end)
    (fun e => print [Lit "❌ Error listing collections: "; Exc e]).

Definition list_collections : M W unit :=
  connect ;;
  list_collections_try.

(** The first three lines of [collection_info] and of [count_vectors]:
    the configuration is loaded once more when no name is given. *)
Definition named_collection (a : args) : M W string :=
  collection_name <-
    (if truthy_opt (arg_collection_name a) then ret (default "" (arg_collection_name a))
     else cfg <- load_env_config ;; ret (QdrantManager.collection_name cfg)) ;;
  connect ;;
  ret collection_name.

(** Lines 188-195 of [collection_info]: the inner [try] statement. *)
Definition show_payload_schema (schema : value) : M W unit :=
  try_except
    (items <-
       match schema with
       | VDict d => ret d
       | _ => raise (Exception "AttributeError" "object has no attribute 'items'")
       end ;;
     let schema_dict := map (fun kv => (fst kv, py_str (snd kv))) items in
     print [Lit "Payload Schema: "; Val (VStr (json_dumps schema_dict))])
    (fun _ => print [Lit "Payload Schema: "; Val schema; Lit " (raw format)"]).

(** Lines 173-198 of [collection_info]: the [try] statement. *)
Definition collection_info_try (collection_name : string) : M W unit :=
  try_except
    (info <- call (GetCollection collection_name) (qd_get_collection collection_name) ;;
     print [Lit "Collection Information: "; Val (VStr collection_name)] ;;
     print [Lit (str_mul "=" 50)] ;;
     print [Lit "Status: "; Val (status info)] ;;
     print [Lit "Points Count: "; Val (points_count info)] ;;
     print [Lit "Indexed Vectors Count: "; Val (indexed_vectors_count info)] ;;
     match vectors info with
     | Some (VectorParams size distance) =>
         print [Lit "Vector Size: "; Val size] ;;
         print [Lit "Distance Function: "; Val distance]
     | Some (NoSize cls) =>
         raise (Exception "AttributeError"
                  ("'" ++ cls ++ "' object has no attribute 'size'"))
     | None => ret tt
     end ;;
     match payload_schema info with
     | Some schema => when (truthy schema) (show_payload_schema schema)
     | None => ret tt
     end)
    (fun e => print [Lit "❌ Error getting collection info: "; Exc e]).

Definition collection_info (a : args) : M W unit :=
  collection_name <- named_collection a ;;
  collection_info_try collection_name.

(** Lines 206-211 of [count_vectors]: the [try] statement. *)
Definition count_vectors_try (collection_name : string) : M W unit :=
  try_except
    (count <- call (Count collection_name) (qd_count collection_name) ;;
     print [Lit "Collection '"; Val (VStr collection_name); Lit "' contains ";
            Val count; Lit " vectors"])
    (fun e => print [Lit "❌ Error counting vectors: "; Exc e]).

Definition count_vectors (a : args) : M W unit :=
  collection_name <- named_collection a ;;
  count_vectors_try collection_name.

(** [try: body / except: handler]: a bare [except] also catches
    [SystemExit]. *)
Definition try_bare {A} (body handler : M W A) : M W A :=
  fun w =>
    match body w with
    | (Ok a, w') => (Ok a, w')
    | (_, w') => handler w'
    end.

(** Lines 321-337 of [test_connection]: the [try] statement. *)
Definition test_connection_try (cfg : QdrantManager.config) : M W unit :=
  try_except
    (get_qdrant_client cfg ;;
     collections <- call (Basic GetCollections) qd_get_collections ;;
     print [Lit "✅ Connection successful!"] ;;
     print [Lit "Available collections: "; Val (VInt (Z.of_nat (length collections)))] ;;
     try_bare
       (cluster_info <- call GetClusterInfo qd_get_cluster_info ;;
        print [Lit "Cluster status: "; Val cluster_info])
       (print [Lit "Cluster info not available (this is normal for cloud instances)"]))
    (fun e => print [Lit "❌ Connection failed: "; Exc e]).

Definition test_connection : M W unit :=
  cfg <- load_env_config ;;
  print [Lit "Testing Qdrant connection..."] ;;
  print [Lit "URL: "; Val (of_opt (QdrantManager.url cfg))] ;;
  print [Lit "Collection: "; Val (VStr (QdrantManager.collection_name cfg))] ;;
  print [Lit "LLM Provider: "; Val (VStr (QdrantManager.llm_provider cfg))] ;;
  test_connection_try cfg.
End Inspect.
End QdrantInspect.

(** ** Reading a configuration and a call log *)

(** [cfg[name]], when present. *)
Definition section (cfg : value) (name : string) : option value :=
  match cfg with VDict d => dict_get d name | _ => None end.

(** [cfg[name]["provider"]]. *)
Definition provider_of (cfg : value) (name : string) : option value :=
  sec ← section cfg name; section sec "provider".

(** [cfg[name]["config"][key]]. *)
Definition param (cfg : value) (name key : string) : option value :=
  sec ← section cfg name; params ← section sec "config"; section params key.

(** The keys of [cfg[name]["config"]], in order. *)
Definition param_keys (cfg : value) (name : string) : option (list string) :=
  sec ← section cfg name;
  params ← section sec "config";
  match params with VDict d => Some (dict_keys d) | _ => None end.

(** The calls that delete memories. *)
Definition is_delete (c : mem_call) : bool :=
  match c with
  | Delete _ | DeleteAll _ _ _ => true
  | _ => false
  end.

(** The calls that change the collections or their points. *)
Definition is_mutating (c : qd_call) : bool :=
  match c with
  | DeleteCollection _ | CreateCollection _ _ _ | DeletePoints _ _ => true
  | _ => false
  end.

(** What [memory.get('id')] gives for a memory record. *)
Definition memory_id_of (memory : value) : value :=
  match memory with
  | VDict d => default VNone (dict_get d "id")
  | _ => VNone
  end.

(** A memory record: a dictionary whose identifier is not empty. *)
Definition has_id (memory : value) : bool :=
  is_dict memory && truthy (memory_id_of memory).

(** A memory record [list_memories] can display: a dictionary whose
    ['memory'] entry, if any, can be sliced. *)
Definition displayable (memory : value) : bool :=
  match memory with
  | VDict d =>
      match default (VStr "N/A") (dict_get d "memory") with
      | VStr _ | VList _ => true
      | _ => false
      end
  | _ => false
  end.

Definition raised {A} (r : exception + A) : bool :=
  match r with inl _ => true | inr _ => false end.

(** A world with the given environment and input, nothing printed and no
    call made yet. *)
Definition start {S L} (env : list (string * string)) (input : list string) (s : S)
  : world S L :=
  World (list_to_map env) input [] s [].

(** A computation that leaves on standard input at most the lines it
    found there. *)
Definition input_shrinks {S L A} (m : M (world S L) A) : Prop :=
  forall w, length (stdin (m w).2) <= length (stdin w).

(** A computation that makes no call and reads no input: it may print,
    change the environment, and raise, but it does not leave the
    process. *)
Definition quiet {S L A} (m : M (world S L) A) : Prop :=
  forall w, exists r w',
    m w = (r, w') /\ (forall c, r ≠ Exit c)
    /\ stdin w' = stdin w /\ service w' = service w /\ calls w' = calls w.

(** A computation that does not leave the process, and one that always
    returns. *)
Definition stays {S L A} (m : M (world S L) A) : Prop :=
  forall w c, (m w).1 ≠ Exit c.

Definition returns {S L A} (m : M (world S L) A) : Prop :=
  forall w, exists a w', m w = (Ok a, w').

(** ** Test doubles for the two services *)

(** A mem0 double: [get_all] answers with [answer]; deleting the
    identifier [stuck_memory] raises, any other deletion is recorded in
    [deleted]. *)
Record fake_mem0 := FakeMem0 {
  answer : exception + value;
  deleted : list value
}.

Definition stuck_memory : string := "m2".

Definition fake_fails (id : value) : bool :=
  match id with VStr i => String.eqb i stuck_memory | _ => false end.

Definition fake_delete (id : value) (s : fake_mem0) : (exception + unit) * fake_mem0 :=
  if fake_fails id
  then (inl (Exception "RuntimeError" "delete failed"), s)
  else (inr tt, FakeMem0 (answer s) (deleted s ++ [id])).

#[export] Instance fake_mem0_client : Mem0 fake_mem0 := {
  mem_from_config _ _ s := (inr tt, s);
  mem_get_all _ _ _ s := (answer s, s);
  mem_delete := fake_delete;
  mem_delete_all _ _ _ s := (inr tt, s)
}.

Definition memory (id text : string) : value :=
  VDict [("id", VStr id); ("memory", VStr text); ("user_id", VStr "user")].

(** A Qdrant double: named collections of points; a bulk deletion that
    includes the point [stuck_point] raises. *)
Record fake_qdrant := FakeQdrant {
  collections : list (string * list point)
}.

Definition stuck_point : Z := 2.

Definition is_stuck (id : value) : bool :=
  match id with VInt z => (z =? stuck_point)%Z | _ => false end.

Definition fake_scroll (name : string) (limit : Z) (s : fake_qdrant)
  : (exception + list point) * fake_qdrant :=
  match list_find (fun c => fst c = name) (collections s) with
  | Some (_, c) => (inr (take (Z.to_nat limit) (snd c)), s)
  | None => (inl (Exception "UnexpectedResponse" "Not found: Collection doesn't exist"), s)
  end.

Definition id_eqb (a b : value) : bool :=
  match a, b with
  | VInt x, VInt y => (x =? y)%Z
  | VStr x, VStr y => String.eqb x y
  | _, _ => false
  end.

Definition fake_delete_points (name : string) (ids : list value) (s : fake_qdrant)
  : (exception + unit) * fake_qdrant :=
  if existsb is_stuck ids
  then (inl (Exception "UnexpectedResponse" "delete failed"), s)
  else
    let keep (p : point) := negb (existsb (id_eqb (point_id p)) ids) in
    let clear (c : string * list point) :=
      if String.eqb (fst c) name then (fst c, List.filter keep (snd c)) else c in
    (inr tt, FakeQdrant (map clear (collections s))).

#[export] Instance fake_qdrant_client : Qdrant fake_qdrant := {
  qd_get_collections s := (inr (map fst (collections s)), s);
  qd_delete_collection name s :=
    (inr tt, FakeQdrant (filter (fun c => fst c ≠ name) (collections s)));
  qd_create_collection name _ _ s :=
    (inr tt, FakeQdrant (collections s ++ [(name, [])]));
  qd_scroll := fake_scroll;
  qd_delete := fake_delete_points
}.

(** [int] on the two decimal literals the examples use. *)
Definition int_of_literal (s : string) : option Z :=
  if String.eqb s "1536" then Some 1536%Z
  else if String.eqb s "768" then Some 768%Z
  else None.

(** The read-only methods of the Qdrant double.  The collection [multi]
    has named vectors; the double has no cluster information. *)
Definition fake_describe (name : string) (points : list point)
  : collection_description :=
  CollectionDescription (VStr "green") (VInt (Z.of_nat (length points))) (VInt 0)
    (Some (if String.eqb name "multi" then NoSize "dict"
           else VectorParams (VInt 1536) (VStr "Cosine")))
    None.

Definition fake_get_collection (name : string) (s : fake_qdrant)
  : (exception + collection_description) * fake_qdrant :=
  match list_find (fun c => fst c = name) (collections s) with
  | Some (_, c) => (inr (fake_describe name (snd c)), s)
  | None => (inl (Exception "UnexpectedResponse" "Not found: Collection doesn't exist"), s)
  end.

Definition fake_count (name : string) (s : fake_qdrant)
  : (exception + value) * fake_qdrant :=
  match list_find (fun c => fst c = name) (collections s) with
  | Some (_, c) => (inr (VInt (Z.of_nat (length (snd c)))), s)
  | None => (inl (Exception "UnexpectedResponse" "Not found: Collection doesn't exist"), s)
  end.

#[export] Instance fake_qdrant_info : QdrantInfo fake_qdrant := {
  qd_get_collection := fake_get_collection;
  qd_count := fake_count;
  qd_get_cluster_info s := (inl (Exception "UnexpectedResponse" "Forbidden"), s)
}.

(** ** Example environments *)

Definition openai_world : world unit unit :=
  start [("LLM_PROVIDER", "openai"); ("LLM_CHOICE", "gpt-4o-mini");
         ("LLM_API_KEY", "sk-new"); ("OPENAI_API_KEY", "sk-old")] [] tt.

Definition openrouter_world : world unit unit :=
  start [("LLM_PROVIDER", "openrouter"); ("LLM_CHOICE", "openai/gpt-4o-mini");
         ("LLM_API_KEY", "sk-new"); ("OPENAI_API_KEY", "sk-openai");
         ("OPENROUTER_API_KEY", "sk-old")] [] tt.

Definition ollama_qdrant_world : world unit unit :=
  start [("LLM_PROVIDER", "ollama"); ("LLM_BASE_URL", "http://localhost:11434");
         ("VECTOR_STORE_PROVIDER", "qdrant")] [] tt.

Definition bare_world : world unit unit := start [] [] tt.

(** Three stored memories, and a process of the memory manager that is
    answered with them. *)
Definition three_memories : value :=
  VDict [("results", VList [memory "m1" "likes tea"; memory "m2" "lives in Oslo";
                            memory "m3" "owns a cat"])].

Definition manager_world (input : list string) (answer : exception + value)
  : world fake_mem0 mem_call :=
  start [("LLM_PROVIDER", "openai"); ("LLM_CHOICE", "gpt-4o-mini");
         ("DATABASE_URL", "postgresql://u:p@localhost:5432/db")]
        input (FakeMem0 answer []).

(** Command lines of the memory manager: [--delete-memory] alone, and
    [--delete-memory --memory-id m1 --delete-user-memories]. *)
Definition delete_memory_alone : MemoryManager.args :=
  {| MemoryManager.database_url := None;
     MemoryManager.interactive := false;
     MemoryManager.list_all := false;
     MemoryManager.list_memories_flag := false;
     MemoryManager.delete_memory := true;
     MemoryManager.delete_user_memories_flag := false;
     MemoryManager.delete_agent_memories_flag := false;
     MemoryManager.delete_run_memories_flag := false;
     MemoryManager.safe_delete_all := false;
     MemoryManager.user_id := None;
     MemoryManager.agent_id := None;
     MemoryManager.run_id := None;
     MemoryManager.memory_id := None |}.

Definition delete_memory_and_user_memories : MemoryManager.args :=
  {| MemoryManager.database_url := None;
     MemoryManager.interactive := false;
     MemoryManager.list_all := false;
     MemoryManager.list_memories_flag := false;
     MemoryManager.delete_memory := true;
     MemoryManager.delete_user_memories_flag := true;
     MemoryManager.delete_agent_memories_flag := false;
     MemoryManager.delete_run_memories_flag := false;
     MemoryManager.safe_delete_all := false;
     MemoryManager.user_id := None;
     MemoryManager.agent_id := None;
     MemoryManager.run_id := None;
     MemoryManager.memory_id := Some "m1" |}.

(** A process of the Qdrant manager: no [.env] file, the two variables
    the client needs, and one collection of three points. *)
Definition three_points : list point :=
  [Point (VInt 1) VNone; Point (VInt 2) VNone; Point (VInt 3) VNone].

Definition qdrant_world (input : list string) : world fake_qdrant qd_call :=
  start [("QDRANT_URL", "https://qdrant.example:6333"); ("QDRANT_API_KEY", "secret")]
        input (FakeQdrant [("mem0_memories", three_points)]).


(** The command line [--list-all]. *)
Definition list_all_alone : MemoryManager.args :=
  {| MemoryManager.database_url := None;
     MemoryManager.interactive := false;
     MemoryManager.list_all := true;
     MemoryManager.list_memories_flag := false;
     MemoryManager.delete_memory := false;
     MemoryManager.delete_user_memories_flag := false;
     MemoryManager.delete_agent_memories_flag := false;
     MemoryManager.delete_run_memories_flag := false;
     MemoryManager.safe_delete_all := false;
     MemoryManager.user_id := None;
     MemoryManager.agent_id := None;
     MemoryManager.run_id := None;
     MemoryManager.memory_id := None |}.

(** Processes of the Qdrant manager: one without the two variables the
    client needs, one whose [EMBEDDING_DIMS] is no number, one with an
    empty collection beside the three points, and the process of the
    read-only commands, with a collection of named vectors. *)
Definition qdrant_world_without_credentials : world fake_qdrant qd_call :=
  start [] [] (FakeQdrant [("mem0_memories", three_points)]).

Definition qdrant_world_bad_dimension : world fake_qdrant qd_call :=
  start [("QDRANT_URL", "https://qdrant.example:6333"); ("QDRANT_API_KEY", "secret");
         ("EMBEDDING_DIMS", "large")]
        [] (FakeQdrant [("mem0_memories", three_points)]).

Definition qdrant_world_with_empty : world fake_qdrant qd_call :=
  start [("QDRANT_URL", "https://qdrant.example:6333"); ("QDRANT_API_KEY", "secret")]
        [] (FakeQdrant [("mem0_memories", three_points); ("scratch", [])]).

Definition inspect_world (env : list (string * string)) : world fake_qdrant info_call :=
  start env [] (FakeQdrant [("mem0_memories", three_points); ("multi", [])]).

Definition qdrant_credentials : list (string * string) :=
  [("QDRANT_URL", "https://qdrant.example:6333"); ("QDRANT_API_KEY", "secret")].

(** A [.env] file that binds [QDRANT_URL] to a constant, one whose
    [QDRANT_URL=${QDRANT_URL}/v2] refers to the variable it binds, the
    configuration read in [qdrant_world], and stand-ins for [str] and
    [json.dumps]. *)
Definition other_env
  : option (string * (gmap string string -> gmap string string)) :=
  Some (".env", fun _ => {[ "QDRANT_URL" := "https://other.example:6333" ]}).

Definition growing_env
  : option (string * (gmap string string -> gmap string string)) :=
  Some (".env",
        fun env => {[ "QDRANT_URL" := default "" (env !! "QDRANT_URL") +:+ "/v2" ]}).

Definition example_config : QdrantManager.config :=
  QdrantManager.Config (Some "https://qdrant.example:6333") (Some "secret")
    "mem0_memories" 1536 "github_copilot".

(** The [QDRANT_URL] of the file replaces the one of the environment; the
    key, which the file does not bind, stays. *)

Definition plain_str (v : value) : string :=
  match v with VStr s => s | _ => "" end.

Definition no_json (d : list (string * string)) : string := "".

(** [count-vectors] with the name of the environment. *)

(** * Properties *)

(** ** Dictionaries *)

Lemma dict_get_set_eq d k v : dict_get (dict_set d k v) k = Some v.
Proof.
  induction d as [|[k' v'] d IH]; simpl.
  - by rewrite String.eqb_refl.
  - destruct (String.eqb_spec k' k) as [->|Hne]; simpl.
    + by rewrite String.eqb_refl.
    + destruct (String.eqb_spec k' k); [done|]. apply IH.
Qed.

Lemma dict_get_set_ne d k k' v :
  k ≠ k' -> dict_get (dict_set d k v) k' = dict_get d k'.
Proof.
  intros Hne. induction d as [|[k0 v0] d IH]; simpl.
  - destruct (String.eqb_spec k k'); done.
  - destruct (String.eqb_spec k0 k) as [->|Hk]; simpl.
    + destruct (String.eqb_spec k k'); done.
    + destruct (String.eqb_spec k0 k'); [done|apply IH].
Qed.

(** ** The configuration builder *)

Section BuilderFacts.
Context {S L : Type}.
Implicit Types w : world S L.

Ltac unfold_phase :=
  unfold Utils.configure_llm, Utils.configure_embedder, Utils.configure_vector_store,
    setitem3, getitem, setitem, when, bind, ret, raise,
    getenv, getenv_default, putenv, set_environ, eqs; simpl.

Ltac split_cases :=
  repeat first
    [ progress simpl
    | rewrite lookup_insert_eq
    | rewrite dict_get_set_eq
    | rewrite lookup_insert_ne by done
    | match goal with
      | |- context [bool_decide ?P] => destruct (bool_decide_reflect P)
      | |- context [truthy_opt ?o] =>
          let E := fresh "E" in destruct (truthy_opt o) eqn:E
      end ].

Ltac finish_phase :=
  eexists _, _; (split; [reflexivity|]);
  repeat split; intros; simpl;
  rewrite ?dict_get_set_eq, ?dict_get_set_ne by done;
  rewrite ?lookup_insert_eq, ?lookup_insert_ne by done;
  try done; try congruence.

(** The LLM step never raises, writes the section ["llm"] only, and
    touches two environment variables only. *)
Lemma configure_llm_run lp key model d w :
  exists d' env',
    Utils.configure_llm lp key model (VDict d) w
      = (Ok (VDict d'), set_environ (fun _ => env') w)
    /\ (forall k, k ≠ "llm" -> dict_get d' k = dict_get d k)
    /\ (forall k, k ≠ "OPENAI_API_KEY" -> k ≠ "OPENROUTER_API_KEY" ->
          env' !! k = environ w !! k)
    /\ (truthy_opt (environ w !! "OPENAI_API_KEY") = true ->
          env' !! "OPENAI_API_KEY" = environ w !! "OPENAI_API_KEY")
    /\ (lp = Some "openrouter" -> truthy_opt key = true ->
          env' !! "OPENROUTER_API_KEY" = key)
    /\ (lp ≠ Some "openrouter" ->
          env' !! "OPENROUTER_API_KEY" = environ w !! "OPENROUTER_API_KEY").
Proof.
  destruct w as [env sin sout sv cl]. unfold_phase.
  split_cases; finish_phase.
  all: by destruct key.
Qed.

(** What the LLM step writes, provider by provider. *)
Lemma configure_llm_section lp key model d w d' w' :
  Utils.configure_llm lp key model (VDict d) w = (Ok (VDict d'), w') ->
  (lp = Some "openai" \/ lp = Some "openrouter" ->
     dict_get d' "llm" = Some
       (VDict [("provider", VStr "openai");
               ("config", VDict [("model", of_opt model);
                                 ("temperature", VFloat 0.2);
                                 ("max_tokens", VInt 2000)])]))
  /\ (lp = Some "github_copilot" ->
     dict_get d' "llm" = Some
       (VDict [("provider", VStr "litellm");
               ("config", VDict [("model", VStr (or_default model "github_copilot/gpt-4o"));
                                 ("temperature", VFloat 0.2);
                                 ("max_tokens", VInt 2000)])]))
  /\ (lp = Some "ollama" ->
     dict_get d' "llm" = Some
       (VDict [("provider", VStr "ollama");
               ("config", VDict ([("model", of_opt model);
                                  ("temperature", VFloat 0.2);
                                  ("max_tokens", VInt 2000)]
                                 ++ if truthy_opt (environ w !! "LLM_BASE_URL")
                                    then [("ollama_base_url", of_opt (environ w !! "LLM_BASE_URL"))]
                                    else []))]))
  /\ (lp ≠ Some "openai" -> lp ≠ Some "openrouter" -> lp ≠ Some "github_copilot" ->
      lp ≠ Some "ollama" -> d' = d).
Proof.
  destruct w as [env sin sout sv cl]. unfold_phase.
  split_cases; intros ?; simplify_eq; repeat split; intros; simpl;
    rewrite ?dict_get_set_eq; try done; try congruence; try (by intuition congruence).
Qed.

Lemma configure_embedder_run lp key model d w :
  exists d' env',
    Utils.configure_embedder lp key model (VDict d) w
      = (Ok (VDict d'), set_environ (fun _ => env') w)
    /\ (forall k, k ≠ "embedder" -> dict_get d' k = dict_get d k)
    /\ (forall k, k ≠ "OPENAI_API_KEY" -> env' !! k = environ w !! k)
    /\ (truthy_opt (environ w !! "OPENAI_API_KEY") = true ->
          env' !! "OPENAI_API_KEY" = environ w !! "OPENAI_API_KEY").
Proof.
  destruct w as [env sin sout sv cl]. unfold_phase.
  split_cases; finish_phase.
Qed.

Lemma configure_embedder_section lp key model d w d' w' :
  Utils.configure_embedder lp key model (VDict d) w = (Ok (VDict d'), w') ->
  (lp = Some "openai" ->
     dict_get d' "embedder" = Some
       (VDict [("provider", VStr "openai");
               ("config", VDict [("model", VStr (or_default model "text-embedding-3-small"));
                                 ("embedding_dims", VInt 1536)])]))
  /\ (lp = Some "github_copilot" ->
     dict_get d' "embedder" = Some
       (VDict [("provider", VStr "github_copilot");
               ("config", VDict [("model", VStr (or_default model "github_copilot/text-embedding-3-small"));
                                 ("embedding_dims", VInt 1536)])]))
  /\ (lp = Some "ollama" ->
     dict_get d' "embedder" = Some
       (VDict [("provider", VStr "ollama");
               ("config", VDict ([("model", VStr (or_default model "nomic-embed-text"));
                                  ("embedding_dims", VInt 768)]
                                 ++ if truthy_opt (environ w !! "LLM_BASE_URL")
                                    then [("ollama_base_url", of_opt (environ w !! "LLM_BASE_URL"))]
                                    else []))]))
  /\ (lp ≠ Some "openai" -> lp ≠ Some "github_copilot" -> lp ≠ Some "ollama" -> d' = d).
Proof.
  destruct w as [env sin sout sv cl]. unfold_phase.
  split_cases; intros ?; simplify_eq; repeat split; intros; simpl;
    rewrite ?dict_get_set_eq; try done; try congruence; try (by intuition congruence).
Qed.

(** The vector-store step reads the environment and writes the section
    ["vector_store"]. *)
Lemma configure_vector_store_run lp d w :
  Utils.configure_vector_store lp (VDict d) w =
    (Ok (VDict (dict_set d "vector_store"
       (if bool_decide (environ w !! "VECTOR_STORE_PROVIDER" = Some "qdrant") then
          VDict [("provider", VStr "qdrant");
                 ("config", VDict [("collection_name",
                                      VStr (default "mem0_memories" (environ w !! "QDRANT_COLLECTION_NAME")));
                                   ("embedding_model_dims", VInt (Utils.vector_store_dims lp));
                                   ("url", of_opt (environ w !! "QDRANT_URL"));
                                   ("api_key", of_opt (environ w !! "QDRANT_API_KEY"))])]
        else
          VDict [("provider", VStr "supabase");
                 ("config", VDict [("connection_string",
                                      VStr (default "" (environ w !! "DATABASE_URL")));
                                   ("collection_name", VStr "mem0_memories");
                                   ("embedding_model_dims", VInt (Utils.vector_store_dims lp))])]))),
     w).
Proof.
  unfold Utils.configure_vector_store, bind, getenv_default, getenv, setitem, ret.
  destruct (environ w !! "VECTOR_STORE_PROVIDER") as [v|] eqn:E; cbn [default].
  - destruct (String.eqb_spec v "qdrant") as [->|Hne].
    + rewrite bool_decide_eq_true_2 by done. reflexivity.
    + rewrite bool_decide_eq_false_2 by congruence. simpl.
      rewrite (proj2 (String.eqb_neq _ _) Hne). reflexivity.
  - rewrite bool_decide_eq_false_2 by done. reflexivity.
Qed.

(** The builder is its three steps, one after the other: it returns a
    configuration, and this is what the configuration and the
    environment are afterwards. *)
Lemma builder_steps w :
  let lp := environ w !! "LLM_PROVIDER" in
  let key := environ w !! "LLM_API_KEY" in
  exists d1 w1 d2 cfg env',
    Utils.configure_llm lp key (environ w !! "LLM_CHOICE") (VDict []) w
      = (Ok (VDict d1), w1)
    /\ Utils.configure_embedder lp key (environ w !! "EMBEDDING_MODEL_CHOICE")
         (VDict d1) w1 = (Ok (VDict d2), set_environ (fun _ => env') w)
    /\ Utils.get_mem0_client_config w = (Ok cfg, set_environ (fun _ => env') w)
    /\ environ w1 !! "LLM_BASE_URL" = environ w !! "LLM_BASE_URL"
    /\ section cfg "llm" = dict_get d1 "llm"
    /\ section cfg "embedder" = dict_get d2 "embedder"
    /\ dict_get d1 "embedder" = None
    /\ section cfg "vector_store" = Some
         (if bool_decide (environ w !! "VECTOR_STORE_PROVIDER" = Some "qdrant") then
            VDict [("provider", VStr "qdrant");
                   ("config", VDict [("collection_name",
                                        VStr (default "mem0_memories" (environ w !! "QDRANT_COLLECTION_NAME")));
                                     ("embedding_model_dims", VInt (Utils.vector_store_dims lp));
                                     ("url", of_opt (environ w !! "QDRANT_URL"));
                                     ("api_key", of_opt (environ w !! "QDRANT_API_KEY"))])]
          else
            VDict [("provider", VStr "supabase");
                   ("config", VDict [("connection_string",
                                        VStr (default "" (environ w !! "DATABASE_URL")));
                                     ("collection_name", VStr "mem0_memories");
                                     ("embedding_model_dims", VInt (Utils.vector_store_dims lp))])])
    /\ (forall k, k ≠ "OPENAI_API_KEY" -> k ≠ "OPENROUTER_API_KEY" ->
          env' !! k = environ w !! k)
    /\ (truthy_opt (environ w !! "OPENAI_API_KEY") = true ->
          env' !! "OPENAI_API_KEY" = environ w !! "OPENAI_API_KEY")
    /\ (lp = Some "openrouter" -> truthy_opt key = true ->
          env' !! "OPENROUTER_API_KEY" = key)
    /\ (lp ≠ Some "openrouter" ->
          env' !! "OPENROUTER_API_KEY" = environ w !! "OPENROUTER_API_KEY").
Proof.
  intros lp key.
  destruct (configure_llm_run lp key (environ w !! "LLM_CHOICE") [] w)
    as (d1 & e1 & Hllm & Hd1 & Hframe1 & Hkeep1 & Hset1 & Hother1).
  destruct (configure_embedder_run lp key (environ w !! "EMBEDDING_MODEL_CHOICE")
              d1 (set_environ (fun _ => e1) w))
    as (d2 & e2 & Hemb & Hd2 & Hframe2 & Hkeep2).
  simpl in Hframe2, Hkeep2.
  pose proof (configure_vector_store_run lp d2 (set_environ (fun _ => e2) w)) as Hvs.
  eexists d1, _, d2, _, e2. split_and!.
  - exact Hllm.
  - exact Hemb.
  - unfold Utils.get_mem0_client_config, bind, getenv; simpl.
    fold lp key. rewrite Hllm, Hemb. exact Hvs.
  - simpl. by apply Hframe1.
  - simpl. rewrite dict_get_set_ne by done. by apply Hd2.
  - simpl. by rewrite dict_get_set_ne by done.
  - by rewrite Hd1.
  - simpl. rewrite dict_get_set_eq. simpl.
    rewrite !Hframe2, !Hframe1 by done. done.
  - intros k H1 H2. rewrite Hframe2, Hframe1; done.
  - intros Ht. rewrite Hkeep2; rewrite Hkeep1; done.
  - intros Hp Hk. rewrite Hframe2 by done. by apply Hset1.
  - intros Hp. rewrite Hframe2 by done. by apply Hother1.
Qed.

(** C8, amended.  The builder returns a configuration in every
    environment: no step of it raises.  Three inputs are passed on as
    they are, [None] when absent: the model name under [openai],
    [openrouter] and [ollama], and the URL and the key of the vector
    database.  The other inputs have a fall-back, which takes the place of
    an absent value: the model of [github_copilot], the embedding model of
    each provider, the collection name, the backend selector and the
    connection string.  The sections of an absent provider and the base
    URL of [ollama] are left out, and without [LLM_API_KEY] the
    environment is left as it was. *)
Theorem builder_never_raises w :
  let lp := environ w !! "LLM_PROVIDER" in
  let model := environ w !! "LLM_CHOICE" in
  let embedding_model := environ w !! "EMBEDDING_MODEL_CHOICE" in
  exists cfg env',
    Utils.get_mem0_client_config w = (Ok cfg, set_environ (fun _ => env') w)
    /\ (forall p, p ∈ ["openai"; "openrouter"; "ollama"] -> lp = Some p ->
          param cfg "llm" "model" = Some (of_opt model))
    /\ (environ w !! "VECTOR_STORE_PROVIDER" = Some "qdrant" ->
          param cfg "vector_store" "url" = Some (of_opt (environ w !! "QDRANT_URL"))
          /\ param cfg "vector_store" "api_key"
             = Some (of_opt (environ w !! "QDRANT_API_KEY"))
          /\ param cfg "vector_store" "collection_name"
             = Some (VStr (default "mem0_memories"
                             (environ w !! "QDRANT_COLLECTION_NAME"))))
    /\ (lp = Some "github_copilot" ->
          param cfg "llm" "model" = Some (VStr (or_default model "github_copilot/gpt-4o")))
    /\ (forall p fallback,
          (p, fallback) ∈ [("openai", "text-embedding-3-small");
                           ("github_copilot", "github_copilot/text-embedding-3-small");
                           ("ollama", "nomic-embed-text")] ->
          lp = Some p ->
          param cfg "embedder" "model" = Some (VStr (or_default embedding_model fallback)))
    /\ (environ w !! "VECTOR_STORE_PROVIDER" ≠ Some "qdrant" ->
          provider_of cfg "vector_store" = Some (VStr "supabase")
          /\ param cfg "vector_store" "connection_string"
             = Some (VStr (default "" (environ w !! "DATABASE_URL"))))
    /\ (lp = None -> section cfg "llm" = None /\ section cfg "embedder" = None)
    /\ (environ w !! "LLM_BASE_URL" = None ->
          param cfg "llm" "ollama_base_url" = None
          /\ param cfg "embedder" "ollama_base_url" = None)
    /\ (environ w !! "LLM_API_KEY" = None -> env' = environ w).
Proof.
  intros lp model embedding_model. subst lp model embedding_model.
  destruct (builder_steps w)
    as (d1 & w1 & d2 & cfg & env' & Hllm & Hemb & Hrun & Hurl & Hsl & Hse & Hd1
        & Hvs & Hframe & Hkeep & Hset & Hother).
  destruct (configure_llm_section _ _ _ _ _ _ _ Hllm) as (Lo & Lc & Ll & Ln).
  destruct (configure_embedder_section _ _ _ _ _ _ _ Hemb) as (Eo & Ec & El & En).
  exists cfg, env'. split_and!; [exact Hrun | | | | | | | |].
  - intros p Hp Hlp. unfold param. rewrite Hsl.
    rewrite !elem_of_cons in Hp.
    destruct Hp as [-> | [-> | [-> | Hp]]]; [| | |by apply elem_of_nil in Hp].
    + by rewrite Lo by auto.
    + by rewrite Lo by auto.
    + by rewrite Ll by auto.
  - intros Hq. unfold param. rewrite Hvs, bool_decide_eq_true_2 by done.
    split_and!; reflexivity.
  - intros Hc. unfold param. rewrite Hsl. by rewrite Lc by done.
  - intros p fallback Hp Hlp. unfold param. rewrite Hse.
    rewrite !elem_of_cons in Hp.
    destruct Hp as [Hp | [Hp | [Hp | Hp]]]; [| | |by apply elem_of_nil in Hp];
      injection Hp as -> ->.
    + by rewrite Eo by done.
    + by rewrite Ec by done.
    + by rewrite El by done.
  - intros Hq. unfold provider_of, param. rewrite Hvs, bool_decide_eq_false_2 by done.
    split; reflexivity.
  - intros Hnone. rewrite Hsl, Hse.
    rewrite Hnone in Ln, En.
    rewrite (En ltac:(done) ltac:(done) ltac:(done)).
    rewrite Hd1. rewrite (Ln ltac:(done) ltac:(done) ltac:(done) ltac:(done)).
    done.
  - intros Hbase. unfold param. rewrite Hsl, Hse.
    rewrite Hurl, Hbase in El. rewrite Hbase in Ll. simpl in El, Ll.
    destruct (decide (environ w !! "LLM_PROVIDER" = Some "openai")) as [Ho|Ho];
      [by rewrite Lo, Eo by auto|].
    destruct (decide (environ w !! "LLM_PROVIDER" = Some "github_copilot")) as [Hc|Hc];
      [by rewrite Lc, Ec by auto|].
    destruct (decide (environ w !! "LLM_PROVIDER" = Some "ollama")) as [Hl|Hl];
      [by rewrite Ll, El by auto|].
    rewrite (En Ho Hc Hl), Hd1.
    destruct (decide (environ w !! "LLM_PROVIDER" = Some "openrouter")) as [Hr|Hr];
      [by rewrite Lo by auto|].
    by rewrite (Ln Ho Hr Hc Hl).
  - intros Hkey. apply map_eq. intros k.
    destruct (decide (k = "OPENAI_API_KEY")) as [->|H1];
      [|destruct (decide (k = "OPENROUTER_API_KEY")) as [->|H2]].
    + clear -Hllm Hemb Hkey. revert Hllm Hemb. rewrite Hkey.
      destruct w as [env sin sout sv cl].
      unfold_phase. split_cases; intros; simplify_eq; done.
    + clear -Hllm Hemb Hkey. revert Hllm Hemb. rewrite Hkey.
      destruct w as [env sin sout sv cl].
      unfold_phase. split_cases; intros; simplify_eq; done.
    + by apply Hframe.
Qed.

(** C4.  With [VECTOR_STORE_PROVIDER] equal to ["qdrant"] the section
    ["vector_store"] has the Qdrant shape: collection name, embedding
    dimensionality, URL and API key.  With any other value, or none, it
    has the Supabase shape: connection string, collection name and
    embedding dimensionality. *)
Theorem vector_store_section w :
  exists cfg w',
    Utils.get_mem0_client_config w = (Ok cfg, w')
    /\ (environ w !! "VECTOR_STORE_PROVIDER" = Some "qdrant" ->
          section cfg "vector_store" = Some
            (VDict [("provider", VStr "qdrant");
                    ("config",
                     VDict [("collection_name",
                               VStr (default "mem0_memories"
                                       (environ w !! "QDRANT_COLLECTION_NAME")));
                            ("embedding_model_dims",
                               VInt (Utils.vector_store_dims (environ w !! "LLM_PROVIDER")));
                            ("url", of_opt (environ w !! "QDRANT_URL"));
                            ("api_key", of_opt (environ w !! "QDRANT_API_KEY"))])]))
    /\ (environ w !! "VECTOR_STORE_PROVIDER" ≠ Some "qdrant" ->
          section cfg "vector_store" = Some
            (VDict [("provider", VStr "supabase");
                    ("config",
                     VDict [("connection_string",
                               VStr (default "" (environ w !! "DATABASE_URL")));
                            ("collection_name", VStr "mem0_memories");
                            ("embedding_model_dims",
                               VInt (Utils.vector_store_dims (environ w !! "LLM_PROVIDER")))])])).
Proof.
  destruct (builder_steps w)
    as (d1 & w1 & d2 & cfg & env' & _ & _ & Hrun & _ & _ & _ & _ & Hvs & _).
  eexists cfg, _. split; [exact Hrun|]. rewrite Hvs. split; intros Hq.
  - by rewrite bool_decide_eq_true_2.
  - by rewrite bool_decide_eq_false_2.
Qed.

(** C5, amended.  [OPENAI_API_KEY], when it already holds a non-empty
    value, has the same value after the call, whatever the provider and
    the supplied key.  [OPENROUTER_API_KEY] is different: under the
    provider ["openrouter"] it is set to the supplied key, whatever it
    held before, and under any other provider it is left alone.  No other
    variable is changed. *)
Theorem credentials_after_build w :
  exists cfg env',
    Utils.get_mem0_client_config w = (Ok cfg, set_environ (fun _ => env') w)
    /\ (forall old, environ w !! "OPENAI_API_KEY" = Some old -> old ≠ "" ->
          env' !! "OPENAI_API_KEY" = Some old)
    /\ (forall key, environ w !! "LLM_PROVIDER" = Some "openrouter" ->
          environ w !! "LLM_API_KEY" = Some key -> key ≠ "" ->
          env' !! "OPENROUTER_API_KEY" = Some key)
    /\ (environ w !! "LLM_PROVIDER" ≠ Some "openrouter" ->
          env' !! "OPENROUTER_API_KEY" = environ w !! "OPENROUTER_API_KEY")
    /\ (forall k, k ≠ "OPENAI_API_KEY" -> k ≠ "OPENROUTER_API_KEY" ->
          env' !! k = environ w !! k).
Proof.
  destruct (builder_steps w)
    as (d1 & w1 & d2 & cfg & env' & _ & _ & Hrun & _ & _ & _ & _
        & _ & Hframe & Hkeep & Hset & Hother).
  exists cfg, env'. split_and!; [exact Hrun | | | exact Hother | exact Hframe].
  - intros old Hold Hne. rewrite Hkeep, Hold; [done|].
    rewrite Hold. by destruct old.
  - intros key Hp Hkey Hne. rewrite Hset, Hkey; [done..|].
    rewrite Hkey. by destruct key.
Qed.

(** C1, amended.  The section ["llm"] has the provider identifier and
    the parameter keys of its provider, for each of the four names.  The
    section ["embedder"] is written for three of them, with
    dimensionality 1536 for ["openai"] and ["github_copilot"] and 768 for
    ["ollama"]; for ["openrouter"] no such section is written, and 1536
    is the dimensionality handed to the vector store. *)
Theorem provider_sections w :
  let keys := ["model"; "temperature"; "max_tokens"] in
  let base_url :=
    if truthy_opt (environ w !! "LLM_BASE_URL") then ["ollama_base_url"] else [] in
  exists cfg w',
    Utils.get_mem0_client_config w = (Ok cfg, w')
    /\ (environ w !! "LLM_PROVIDER" = Some "openai" ->
          provider_of cfg "llm" = Some (VStr "openai")
          /\ param_keys cfg "llm" = Some keys
          /\ provider_of cfg "embedder" = Some (VStr "openai")
          /\ param cfg "embedder" "embedding_dims" = Some (VInt 1536))
    /\ (environ w !! "LLM_PROVIDER" = Some "openrouter" ->
          provider_of cfg "llm" = Some (VStr "openai")
          /\ param_keys cfg "llm" = Some keys
          /\ section cfg "embedder" = None
          /\ param cfg "vector_store" "embedding_model_dims" = Some (VInt 1536))
    /\ (environ w !! "LLM_PROVIDER" = Some "github_copilot" ->
          provider_of cfg "llm" = Some (VStr "litellm")
          /\ param_keys cfg "llm" = Some keys
          /\ provider_of cfg "embedder" = Some (VStr "github_copilot")
          /\ param cfg "embedder" "embedding_dims" = Some (VInt 1536))
    /\ (environ w !! "LLM_PROVIDER" = Some "ollama" ->
          provider_of cfg "llm" = Some (VStr "ollama")
          /\ param_keys cfg "llm" = Some (keys ++ base_url)
          /\ provider_of cfg "embedder" = Some (VStr "ollama")
          /\ param cfg "embedder" "embedding_dims" = Some (VInt 768)).
Proof.
  intros keys base_url.
  destruct (builder_steps w)
    as (d1 & w1 & d2 & cfg & env' & Hllm & Hemb & Hrun & Hurl & Hsl & Hse & Hd1
        & Hvs & _).
  destruct (configure_llm_section _ _ _ _ _ _ _ Hllm) as (Lo & Lc & Ll & Ln).
  destruct (configure_embedder_section _ _ _ _ _ _ _ Hemb) as (Eo & Ec & El & En).
  eexists cfg, _. split; [exact Hrun|].
  unfold provider_of, param_keys, param. rewrite Hsl, Hse, Hvs.
  split_and!; intros Hp; rewrite Hp in *.
  - rewrite Lo, Eo by auto. done.
  - rewrite Lo by auto.
    rewrite (En ltac:(done) ltac:(done) ltac:(done)), Hd1.
    split_and!; try done. by case_bool_decide.
  - rewrite Lc, Ec by auto. done.
  - rewrite Ll, El by auto. rewrite Hurl. subst base_url.
    by destruct (truthy_opt (environ w !! "LLM_BASE_URL")).
Qed.
End BuilderFacts.

(** The builder at the example environments. *)

Lemma builder_never_raises_bare :
  exists cfg env',
    Utils.get_mem0_client_config bare_world
      = (Ok cfg, set_environ (fun _ => env') bare_world)
    /\ section cfg "llm" = None /\ section cfg "embedder" = None
    /\ param cfg "vector_store" "connection_string" = Some (VStr "")
    /\ env' = environ bare_world.
Proof.
  destruct (builder_never_raises bare_world)
    as (cfg & env' & Hrun & _ & _ & _ & _ & Hstore & Hnone & _ & Henv).
  exists cfg, env'. split; [exact Hrun|].
  destruct Hnone as [Hl He]; [reflexivity|].
  destruct Hstore as [_ Hconn]; [discriminate|].
  split; [exact Hl|]. split; [exact He|]. split; [exact Hconn|].
  apply Henv. reflexivity.
Defined.

(** C8, as stated, fails: under [github_copilot] with neither model name
    nor [DATABASE_URL] in the environment, the three omitted inputs are
    not passed on as [None]; the configuration has the fall-backs. *)
Lemma omitted_inputs_get_fallbacks :
  let w : world unit unit := start [("LLM_PROVIDER", "github_copilot")] [] tt in
  environ w !! "LLM_CHOICE" = None
  /\ environ w !! "EMBEDDING_MODEL_CHOICE" = None
  /\ environ w !! "DATABASE_URL" = None
  /\ forall cfg, (Utils.get_mem0_client_config w).1 = Ok cfg ->
       param cfg "llm" "model" = Some (VStr "github_copilot/gpt-4o")
       /\ param cfg "embedder" "model"
          = Some (VStr "github_copilot/text-embedding-3-small")
       /\ param cfg "vector_store" "connection_string" = Some (VStr "")
       /\ param cfg "llm" "model" ≠ Some VNone.
Proof.
  vm_compute. split_and!; try reflexivity.
  intros cfg Hcfg. injection Hcfg as <-. split_and!; try reflexivity. discriminate.
Qed.

(** With [VECTOR_STORE_PROVIDER=qdrant] and no [QDRANT_*] variable. *)
Lemma vector_store_section_qdrant :
  exists cfg w',
    Utils.get_mem0_client_config ollama_qdrant_world = (Ok cfg, w')
    /\ section cfg "vector_store" = Some
         (VDict [("provider", VStr "qdrant");
                 ("config", VDict [("collection_name", VStr "mem0_memories");
                                   ("embedding_model_dims", VInt 768);
                                   ("url", VNone);
                                   ("api_key", VNone)])]).
Proof.
  destruct (vector_store_section ollama_qdrant_world) as (cfg & w' & Hrun & Hq & _).
  exists cfg, w'. split; [exact Hrun|]. apply Hq. reflexivity.
Defined.

(** An [OPENAI_API_KEY] that is set survives the supplied key. *)
Lemma credentials_after_build_openai :
  exists cfg env',
    Utils.get_mem0_client_config openai_world
      = (Ok cfg, set_environ (fun _ => env') openai_world)
    /\ env' !! "OPENAI_API_KEY" = Some "sk-old".
Proof.
  destruct (credentials_after_build openai_world) as (cfg & env' & Hrun & Hkeep & _).
  exists cfg, env'. split; [exact Hrun|]. apply Hkeep; [reflexivity | discriminate].
Defined.

(** C5, as stated, fails: under the provider ["openrouter"] the variable
    [OPENROUTER_API_KEY] held ["sk-old"] before the call and holds the
    supplied key after it. *)
Lemma openrouter_key_overwritten :
  environ openrouter_world !! "OPENROUTER_API_KEY" = Some "sk-old"
  /\ environ (Utils.get_mem0_client_config openrouter_world).2 !! "OPENROUTER_API_KEY"
     = Some "sk-new".
Proof. split; vm_compute; reflexivity. Qed.

(** The provider [ollama] with a base URL. *)
Lemma provider_sections_ollama :
  exists cfg w',
    Utils.get_mem0_client_config ollama_qdrant_world = (Ok cfg, w')
    /\ provider_of cfg "llm" = Some (VStr "ollama")
    /\ param_keys cfg "llm"
       = Some ["model"; "temperature"; "max_tokens"; "ollama_base_url"]
    /\ provider_of cfg "embedder" = Some (VStr "ollama")
    /\ param cfg "embedder" "embedding_dims" = Some (VInt 768).
Proof.
  destruct (provider_sections ollama_qdrant_world) as (cfg & w' & Hrun & _ & _ & _ & Ho).
  exists cfg, w'. split; [exact Hrun|]. apply Ho. reflexivity.
Defined.

(** C1, as stated, fails: under the provider ["openrouter"] the
    configuration has the sections ["llm"] and ["vector_store"] and no
    section ["embedder"], hence no embedding dimensionality. *)
Lemma openrouter_has_no_embedder :
  (Utils.get_mem0_client_config openrouter_world).1 = Ok
    (VDict [("llm",
             VDict [("provider", VStr "openai");
                    ("config", VDict [("model", VStr "openai/gpt-4o-mini");
                                      ("temperature", VFloat 0.2);
                                      ("max_tokens", VInt 2000)])]);
            ("vector_store",
             VDict [("provider", VStr "supabase");
                    ("config", VDict [("connection_string", VStr "");
                                      ("collection_name", VStr "mem0_memories");
                                      ("embedding_model_dims", VInt 1536)])])])
  /\ (forall cfg, (Utils.get_mem0_client_config openrouter_world).1 = Ok cfg ->
        section cfg "embedder" = None
        /\ param cfg "embedder" "embedding_dims" = None).
Proof.
  split; [vm_compute; reflexivity|].
  intros cfg Hcfg. vm_compute in Hcfg. injection Hcfg as <-. split; reflexivity.
Qed.

(** ** The memory manager *)

Section ManagerFacts.
Context {S : Type} `{Mem0 S}.
Implicit Types w : world S mem_call.

Local Arguments for_fold : simpl never.
Local Arguments MemoryManager.delete_one : simpl never.

Ltac run :=
  unfold bind, ret, raise, print, input, call, len, iter, try_except, when; simpl.

(** C3.  When at least one memory is listed and the line typed at the
    prompt is anything but [DELETE] (for instance [delete]),
    [safe_delete_all_memories] returns [False], the last thing it prints is
    the cancellation, and the only call it has made is the [get_all] that
    listed the memories: no [delete], and the service is as that read left
    it.  A non-empty list of memories satisfies the two hypotheses on the
    normalised response. *)
Theorem safe_delete_needs_exact_confirmation w confirmation rest response s1 n :
  stdin w = confirmation :: rest ->
  mem_get_all (Some MemoryManager.DEFAULT_USER_ID) None None (service w)
    = (inr response, s1) ->
  truthy (MemoryManager.memories_list_of response) = true ->
  py_len (MemoryManager.memories_list_of response) = Some n ->
  confirmation ≠ "DELETE" ->
  MemoryManager.safe_delete_all_memories w =
    (Ok false,
     World (environ w) rest
       (stdout w ++
          [[Lit "🗑️  Safely deleting all mem0 memories..."];
           [Lit "💡 This deletes memory data but preserves database structure"];
           [Lit "📋 Found "; Val (VInt (Z.of_nat n)); Lit " memories to delete"];
           [Lit "Type 'DELETE' to proceed: "];
           [Lit "❌ Operation cancelled"]])
       s1
       (calls w ++ [GetAll (Some MemoryManager.DEFAULT_USER_ID) None None])).
Proof.
  intros Hin Hget Htruthy Hlen Hne.
  unfold MemoryManager.safe_delete_all_memories. run.
  rewrite Hget. simpl. rewrite Htruthy. simpl. rewrite Hlen. simpl.
  rewrite Hin. simpl.
  rewrite (proj2 (String.eqb_neq _ _) Hne). simpl.
  by rewrite <- !app_assoc.
Qed.

Lemma for_fold_cons {A B} (x : A) xs (acc : B) body w :
  for_fold (x :: xs) acc body w
  = bind (body acc x) (fun acc' => for_fold xs acc' body) w.
Proof. reflexivity. Qed.

(** One turn of the deletion loop on a record with an identifier: one
    call of the client; if it raises, this is reported and the count
    stays.  [fails] says for which identifiers the client raises. *)
Lemma delete_one_has_id (fails : value -> bool) m w memory_id count :
  (forall id s, raised (mem_delete id s).1 = fails id) ->
  has_id m = true ->
  exists w',
    MemoryManager.delete_one (memory_id, count) m w
      = (Ok (Some (memory_id_of m),
             count + (if fails (memory_id_of m) then 0 else 1)), w')
    /\ calls w' = calls w ++ [Delete (memory_id_of m)]
    /\ stdin w' = stdin w
    /\ environ w' = environ w.
Proof.
  intros Hfail Hm.
  destruct m as [| | | | | |d]; try discriminate Hm.
  unfold has_id in Hm. simpl in Hm.
  unfold MemoryManager.delete_one, attempt, method_get, bind, ret. simpl.
  rewrite Hm. unfold try_except, call, bind, ret. simpl.
  specialize (Hfail (default VNone (dict_get d "id")) (service w)).
  destruct (mem_delete (default VNone (dict_get d "id")) (service w)) as [[e|[]] s'];
    simpl in Hfail; rewrite <- Hfail; simpl.
  - eexists. split; [by rewrite Nat.add_0_r|]. done.
  - eexists. split; [by rewrite Nat.add_1_r|]. done.
Qed.

(** The deletion loop: every record is handed to the client, one call
    each, in order, and the calls that returned are counted. *)
Lemma delete_loop (fails : value -> bool) items :
  (forall id s, raised (mem_delete id s).1 = fails id) ->
  Forall (fun m => has_id m = true) items ->
  forall w memory_id count,
  exists memory_id' w',
    for_fold items (memory_id, count) MemoryManager.delete_one w
      = (Ok (memory_id',
             count + length (List.filter (fun m => negb (fails (memory_id_of m))) items)),
         w')
    /\ calls w' = calls w ++ map (fun m => Delete (memory_id_of m)) items
    /\ stdin w' = stdin w
    /\ environ w' = environ w.
Proof.
  intros Hfail Hall. induction Hall as [|m items Hm Hall IH]; intros w memory_id count.
  - exists memory_id, w. simpl. rewrite Nat.add_0_r, app_nil_r. done.
  - destruct (delete_one_has_id fails m w memory_id count Hfail Hm)
      as (w1 & Hone & Hcalls1 & Hin1 & Henv1).
    rewrite for_fold_cons. cbn [map List.filter]. unfold bind at 1. rewrite Hone.
    destruct (IH w1 (Some (memory_id_of m))
                (count + (if fails (memory_id_of m) then 0 else 1)))
      as (mid' & w' & Hrun & Hcalls & Hin & Henv).
    exists mid', w'. rewrite Hrun, Hcalls, Hin, Henv, Hcalls1.
    split_and!; try done.
    + do 3 f_equal. destruct (fails (memory_id_of m)); simpl; lia.
    + by rewrite <- app_assoc.
Qed.

(** With the confirmation [DELETE], every listed record is handed to
    the client and the number of deletions that returned is reported. *)
Lemma safe_delete_all_counts (fails : value -> bool) w rest response s1 items :
  (forall id s, raised (mem_delete id s).1 = fails id) ->
  stdin w = "DELETE" :: rest ->
  mem_get_all (Some MemoryManager.DEFAULT_USER_ID) None None (service w)
    = (inr response, s1) ->
  MemoryManager.memories_list_of response = VList items ->
  items ≠ [] ->
  Forall (fun m => has_id m = true) items ->
  exists w',
    MemoryManager.safe_delete_all_memories w = (Ok true, w')
    /\ calls w' = calls w ++ GetAll (Some MemoryManager.DEFAULT_USER_ID) None None
                              :: map (fun m => Delete (memory_id_of m)) items
    /\ last (stdout w') = Some
         [Lit "✅ Successfully deleted ";
          Val (VInt (Z.of_nat
                 (length (List.filter (fun m => negb (fails (memory_id_of m))) items))));
          Lit " memories"].
Proof.
  intros Hfail Hin Hget Hlist Hne Hall.
  unfold MemoryManager.safe_delete_all_memories. run.
  rewrite Hget. simpl. rewrite Hlist. simpl.
  destruct items as [|m items']; [done|]. simpl. rewrite Hin. simpl.
  match goal with |- context [for_fold (m :: items') ?l _ ?w0] =>
    destruct (delete_loop fails (m :: items') Hfail Hall w0 (fst l) (snd l))
      as (mid' & w' & Hrun & Hcalls & _)
  end.
  simpl in Hrun, Hcalls. rewrite Hrun. simpl.
  eexists. split; [reflexivity|]. simpl. split.
  - rewrite Hcalls. by rewrite <- app_assoc.
  - by rewrite last_snoc.
Qed.

(** Displaying the listed records prints; it may raise, it never leaves
    the process, and it touches neither the input nor the service. *)
Lemma show_memories_frame items : forall i w,
  exists r w',
    MemoryManager.show_memories i items w = (r, w')
    /\ (r = Ok tt \/ exists e, r = Raise e)
    /\ (Forall (fun m => displayable m = true) items -> r = Ok tt)
    /\ environ w' = environ w /\ stdin w' = stdin w
    /\ service w' = service w /\ calls w' = calls w.
Proof.
  induction items as [|m items IH]; intros i w.
  - exists (Ok tt), w. simpl. unfold ret. split_and!; auto.
  - cbn [MemoryManager.show_memories]. unfold bind at 1.
    assert (Hone : exists r1 w1,
               MemoryManager.show_memory i m w = (r1, w1)
               /\ (r1 = Ok tt \/ exists e, r1 = Raise e)
               /\ (displayable m = true -> r1 = Ok tt)
               /\ environ w1 = environ w /\ stdin w1 = stdin w
               /\ service w1 = service w /\ calls w1 = calls w).
    { unfold MemoryManager.show_memory, method_get, slice_to, bind, ret, raise, print.
      destruct m as [| | | | | |d]; simpl;
        try (eexists _, _; split; [reflexivity|]; split_and!; eauto; done).
      destruct (default (VStr "N/A") (dict_get d "memory")); simpl;
        eexists _, _; (split; [reflexivity|]); split_and!; eauto; done. }
    destruct Hone as (r1 & w1 & -> & Hr1 & Hd1 & Henv1 & Hin1 & Hsv1 & Hc1).
    destruct (IH (Datatypes.S i) w1) as (r & w' & Hrun & Hr & Hd & Henv & Hin & Hsv & Hc).
    destruct Hr1 as [-> | [e ->]].
    + exists r, w'. rewrite Hrun. split_and!; try congruence; auto.
      intros Hall. apply Hd. by inversion Hall.
    + exists (Raise e), w1. split_and!; eauto.
      intros Hall. apply Hd1. by inversion Hall.
Qed.

(** An entry that cannot be displayed, one that is no dictionary or
    whose ['memory'] cannot be sliced, ends the display with an
    exception. *)
Lemma show_memories_raises items : forall i w,
  forallb displayable items = false ->
  exists e w', MemoryManager.show_memories i items w = (Raise e, w').
Proof.
  induction items as [|m items IH]; intros i w Hall; [discriminate|].
  cbn [MemoryManager.show_memories]. unfold bind at 1.
  assert (Hone : exists r1 w1,
             MemoryManager.show_memory i m w = (r1, w1)
             /\ (displayable m = true -> r1 = Ok tt)
             /\ (displayable m = false -> exists e, r1 = Raise e)).
  { unfold MemoryManager.show_memory, method_get, slice_to, bind, ret, raise, print.
    destruct m as [| | | | | |d]; simpl;
      try (eexists _, _; split; [reflexivity|]; split; [done|]; intros _; by eexists).
    destruct (default (VStr "N/A") (dict_get d "memory")); simpl;
      eexists _, _; (split; [reflexivity|]); split; try done; intros _; by eexists. }
  destruct Hone as (r1 & w1 & -> & Hok & Hraise).
  cbn [forallb] in Hall. destruct (displayable m).
  - rewrite (Hok eq_refl). apply IH. exact Hall.
  - destruct (Hraise eq_refl) as (e & ->). by eexists _, _.
Qed.

Lemma forallb_displayable items :
  forallb displayable items = true <-> Forall (fun m => displayable m = true) items.
Proof.
  induction items as [|m items IH]; cbn [forallb].
  - split; [constructor|done].
  - rewrite andb_true_iff, IH. split.
    + intros [Hm Hi]. by constructor.
    + intros Hall. by inversion Hall.
Qed.


(** The manager's copies of the two steps and of the dimension table are
    the ones of [Utils], step for step. *)
Lemma manager_configure_llm lp key model config w :
  MemoryManager.configure_llm lp key model config w
  = Utils.configure_llm lp key model config w.
Proof. reflexivity. Qed.

Lemma manager_configure_embedder lp key model config w :
  MemoryManager.configure_embedder lp key model config w
  = Utils.configure_embedder lp key model config w.
Proof. reflexivity. Qed.

Lemma manager_embedding_dims lp :
  MemoryManager.embedding_dims lp = Utils.vector_store_dims lp.
Proof. reflexivity. Qed.

(** The builder of the memory manager returns a configuration in every
    environment, like the one of [Utils]. *)
Lemma manager_config_run w :
  exists cfg env',
    MemoryManager.get_mem0_client_config w
    = (Ok cfg, set_environ (fun _ => env') w).
Proof.
  unfold MemoryManager.get_mem0_client_config, bind, getenv. simpl.
  rewrite manager_configure_llm.
  destruct (configure_llm_run (environ w !! "LLM_PROVIDER") (environ w !! "LLM_API_KEY")
              (environ w !! "LLM_CHOICE") [] w) as (d1 & e1 & -> & _).
  rewrite manager_configure_embedder.
  destruct (configure_embedder_run (environ w !! "LLM_PROVIDER")
              (environ w !! "LLM_API_KEY") (environ w !! "EMBEDDING_MODEL_CHOICE")
              d1 (set_environ (fun _ => e1) w)) as (d2 & e2 & -> & _).
  unfold getenv_default, setitem, ret. simpl. by eexists _, _.
Qed.

(** The [try] statement of the constructor returns, or leaves the
    process with status 1 after the failure message; either way it
    makes one call, the one of the factory. *)
Lemma init_try_outcome w :
  exists w1,
    (MemoryManager.init_try w = (Ok tt, w1)
     \/ MemoryManager.init_try w = (Exit 1, w1)
        /\ exists e, [Lit "❌ Failed to initialize mem0: "; Exc e] ∈ stdout w1)
    /\ List.filter is_delete (calls w1) = List.filter is_delete (calls w).
Proof.
  unfold MemoryManager.init_try, try_except, MemoryManager.get_mem0_client.
  destruct (manager_config_run w) as (cfg & env' & Hcfg).
  unfold bind, call. rewrite Hcfg. simpl.
  destruct (mem_from_config cfg env' (service w)) as [[e|[]] s1]; simpl.
  - eexists. split.
    + right. split; [reflexivity|]. exists e. simpl.
      rewrite !elem_of_app, !list_elem_of_singleton. tauto.
    + simpl. rewrite List.filter_app. simpl. by rewrite app_nil_r.
  - eexists. split; [left; reflexivity|].
    simpl. rewrite List.filter_app. simpl. by rewrite app_nil_r.
Qed.

Lemma init_outcome database_url w :
  exists w1,
    (MemoryManager.init database_url w = (Ok tt, w1)
     \/ MemoryManager.init database_url w = (Exit 1, w1)
        /\ exists e, [Lit "❌ Failed to initialize mem0: "; Exc e] ∈ stdout w1)
    /\ List.filter is_delete (calls w1) = List.filter is_delete (calls w).
Proof.
  assert (Hpre : exists w0,
    MemoryManager.init database_url w = MemoryManager.init_try w0
    /\ calls w0 = calls w).
  { unfold MemoryManager.init, bind, putenv, getenv, print. simpl.
    destruct (truthy_opt database_url); simpl; [by eexists|].
    destruct (truthy_opt (environ w !! "DATABASE_URL")); by eexists. }
  destruct Hpre as (w0 & -> & <-). apply init_try_outcome.
Qed.

Variable strip : string -> string.

(** C7, amended.  When the action [main] dispatches to is a delete action
    whose identifier is missing, that is, none of [--interactive],
    [--list-all], [--list-memories] or a delete flag earlier in the chain is
    given with it, the process ends with status 1 and no call that deletes
    has been made: either the constructor returned and the last line printed
    is the error naming the missing flag, or the constructor itself could
    not build the client, printed its failure and left with status 1. *)
Theorem missing_identifier_exits a w msg :
  MemoryManager.interactive a = false ->
  MemoryManager.list_all a = false ->
  MemoryManager.list_memories_flag a = false ->
  (MemoryManager.delete_memory a = true
     /\ truthy_opt (MemoryManager.memory_id a) = false
     /\ msg = "❌ Error: --memory-id is required for --delete-memory")
  \/ (MemoryManager.delete_memory a = false
     /\ MemoryManager.delete_user_memories_flag a = true
     /\ truthy_opt (MemoryManager.user_id a) = false
     /\ msg = "❌ Error: --user-id is required for --delete-user-memories")
  \/ (MemoryManager.delete_memory a = false
     /\ MemoryManager.delete_user_memories_flag a = false
     /\ MemoryManager.delete_agent_memories_flag a = true
     /\ truthy_opt (MemoryManager.agent_id a) = false
     /\ msg = "❌ Error: --agent-id is required for --delete-agent-memories")
  \/ (MemoryManager.delete_memory a = false
     /\ MemoryManager.delete_user_memories_flag a = false
     /\ MemoryManager.delete_agent_memories_flag a = false
     /\ MemoryManager.delete_run_memories_flag a = true
     /\ truthy_opt (MemoryManager.run_id a) = false
     /\ msg = "❌ Error: --run-id is required for --delete-run-memories") ->
  exists w1,
    List.filter is_delete (calls w1) = List.filter is_delete (calls w)
    /\ (MemoryManager.init (MemoryManager.database_url a) w = (Ok tt, w1)
          /\ MemoryManager.main strip a w
             = (Exit 1, World (environ w1) (stdin w1) (stdout w1 ++ [[Lit msg]])
                              (service w1) (calls w1))
        \/ MemoryManager.init (MemoryManager.database_url a) w = (Exit 1, w1)
          /\ MemoryManager.main strip a w = (Exit 1, w1)
          /\ exists e, [Lit "❌ Failed to initialize mem0: "; Exc e] ∈ stdout w1).
Proof.
  intros Hi Hl Hlm Hcase.
  destruct (init_outcome (MemoryManager.database_url a) w) as (w1 & Hinit & Hcalls).
  exists w1. split; [exact Hcalls|].
  destruct Hinit as [Hinit | [Hinit He]].
  - left. split; [exact Hinit|].
    unfold MemoryManager.main. unfold bind at 1. rewrite Hinit, Hi, Hl, Hlm. simpl.
    destruct Hcase as [(Hd & Hid & ->) | [(Hd & Hu & Hid & ->)
      | [(Hd & Hu & Ha & Hid & ->) | (Hd & Hu & Ha & Hr & Hid & ->)]]];
      rewrite ?Hd, ?Hu, ?Ha, ?Hr; unfold bind at 1; rewrite Hid; reflexivity.
  - right. split; [exact Hinit|]. split; [|exact He].
    unfold MemoryManager.main. unfold bind at 1. by rewrite Hinit.
Qed.
End ManagerFacts.

(** ** The interactive loop *)

Create HintDb shrinks.

Section InputFacts.
Context {S L : Type}.
Implicit Types w : world S L.

Lemma shrinks_ret {A} (a : A) : input_shrinks (S:=S) (L:=L) (ret a).
Proof. intros w. done. Qed.

Lemma shrinks_raise {A} e : input_shrinks (S:=S) (L:=L) (A:=A) (raise e).
Proof. intros w. done. Qed.

Lemma shrinks_sys_exit {A} c : input_shrinks (S:=S) (L:=L) (A:=A) (sys_exit c).
Proof. intros w. done. Qed.

Lemma shrinks_print l : input_shrinks (S:=S) (L:=L) (print l).
Proof. intros w. done. Qed.

Lemma shrinks_input prompt : input_shrinks (S:=S) (L:=L) (input prompt).
Proof. intros w. unfold input. destruct (stdin w); simpl; lia. Qed.

Lemma shrinks_call {A} entry (op : S -> (exception + A) * S) :
  input_shrinks (L:=L) (call entry op).
Proof. intros w. unfold call. by destruct (op (service w)) as [[e|a] s']. Qed.

Lemma shrinks_getenv k : input_shrinks (S:=S) (L:=L) (getenv k).
Proof. intros w. done. Qed.

Lemma shrinks_getenv_default k d : input_shrinks (S:=S) (L:=L) (getenv_default k d).
Proof. intros w. done. Qed.

Lemma shrinks_putenv k v : input_shrinks (S:=S) (L:=L) (putenv k v).
Proof. intros w. done. Qed.

Lemma shrinks_bind {A B} (m : M (world S L) A) (k : A -> M (world S L) B) :
  input_shrinks m -> (forall a, input_shrinks (k a)) -> input_shrinks (bind m k).
Proof.
  intros Hm Hk w. unfold bind. specialize (Hm w).
  destruct (m w) as [[a|e|c] w1]; simpl in *; try done.
  specialize (Hk a w1). lia.
Qed.

Lemma shrinks_try_except {A} (m : M (world S L) A) h :
  input_shrinks m -> (forall e, input_shrinks (h e)) -> input_shrinks (try_except m h).
Proof.
  intros Hm Hh w. unfold try_except. specialize (Hm w).
  destruct (m w) as [[a|e|c] w1]; simpl in *; try done.
  specialize (Hh e w1). lia.
Qed.

Lemma shrinks_attempt {A} (m : M (world S L) A) :
  input_shrinks m -> input_shrinks (attempt m).
Proof.
  intros Hm w. unfold attempt. specialize (Hm w).
  by destruct (m w) as [[a|e|c] w1].
Qed.

Lemma shrinks_when b (m : M (world S L) unit) :
  input_shrinks m -> input_shrinks (when b m).
Proof. intros Hm. destruct b; [done|]. apply shrinks_ret. Qed.

Lemma shrinks_if {A} (b : bool) (m1 m2 : M (world S L) A) :
  input_shrinks m1 -> input_shrinks m2 -> input_shrinks (if b then m1 else m2).
Proof. by destruct b. Qed.

Lemma shrinks_method_get v k d : input_shrinks (S:=S) (L:=L) (method_get v k d).
Proof. intros w. by destruct v. Qed.

Lemma shrinks_slice_to n v : input_shrinks (S:=S) (L:=L) (slice_to n v).
Proof. intros w. by destruct v. Qed.

Lemma shrinks_len v : input_shrinks (S:=S) (L:=L) (len v).
Proof. intros w. unfold len. by destruct (py_len v). Qed.

Lemma shrinks_iter v : input_shrinks (S:=S) (L:=L) (iter v).
Proof. intros w. unfold iter. by destruct (py_iter v). Qed.

Lemma shrinks_setitem v k x : input_shrinks (S:=S) (L:=L) (setitem v k x).
Proof. intros w. by destruct v. Qed.

Lemma shrinks_getitem v k : input_shrinks (S:=S) (L:=L) (getitem v k).
Proof. intros w. destruct v; try done. simpl. by destruct (dict_get d k). Qed.

Lemma shrinks_for_fold {A B} (xs : list A) (body : B -> A -> M (world S L) B) :
  (forall acc x, input_shrinks (body acc x)) ->
  forall acc, input_shrinks (for_fold xs acc body).
Proof.
  intros Hbody. induction xs as [|x xs IH]; intros acc.
  - apply shrinks_ret.
  - apply shrinks_bind; [apply Hbody | intros acc'; apply IH].
Qed.
End InputFacts.

#[export] Hint Resolve shrinks_ret shrinks_raise shrinks_sys_exit shrinks_print
  shrinks_input shrinks_call shrinks_getenv shrinks_getenv_default shrinks_putenv
  shrinks_bind shrinks_try_except shrinks_attempt shrinks_when shrinks_if
  shrinks_method_get shrinks_slice_to shrinks_len shrinks_iter
  shrinks_setitem shrinks_getitem shrinks_for_fold : shrinks.

Section InteractiveFacts.
Context {S : Type} `{Mem0 S}.
Implicit Types w : world S mem_call.

Ltac shrinks := repeat (intros; first
  [ apply shrinks_bind | apply shrinks_try_except | apply shrinks_if
  | apply shrinks_when | apply shrinks_attempt | apply shrinks_for_fold
  | solve [auto with shrinks] ]).

Lemma shrinks_show_memories items : forall i,
  input_shrinks (S:=S) (MemoryManager.show_memories i items).
Proof.
  induction items as [|m items IH]; intros i; cbn [MemoryManager.show_memories];
    [apply shrinks_ret|].
  apply shrinks_bind; [|intros; apply IH].
  unfold MemoryManager.show_memory. shrinks.
Qed.

Lemma shrinks_list_memories u a r :
  input_shrinks (S:=S) (MemoryManager.list_memories u a r).
Proof.
  unfold MemoryManager.list_memories. shrinks. apply shrinks_show_memories.
Qed.

Lemma shrinks_delete_memory_by_id i :
  input_shrinks (S:=S) (MemoryManager.delete_memory_by_id i).
Proof. unfold MemoryManager.delete_memory_by_id. shrinks. Qed.

Lemma shrinks_delete_user_memories i :
  input_shrinks (S:=S) (MemoryManager.delete_user_memories i).
Proof. unfold MemoryManager.delete_user_memories. shrinks. Qed.

Lemma shrinks_delete_agent_memories i :
  input_shrinks (S:=S) (MemoryManager.delete_agent_memories i).
Proof. unfold MemoryManager.delete_agent_memories. shrinks. Qed.

Lemma shrinks_delete_run_memories i :
  input_shrinks (S:=S) (MemoryManager.delete_run_memories i).
Proof. unfold MemoryManager.delete_run_memories. shrinks. Qed.

Lemma shrinks_delete_one locals m :
  input_shrinks (S:=S) (MemoryManager.delete_one locals m).
Proof.
  unfold MemoryManager.delete_one. destruct locals as [mid count]. shrinks.
  destruct a as [e|id]; shrinks;
    unfold MemoryManager.could_not_delete; destruct mid; shrinks.
Qed.

Lemma shrinks_safe_delete_all_memories :
  input_shrinks (S:=S) MemoryManager.safe_delete_all_memories.
Proof.
  unfold MemoryManager.safe_delete_all_memories. shrinks.
  apply shrinks_delete_one.
Qed.

Variable strip : string -> string.

Lemma shrinks_ask {A} prompt (action : string -> M (world S mem_call) A) :
  (forall x, input_shrinks (action x)) ->
  input_shrinks (S:=S) (MemoryManager.ask strip prompt action).
Proof. intros Ha. unfold MemoryManager.ask. shrinks. Qed.

(** Two continuations that agree on the worlds with few lines left agree
    after a computation that reads only. *)
Lemma bind_agree {A B} (m : M (world S mem_call) A) (k1 k2 : M (world S mem_call) B) n w :
  input_shrinks m ->
  (forall w', length (stdin w') <= n -> k1 w' = k2 w') ->
  length (stdin w) <= n ->
  bind m (fun _ => k1) w = bind m (fun _ => k2) w.
Proof.
  intros Hm Hk Hn. unfold bind. specialize (Hm w).
  destruct (m w) as [[a|e|c] w1]; simpl in *; try done.
  apply Hk. lia.
Qed.

(** A sequence of [print]s returns and reads nothing. *)
Lemma print_last l w :
  exists w1, print l w = (Ok tt, w1) /\ stdin w1 = stdin w.
Proof. eexists. split; reflexivity. Qed.

Lemma print_then l (k : M (world S mem_call) unit) :
  (forall w, exists w1, k w = (Ok tt, w1) /\ stdin w1 = stdin w) ->
  forall w, exists w1, bind (print l) (fun _ => k) w = (Ok tt, w1) /\ stdin w1 = stdin w.
Proof.
  intros Hk w. unfold bind, print.
  destruct (Hk (World (environ w) (stdin w) (stdout w ++ [l]) (service w) (calls w)))
    as (w1 & Hrun & Hin).
  exists w1. split; [exact Hrun | exact Hin].
Qed.

Lemma print_menu_run w :
  exists w1, MemoryManager.print_menu w = (Ok tt, w1) /\ stdin w1 = stdin w.
Proof.
  revert w. unfold MemoryManager.print_menu.
  do 9 apply print_then. apply print_last.
Qed.

(** At the end of the input a turn of the loop ends with [EOFError],
    however many turns are left. *)
Lemma interactive_loop_eof n m w :
  stdin w = [] ->
  MemoryManager.interactive_loop strip n w = MemoryManager.interactive_loop strip m w.
Proof.
  intros Hin.
  destruct n, m; cbn [MemoryManager.interactive_loop];
    unfold bind at 1; symmetry; unfold bind at 1;
    destruct (print_menu_run w) as (w1 & -> & Hw1);
    unfold bind at 1; symmetry; unfold bind at 1;
    unfold input; rewrite Hw1, Hin; reflexivity.
Qed.

(** The unrolling of the loop is exact: any number of turns that is at
    least the number of lines left on standard input gives the same run,
    so [interactive_mode] is the [while True] loop of the program. *)
Lemma interactive_loop_fuel n : forall m w,
  length (stdin w) <= n -> length (stdin w) <= m ->
  MemoryManager.interactive_loop strip n w = MemoryManager.interactive_loop strip m w.
Proof.
  induction n as [|n IH]; intros m w Hn Hm.
  { apply interactive_loop_eof. destruct (stdin w); [done|simpl in Hn; lia]. }
  destruct m as [|m].
  { apply interactive_loop_eof. destruct (stdin w); [done|simpl in Hm; lia]. }
  destruct (stdin w) as [|choice rest] eqn:Hin; [by apply interactive_loop_eof|].
  simpl in Hn, Hm.
  cbn [MemoryManager.interactive_loop].
  unfold bind at 1; symmetry; unfold bind at 1.
  destruct (print_menu_run w) as (w1 & -> & Hw1).
  unfold bind at 1; symmetry; unfold bind at 1.
  unfold input. rewrite Hw1, Hin.
  set (w2 := World _ rest _ _ _).
  assert (forall w', length (stdin w') <= length (stdin w2) ->
            MemoryManager.interactive_loop strip n w'
            = MemoryManager.interactive_loop strip m w') as Hk
    by (intros w' Hw'; cbn in Hw'; apply IH; lia).
  repeat (match goal with
          | |- (if ?b then _ else _) _ = (if ?b then _ else _) _ => destruct b
          end);
    try reflexivity;
    (eapply bind_agree; [|exact Hk|lia]);
    auto using shrinks_list_memories, shrinks_ask, shrinks_delete_memory_by_id,
      shrinks_delete_user_memories, shrinks_delete_agent_memories,
      shrinks_delete_run_memories, shrinks_safe_delete_all_memories, shrinks_print.
Qed.
End InteractiveFacts.

(** ** The Qdrant manager *)

(** Only [y] and [Y] lower to [y]. *)
Lemma lower_y s : QdrantManager.lower s = "y" <-> s = "y" \/ s = "Y".
Proof.
  split.
  - destruct s as [|c [|c' s']]; try discriminate.
    intros Hc. injection Hc as Hc. revert Hc.
    destruct c as [[] [] [] [] [] [] [] []]; vm_compute; intros; try discriminate; auto.
  - by intros [-> | ->].
Qed.

Section QdrantFacts.
Context {S : Type} `{Qdrant S}.
Variable dotenv : option (string * (gmap string string -> gmap string string)).
Variable py_int : string -> option Z.
Implicit Types w : world S qd_call.

Local Abbreviation connect := (QdrantManager.connect dotenv py_int).
Local Abbreviation create_collection := (QdrantManager.create_collection dotenv py_int).
Local Abbreviation delete_collection := (QdrantManager.delete_collection dotenv py_int).
Local Abbreviation clear_collection := (QdrantManager.clear_collection dotenv py_int).
Local Abbreviation clear_collection_setup :=
  (QdrantManager.clear_collection_setup dotenv py_int).

(** Loading the configuration and building the client object make no
    request and read no input. *)
Lemma load_env_config_frame w :
  exists r w1,
    QdrantManager.load_env_config dotenv py_int w = (r, w1)
    /\ (forall c, r ≠ Exit c)
    /\ stdin w1 = stdin w /\ service w1 = service w /\ calls w1 = calls w.
Proof.
  unfold QdrantManager.load_env_config, bind, print, getenv, getenv_default, ret, raise.
  destruct dotenv as [[path bindings]|]; simpl;
    match goal with |- context [py_int ?s] => destruct (py_int s) end;
    eexists _, _; (split; [reflexivity|]); done.
Qed.

Lemma connect_frame w :
  exists r w1,
    connect w = (r, w1)
    /\ (forall c, r ≠ Exit c)
    /\ stdin w1 = stdin w /\ service w1 = service w /\ calls w1 = calls w.
Proof.
  unfold QdrantManager.connect. unfold bind at 1.
  destruct (load_env_config_frame w) as (r & w1 & -> & Hr & Hin & Hsv & Hc).
  destruct r as [cfg|e|c]; [| |by destruct (Hr c)].
  - unfold QdrantManager.get_qdrant_client, bind, ret, raise.
    destruct (negb (truthy_opt (QdrantManager.url cfg))
              || negb (truthy_opt (QdrantManager.api_key cfg)));
      eexists _, _; (split; [reflexivity|]); done.
  - eexists _, _. split; [reflexivity|]. done.
Qed.

Lemma existing_nonempty (name : string) (names : list string) :
  name ∈ names -> exists c cs, filter (fun c => c = name) names = c :: cs.
Proof.
  intros Hin. destruct (filter (fun c => c = name) names) as [|c cs] eqn:E.
  - assert (name ∈ filter (fun c => c = name) names) as Hf
      by (apply list_elem_of_filter; done).
    rewrite E in Hf. by apply elem_of_nil in Hf.
  - by exists c, cs.
Qed.


Lemma clear_collection_setup_frame a w :
  exists r w1,
    clear_collection_setup a w = (r, w1)
    /\ stdin w1 = stdin w /\ service w1 = service w /\ calls w1 = calls w.
Proof.
  unfold QdrantManager.clear_collection_setup. unfold bind at 1.
  destruct (truthy_opt (QdrantManager.arg_collection_name a)).
  - unfold ret at 1. unfold bind at 1.
    destruct (connect_frame w) as (r & w1 & -> & _ & Hin & Hsv & Hc).
    destruct r; eexists _, _; (split; [reflexivity|]); done.
  - unfold bind at 1.
    destruct (load_env_config_frame w) as (r0 & w0 & -> & _ & Hin0 & Hsv0 & Hc0).
    destruct r0 as [cfg0|e|c]; try (eexists _, _; (split; [reflexivity|]); done).
    unfold ret at 1. unfold bind at 1.
    destruct (connect_frame w0) as (r & w1 & -> & _ & Hin & Hsv & Hc).
    destruct r; eexists _, _; (split; [reflexivity|]); simpl; split_and!; congruence.
Qed.

(** The [try] statement of [delete_collection] makes one call. *)
Lemma delete_collection_try_calls name w :
  exists w',
    QdrantManager.delete_collection_try name w = (Ok tt, w')
    /\ calls w' = calls w ++ [DeleteCollection name].
Proof.
  unfold QdrantManager.delete_collection_try, try_except, bind, call, print.
  destruct (qd_delete_collection name (service w)) as [[e|[]] s1]; simpl;
    eexists; (split; [reflexivity|]); done.
Qed.

(** The [try] statement of [clear_collection] lists the points, then
    deletes all of them with one call, and reports how many it listed,
    or the error of the call that raised. *)
Lemma clear_collection_try_calls name w :
  exists w',
    QdrantManager.clear_collection_try name w = (Ok tt, w')
    /\ calls w' = calls w ++ Scroll name 10000 ::
         match qd_scroll name 10000 (service w) with
         | (inr (p :: ps), _) => [DeletePoints name (map point_id (p :: ps))]
         | _ => []
         end
    /\ forall p ps s1, qd_scroll name 10000 (service w) = (inr (p :: ps), s1) ->
         last (stdout w') = Some
           match (qd_delete name (map point_id (p :: ps)) s1).1 with
           | inl e => [Lit "❌ Error clearing collection: "; Exc e]
           | inr _ =>
               [Lit "✅ Cleared "; Val (VInt (Z.of_nat (length (p :: ps))));
                Lit " vectors from collection '"; Val (VStr name); Lit "'"]
           end.
Proof.
  unfold QdrantManager.clear_collection_try, try_except, bind, call, print.
  destruct (qd_scroll name 10000 (service w)) as [[e|[|p ps]] s1]; simpl.
  - eexists. split; [reflexivity|]. split; [done|]. intros; discriminate.
  - eexists. split; [reflexivity|]. split; [done|]. intros; discriminate.
  - destruct (qd_delete name (point_id p :: map point_id ps) s1) as [[e|[]] s2] eqn:Hdel;
      simpl; (eexists; split; [reflexivity|]); simpl.
    + split; [by rewrite <- app_assoc|]. intros ? ? ? [= <- <- <-].
      simpl. rewrite Hdel. by rewrite last_snoc.
    + split; [by rewrite <- app_assoc|]. intros ? ? ? [= <- <- <-].
      simpl. rewrite Hdel. rewrite last_snoc. by rewrite length_map.
Qed.

End QdrantFacts.

(** ** Batch deletion *)

Section BatchFacts.
Context {S : Type} `{Mem0 S} {Q : Type} `{Qdrant Q}.

End BatchFacts.

(** ** The scripts against the test doubles *)

(** The confirmation [delete], in lower case, deletes nothing. *)
Lemma safe_delete_lowercase_cancelled :
  let w' := (MemoryManager.safe_delete_all_memories
               (manager_world ["delete"] (inr three_memories))).2 in
  (MemoryManager.safe_delete_all_memories
     (manager_world ["delete"] (inr three_memories))).1 = Ok false
  /\ calls w' = [GetAll (Some "user") None None]
  /\ deleted (service w') = []
  /\ last (stdout w') = Some [Lit "❌ Operation cancelled"].
Proof.
  rewrite (safe_delete_needs_exact_confirmation
             (manager_world ["delete"] (inr three_memories))
             "delete" [] three_memories (FakeMem0 (inr three_memories) []) 3);
    [ | reflexivity | reflexivity | reflexivity | reflexivity | discriminate ].
  simpl. split_and!; reflexivity.
Defined.





(** [--delete-memory] without [--memory-id]. *)
Lemma delete_memory_alone_exits :
  exists w',
    MemoryManager.main (fun s => s) delete_memory_alone
      (manager_world [] (inr three_memories)) = (Exit 1, w')
    /\ List.filter is_delete (calls w') = []
    /\ last (stdout w') = Some [Lit "❌ Error: --memory-id is required for --delete-memory"].
Proof.
  destruct (missing_identifier_exits (fun s => s) delete_memory_alone
              (manager_world [] (inr three_memories)) _
              eq_refl eq_refl eq_refl (or_introl (conj eq_refl (conj eq_refl eq_refl))))
    as (w1 & Hc & [[Hinit Hmain] | [Hinit _]]).
  - eexists. split; [exact Hmain|]. simpl. split; [exact Hc | by rewrite last_snoc].
  - vm_compute in Hinit. discriminate Hinit.
Defined.

(** C7, as stated, fails: [--delete-user-memories] without [--user-id],
    given together with [--delete-memory --memory-id m1], prints no error
    and does not leave the process; the memory [m1] is deleted. *)
Lemma second_delete_flag_is_ignored :
  let run := MemoryManager.main (fun s => s) delete_memory_and_user_memories
               (manager_world [] (inr three_memories)) in
  MemoryManager.delete_user_memories_flag delete_memory_and_user_memories = true
  /\ MemoryManager.user_id delete_memory_and_user_memories = None
  /\ run.1 = Ok tt
  /\ List.filter is_delete (calls run.2) = [Delete (VStr "m1")]
  /\ deleted (service run.2) = [VStr "m1"].
Proof. vm_compute. split_and!; reflexivity. Qed.



(** * Further properties *)

(** ** The two builders *)

Section TwoBuilders.
Context {S : Type} `{Mem0 S}.
Implicit Types w : world S mem_call.

(** X1. The memory manager's copy of the configuration builder and the
    builder of [utils.py] read the same environment, leave it in the same
    state and build the same [llm] and [embedder] sections.  The manager's
    [vector_store] section is always the Supabase one, with the connection
    string of [DATABASE_URL] and the dimension of the provider, so the two
    dictionaries are equal unless [VECTOR_STORE_PROVIDER] is [qdrant]. *)
Theorem builders_agree w :
  exists cfg cfg' w',
    Utils.get_mem0_client_config w = (Ok cfg, w')
    /\ MemoryManager.get_mem0_client_config w = (Ok cfg', w')
    /\ section cfg' "llm" = section cfg "llm"
    /\ section cfg' "embedder" = section cfg "embedder"
    /\ section cfg' "vector_store" = Some
         (VDict [("provider", VStr "supabase");
                 ("config",
                  VDict [("connection_string",
                            VStr (default "" (environ w !! "DATABASE_URL")));
                         ("collection_name", VStr "mem0_memories");
                         ("embedding_model_dims",
                            VInt (Utils.vector_store_dims (environ w !! "LLM_PROVIDER")))])])
    /\ (environ w !! "VECTOR_STORE_PROVIDER" ≠ Some "qdrant" -> cfg' = cfg).
Proof.
  destruct (configure_llm_run (environ w !! "LLM_PROVIDER") (environ w !! "LLM_API_KEY")
              (environ w !! "LLM_CHOICE") [] w) as (d1 & e1 & Hllm & _ & Hf1 & _).
  destruct (configure_embedder_run (environ w !! "LLM_PROVIDER")
              (environ w !! "LLM_API_KEY") (environ w !! "EMBEDDING_MODEL_CHOICE")
              d1 (set_environ (fun _ => e1) w)) as (d2 & e2 & Hemb & _ & Hf2 & _).
  simpl in Hf2.
  pose proof (configure_vector_store_run (environ w !! "LLM_PROVIDER") d2
                (set_environ (fun _ => e2) w)) as Hvs.
  assert (Hdb : e2 !! "DATABASE_URL" = environ w !! "DATABASE_URL")
    by (rewrite Hf2, Hf1; done).
  assert (Hsel : e2 !! "VECTOR_STORE_PROVIDER" = environ w !! "VECTOR_STORE_PROVIDER")
    by (rewrite Hf2, Hf1; done).
  eexists _, _, _. split_and!.
  - unfold Utils.get_mem0_client_config, bind, getenv. simpl.
    rewrite Hllm, Hemb. exact Hvs.
  - unfold MemoryManager.get_mem0_client_config, bind, getenv, getenv_default,
      setitem, ret. simpl.
    rewrite manager_configure_llm, Hllm, manager_configure_embedder, Hemb.
    reflexivity.
  - simpl. by rewrite !dict_get_set_ne by done.
  - simpl. by rewrite !dict_get_set_ne by done.
  - simpl. by rewrite dict_get_set_eq, Hdb.
  - intros Hq. simpl. rewrite Hsel, Hdb. by rewrite bool_decide_eq_false_2.
Qed.
End TwoBuilders.

(** ** The constructor of the memory manager *)

Section ConstructorFacts.
Context {S : Type} `{Mem0 S}.
Implicit Types w : world S mem_call.

(** The builder of the memory manager: the connection string is
    [DATABASE_URL], and only the two credential variables can change. *)
Lemma manager_builder_store w :
  exists cfg env',
    MemoryManager.get_mem0_client_config w = (Ok cfg, set_environ (fun _ => env') w)
    /\ param cfg "vector_store" "connection_string"
       = Some (VStr (default "" (environ w !! "DATABASE_URL")))
    /\ (forall k, k ≠ "OPENAI_API_KEY" -> k ≠ "OPENROUTER_API_KEY" ->
          env' !! k = environ w !! k).
Proof.
  destruct (configure_llm_run (environ w !! "LLM_PROVIDER") (environ w !! "LLM_API_KEY")
              (environ w !! "LLM_CHOICE") [] w) as (d1 & e1 & Hllm & _ & Hf1 & _).
  destruct (configure_embedder_run (environ w !! "LLM_PROVIDER")
              (environ w !! "LLM_API_KEY") (environ w !! "EMBEDDING_MODEL_CHOICE")
              d1 (set_environ (fun _ => e1) w)) as (d2 & e2 & Hemb & _ & Hf2 & _).
  simpl in Hf2.
  eexists _, e2. split_and!.
  - unfold MemoryManager.get_mem0_client_config, bind, getenv, getenv_default,
      setitem, ret. simpl.
    rewrite manager_configure_llm, Hllm, manager_configure_embedder, Hemb.
    reflexivity.
  - unfold param. simpl. rewrite dict_get_set_eq. simpl.
    by rewrite Hf2, Hf1.
  - intros k H1 H2. by rewrite Hf2, Hf1.
Qed.

(** The [try] statement of the constructor, case by case. *)
Lemma init_try_run w :
  exists cfg env',
    MemoryManager.get_mem0_client_config w = (Ok cfg, set_environ (fun _ => env') w)
    /\ MemoryManager.init_try w =
       match mem_from_config cfg env' (service w) with
       | (inl e, s1) =>
           (Exit 1,
            World env' (stdin w)
              (stdout w ++
                 [[Lit "❌ Failed to initialize mem0: "; Exc e];
                  [Lit "💡 Check your .env file and ensure all required environment variables are set:"];
                  [Lit "   - DATABASE_URL (required)"];
                  [Lit "   - LLM_PROVIDER (openai, github_copilot, ollama)"];
                  [Lit "   - LLM_CHOICE (model name)"];
                  [Lit "   - LLM_API_KEY (if using OpenAI/OpenRouter)"];
                  [Lit "   - EMBEDDING_MODEL_CHOICE (optional)"]])
              s1 (calls w ++ [FromConfig cfg]))
       | (inr _, s1) =>
           (Ok tt,
            World env' (stdin w)
              (stdout w ++
                 [[Lit "✅ Connected to mem0 successfully"];
                  [Lit "🤖 LLM Provider: ";
                   Val (VStr (default "not set" (env' !! "LLM_PROVIDER")))];
                  [Lit "📝 LLM Model: ";
                   Val (VStr (default "not set" (env' !! "LLM_CHOICE")))]])
              s1 (calls w ++ [FromConfig cfg]))
       end.
Proof.
  destruct (manager_builder_store w) as (cfg & env' & Hcfg & _).
  exists cfg, env'. split; [exact Hcfg|].
  unfold MemoryManager.init_try, try_except, MemoryManager.get_mem0_client.
  unfold bind, call. rewrite Hcfg. simpl.
  destruct (mem_from_config cfg env' (service w)) as [[e|[]] s1]; simpl.
  - by rewrite <- !app_assoc.
  - by rewrite <- !app_assoc.
Qed.

(** X2. The constructor of [MemoryManager] asks for the client exactly
    once and reads no input.  If building the client raises, the process
    is left with status 1 and the last seven lines printed are the failure
    and the list of variables to check; if it returns, the constructor
    returns and the last three lines are the connection report. *)
Theorem init_failure_policy database_url w :
  exists cfg w1,
    calls w1 = calls w ++ [FromConfig cfg]
    /\ stdin w1 = stdin w
    /\ match (mem_from_config cfg (environ w1) (service w)).1 with
       | inl e =>
           MemoryManager.init database_url w = (Exit 1, w1)
           /\ exists printed,
               stdout w1 = printed ++
                 [[Lit "❌ Failed to initialize mem0: "; Exc e];
                  [Lit "💡 Check your .env file and ensure all required environment variables are set:"];
                  [Lit "   - DATABASE_URL (required)"];
                  [Lit "   - LLM_PROVIDER (openai, github_copilot, ollama)"];
                  [Lit "   - LLM_CHOICE (model name)"];
                  [Lit "   - LLM_API_KEY (if using OpenAI/OpenRouter)"];
                  [Lit "   - EMBEDDING_MODEL_CHOICE (optional)"]]
       | inr _ =>
           MemoryManager.init database_url w = (Ok tt, w1)
           /\ exists printed,
               stdout w1 = printed ++
                 [[Lit "✅ Connected to mem0 successfully"];
                  [Lit "🤖 LLM Provider: ";
                   Val (VStr (default "not set" (environ w1 !! "LLM_PROVIDER")))];
                  [Lit "📝 LLM Model: ";
                   Val (VStr (default "not set" (environ w1 !! "LLM_CHOICE")))]]
       end.
Proof.
  assert (Hpre : exists w0,
    MemoryManager.init database_url w = MemoryManager.init_try w0
    /\ calls w0 = calls w /\ stdin w0 = stdin w /\ service w0 = service w).
  { unfold MemoryManager.init, bind, putenv, getenv, print. simpl.
    destruct (truthy_opt database_url); simpl; [by eexists|].
    destruct (truthy_opt (environ w !! "DATABASE_URL")); by eexists. }
  destruct Hpre as (w0 & -> & <- & <- & <-).
  destruct (init_try_run w0) as (cfg & env' & _ & ->).
  destruct (mem_from_config cfg env' (service w0)) as [[e|[]] s1] eqn:Hf.
  - eexists cfg, (World env' (stdin w0) _ s1 (calls w0 ++ [FromConfig cfg])).
    split; [reflexivity|]. split; [reflexivity|]. simpl.
    rewrite Hf. simpl. split; [reflexivity|]. by eexists.
  - eexists cfg, (World env' (stdin w0) _ s1 (calls w0 ++ [FromConfig cfg])).
    split; [reflexivity|]. split; [reflexivity|]. simpl.
    rewrite Hf. simpl. split; [reflexivity|]. by eexists.
Qed.

(** X3. A non-empty [database_url] argument overrides the environment:
    the configuration handed to the client factory has it as
    [connection_string], whatever [DATABASE_URL] was, and [DATABASE_URL]
    is set to it afterwards. *)
Theorem init_database_url_override url w :
  url ≠ "" ->
  exists cfg r w1,
    MemoryManager.init (Some url) w = (r, w1)
    /\ calls w1 = calls w ++ [FromConfig cfg]
    /\ param cfg "vector_store" "connection_string" = Some (VStr url)
    /\ environ w1 !! "DATABASE_URL" = Some url.
Proof.
  intros Hurl.
  assert (Hpre :
    MemoryManager.init (Some url) w
    = MemoryManager.init_try
        (World (<["DATABASE_URL" := url]> (environ w)) (stdin w)
           (stdout w ++ [[Lit "🔗 Using provided database URL: ";
                          Val (VStr (String.substring 0 50 url)); Lit "..."]])
           (service w) (calls w))).
  { unfold MemoryManager.init, bind, putenv, print. simpl.
    by destruct url. }
  rewrite Hpre. clear Hpre.
  set (w0 := World _ _ _ _ _).
  destruct (manager_builder_store w0) as (cfg' & env'' & Hcfg' & Hconn & Hframe).
  destruct (init_try_run w0) as (cfg & env' & Hcfg & ->).
  rewrite Hcfg in Hcfg'. injection Hcfg' as <- <-.
  simpl in Hconn, Hframe. rewrite lookup_insert_eq in Hconn. simpl in Hconn.
  specialize (Hframe "DATABASE_URL" ltac:(done) ltac:(done)).
  rewrite lookup_insert_eq in Hframe.
  destruct (mem_from_config cfg env' (service w0)) as [[e|[]] s1];
    eexists cfg, _, _; (split; [reflexivity|]); simpl; done.
Qed.
End ConstructorFacts.

(** ** Safe deletion, in general *)

Section SafeDeleteFacts.
Context {S : Type} `{Mem0 S}.
Implicit Types w : world S mem_call.

Local Arguments for_fold : simpl never.
Local Arguments MemoryManager.delete_one : simpl never.

(** One turn of the deletion loop on any value: no exit, at most one call,
    and that call deletes the identifier of the record, which is not
    empty. *)
Lemma delete_one_any locals m w :
  exists r w',
    MemoryManager.delete_one locals m w = (r, w')
    /\ (forall c, r ≠ Exit c)
    /\ (calls w' = calls w
        \/ calls w' = calls w ++ [Delete (memory_id_of m)]
           /\ truthy (memory_id_of m) = true)
    /\ stdin w' = stdin w /\ environ w' = environ w.
Proof.
  destruct locals as [mid count].
  unfold MemoryManager.delete_one, attempt, method_get, bind, ret, raise.
  destruct m as [| | | | | |d]; simpl;
    try (unfold MemoryManager.could_not_delete, bind, print, raise;
         destruct mid; simpl; eexists _, _; (split; [reflexivity|]);
         split_and!; auto; done).
  destruct (truthy (default VNone (dict_get d "id"))) eqn:Ht.
  - unfold try_except, call, bind, ret, MemoryManager.could_not_delete, print.
    destruct (mem_delete (default VNone (dict_get d "id")) (service w))
      as [[e|[]] s']; simpl;
      eexists _, _; (split; [reflexivity|]); split_and!; auto; done.
  - eexists _, _. split; [reflexivity|]. split_and!; auto; done.
Qed.

(** The deletion loop on any list of values. *)
Lemma delete_loop_any items : forall w locals,
  exists r w' ids,
    for_fold items locals MemoryManager.delete_one w = (r, w')
    /\ (forall c, r ≠ Exit c)
    /\ calls w' = calls w ++ map Delete ids
    /\ Forall (fun id => truthy id = true) ids
    /\ Forall (fun id => exists m, m ∈ items /\ id = memory_id_of m) ids
    /\ stdin w' = stdin w /\ environ w' = environ w.
Proof.
  induction items as [|m items IH]; intros w locals.
  - exists (Ok locals), w, []. simpl. rewrite app_nil_r. split_and!; auto; done.
  - rewrite for_fold_cons. unfold bind at 1.
    destruct (delete_one_any locals m w) as (r1 & w1 & -> & Hr1 & Hc1 & Hin1 & He1).
    destruct r1 as [locals'|e|c]; [| |by destruct (Hr1 c)].
    + destruct (IH w1 locals') as (r & w' & ids & -> & Hr & Hc & Ht & Hm & Hin & He).
      destruct Hc1 as [Hc1 | [Hc1 Htm]].
      * exists r, w', ids. split_and!; auto; try congruence.
        eapply Forall_impl; [exact Hm|]. intros id (m' & Hm' & ->).
        exists m'. split; [by apply list_elem_of_further|done].
      * exists r, w', (memory_id_of m :: ids). split_and!; auto; try congruence.
        -- rewrite Hc, Hc1. by rewrite <- app_assoc.
        -- constructor.
           ++ exists m. split; [apply list_elem_of_here|done].
           ++ eapply Forall_impl; [exact Hm|]. intros id (m' & Hm' & ->).
              exists m'. split; [by apply list_elem_of_further|done].
    + destruct Hc1 as [Hc1 | [Hc1 Htm]].
      * exists (Raise e), w1, []. simpl. rewrite app_nil_r. split_and!; auto; done.
      * exists (Raise e), w1, [memory_id_of m]. split_and!; auto; try done.
        constructor; [|constructor]. exists m. split; [apply list_elem_of_here|done].
Qed.

(** X4. [safe_delete_all_memories] neither raises nor leaves the
    process: it returns a boolean, whatever the client answers or raises
    and whatever is typed.  It lists once; every later call is the
    deletion of one truthy identifier, taken from a listed record; and it
    reads at most one line. *)
Theorem safe_delete_all_never_raises w :
  exists b w' ids,
    MemoryManager.safe_delete_all_memories w = (Ok b, w')
    /\ calls w' = calls w ++ GetAll (Some MemoryManager.DEFAULT_USER_ID) None None
                              :: map Delete ids
    /\ Forall (fun id => truthy id = true) ids
    /\ (forall response s1 items,
          mem_get_all (Some MemoryManager.DEFAULT_USER_ID) None None (service w)
            = (inr response, s1) ->
          py_iter (MemoryManager.memories_list_of response) = Some items ->
          Forall (fun id => exists m, m ∈ items /\ id = memory_id_of m) ids)
    /\ (stdin w' = stdin w \/ exists line, stdin w = line :: stdin w').
Proof.
  unfold MemoryManager.safe_delete_all_memories, try_except.
  unfold bind at 1. unfold print at 1. unfold bind at 1. unfold print at 1.
  unfold bind at 1. unfold call at 1. cbn [service calls stdout stdin environ].
  destruct (mem_get_all (Some MemoryManager.DEFAULT_USER_ID) None None (service w))
    as [[e|response] s1]; cbn.
  { eexists _, _, []. split; [reflexivity|]. cbn. split_and!; auto; intros; done. }
  destruct (truthy (MemoryManager.memories_list_of response)); cbn.
  2:{ eexists _, _, []. split; [reflexivity|]. cbn. split_and!; auto. }
  unfold bind at 1. unfold len.
  destruct (py_len (MemoryManager.memories_list_of response)) as [n|] eqn:Hlen; cbn.
  2:{ eexists _, _, []. split; [reflexivity|]. cbn. split_and!; auto. }
  unfold bind at 1. unfold bind at 1. unfold input. cbn.
  destruct (stdin w) as [|confirmation rest] eqn:Hin; cbn.
  { eexists _, _, []. split; [reflexivity|]. cbn. split_and!; auto. }
  destruct (String.eqb confirmation "DELETE"); cbn.
  2:{ eexists _, _, []. split; [reflexivity|]. cbn. split_and!; eauto. }
  unfold bind at 1. unfold iter.
  assert (exists items, py_iter (MemoryManager.memories_list_of response) = Some items)
    as [items Hit].
  { destruct (MemoryManager.memories_list_of response); simpl in *; try done; eauto. }
  rewrite Hit. cbn. unfold bind at 1.
  match goal with |- context [for_fold items ?l _ ?w0] =>
    destruct (delete_loop_any items w0 l)
      as (r & w2 & ids & -> & Hr & Hc & Ht & Hm & Hin2 & _)
  end.
  cbn in Hc, Hin2.
  destruct r as [locals|e|c]; [| |by destruct (Hr c)]; cbn.
  - eexists _, _, ids. split; [reflexivity|]. cbn. rewrite Hc, Hin2.
    split_and!; eauto.
    + by rewrite <- app_assoc.
    + intros ? ? ? [= <- <-] Hit'. rewrite Hit in Hit'. by injection Hit' as <-.
  - eexists _, _, ids. split; [reflexivity|]. cbn. rewrite Hc, Hin2.
    split_and!; eauto.
    + by rewrite <- app_assoc.
    + intros ? ? ? [= <- <-] Hit'. rewrite Hit in Hit'. by injection Hit' as <-.
Qed.

(** X5. When the listing is falsy after normalisation (an empty list, an
    empty [results], or an answer that is neither a list nor a dictionary
    with [results]) nothing is asked and nothing is deleted: three lines
    are printed, the input is untouched and the result is [True]. *)
Theorem safe_delete_all_nothing_listed w response s1 :
  mem_get_all (Some MemoryManager.DEFAULT_USER_ID) None None (service w)
    = (inr response, s1) ->
  truthy (MemoryManager.memories_list_of response) = false ->
  MemoryManager.safe_delete_all_memories w =
    (Ok true,
     World (environ w) (stdin w)
       (stdout w ++
          [[Lit "🗑️  Safely deleting all mem0 memories..."];
           [Lit "💡 This deletes memory data but preserves database structure"];
           [Lit "📭 No memories found to delete"]])
       s1 (calls w ++ [GetAll (Some MemoryManager.DEFAULT_USER_ID) None None])).
Proof.
  intros Hget Hempty.
  unfold MemoryManager.safe_delete_all_memories, try_except, bind, print, call, ret.
  cbn. rewrite Hget. cbn. rewrite Hempty. cbn. by rewrite <- !app_assoc.
Qed.

(** X6. At the end of the input the confirmation cannot be read: the
    [EOFError] of [input] is caught by the outer handler, which reports it,
    nothing is deleted and the result is [False]. *)
Theorem safe_delete_all_at_end_of_input w response s1 n :
  stdin w = [] ->
  mem_get_all (Some MemoryManager.DEFAULT_USER_ID) None None (service w)
    = (inr response, s1) ->
  truthy (MemoryManager.memories_list_of response) = true ->
  py_len (MemoryManager.memories_list_of response) = Some n ->
  exists w',
    MemoryManager.safe_delete_all_memories w = (Ok false, w')
    /\ calls w' = calls w ++ [GetAll (Some MemoryManager.DEFAULT_USER_ID) None None]
    /\ service w' = s1
    /\ last (stdout w') = Some
         [Lit "❌ Error deleting memories: ";
          Exc (Exception "EOFError" "EOF when reading a line")].
Proof.
  intros Hin Hget Htruthy Hlen.
  unfold MemoryManager.safe_delete_all_memories, try_except, bind, print, call, ret,
    len, input.
  cbn. rewrite Hget. cbn. rewrite Htruthy. cbn. rewrite Hlen. cbn. rewrite Hin. cbn.
  eexists. split; [reflexivity|]. cbn. split_and!; try done. by rewrite last_snoc.
Qed.

(** X7. If the first listed record is not a dictionary, [memory.get]
    raises before [memory_id] is bound, and the handler of the loop, which
    prints [memory_id], raises in turn.  The outer handler reports an
    [UnboundLocalError]; no deletion is attempted, also not for the
    records that follow, and the result is [False]. *)
Theorem safe_delete_all_first_record_not_a_dict w rest response s1 m items :
  stdin w = "DELETE" :: rest ->
  mem_get_all (Some MemoryManager.DEFAULT_USER_ID) None None (service w)
    = (inr response, s1) ->
  MemoryManager.memories_list_of response = VList (m :: items) ->
  is_dict m = false ->
  exists w',
    MemoryManager.safe_delete_all_memories w = (Ok false, w')
    /\ calls w' = calls w ++ [GetAll (Some MemoryManager.DEFAULT_USER_ID) None None]
    /\ service w' = s1
    /\ last (stdout w') = Some
         [Lit "❌ Error deleting memories: ";
          Exc (Exception "UnboundLocalError"
                 "cannot access local variable 'memory_id' where it is not associated with a value")].
Proof.
  intros Hin Hget Hlist Hm.
  unfold MemoryManager.safe_delete_all_memories, try_except.
  unfold bind at 1. unfold print at 1. unfold bind at 1. unfold print at 1.
  unfold bind at 1. unfold call at 1. cbn [service calls stdout stdin environ].
  rewrite Hget. cbn. rewrite Hlist. cbn.
  unfold bind at 1. unfold bind at 1. unfold input. cbn. rewrite Hin. cbn.
  unfold bind at 1. rewrite for_fold_cons. unfold bind at 1.
  assert (forall w0, MemoryManager.delete_one (None, 0) m w0
            = (Raise (Exception "UnboundLocalError"
                 "cannot access local variable 'memory_id' where it is not associated with a value"),
               w0)) as Hone.
  { intros w0. unfold MemoryManager.delete_one, attempt, method_get, bind, raise,
      MemoryManager.could_not_delete.
    by destruct m. }
  rewrite Hone. cbn.
  eexists. split; [reflexivity|]. cbn. split_and!; try done. by rewrite last_snoc.
Qed.

(** One turn on a dictionary: a record without identifier is passed over,
    one with an identifier is handed to the client. *)
Lemma delete_one_dict (fails : value -> bool) m w memory_id count :
  (forall id s, raised (mem_delete id s).1 = fails id) ->
  is_dict m = true ->
  let id := memory_id_of m in
  exists w',
    MemoryManager.delete_one (memory_id, count) m w
      = (Ok (Some id, count + (if truthy id && negb (fails id) then 1 else 0)), w')
    /\ calls w' = calls w ++ (if truthy id then [Delete id] else [])
    /\ stdin w' = stdin w.
Proof.
  intros Hfail Hm id. subst id.
  destruct (truthy (memory_id_of m)) eqn:Ht.
  - destruct (delete_one_has_id fails m w memory_id count Hfail) as (w' & Hrun & Hc & Hin & _).
    { unfold has_id. by rewrite Hm, Ht. }
    exists w'. rewrite Hrun. simpl. split_and!; try done.
    by destruct (fails (memory_id_of m)).
  - destruct m as [| | | | | |d]; try discriminate Hm. simpl in Ht.
    unfold MemoryManager.delete_one, attempt, method_get, bind, ret. simpl.
    rewrite Ht. eexists. split; [by rewrite Nat.add_0_r|]. simpl.
    by rewrite app_nil_r.
Qed.

Lemma delete_loop_dicts (fails : value -> bool) items :
  (forall id s, raised (mem_delete id s).1 = fails id) ->
  Forall (fun m => is_dict m = true) items ->
  forall w memory_id count,
  exists memory_id' w',
    for_fold items (memory_id, count) MemoryManager.delete_one w
      = (Ok (memory_id',
             count + length (List.filter (fun id => truthy id && negb (fails id))
                                         (map memory_id_of items))),
         w')
    /\ calls w' = calls w ++ map Delete (List.filter truthy (map memory_id_of items))
    /\ stdin w' = stdin w.
Proof.
  intros Hfail Hall. induction Hall as [|m items Hm Hall IH]; intros w memory_id count.
  - exists memory_id, w. simpl. rewrite Nat.add_0_r, app_nil_r. done.
  - destruct (delete_one_dict fails m w memory_id count Hfail Hm)
      as (w1 & Hone & Hc1 & Hin1).
    rewrite for_fold_cons. unfold bind at 1. rewrite Hone.
    match goal with |- context [for_fold items ?l _ w1] =>
      destruct (IH w1 (fst l) (snd l)) as (mid' & w' & Hrun & Hc & Hin)
    end.
    cbn [fst snd] in Hrun. exists mid', w'. rewrite Hrun, Hc, Hc1, Hin, Hin1.
    cbn [map List.filter].
    split_and!; try done.
    + do 3 f_equal.
      destruct (truthy (memory_id_of m) && negb (fails (memory_id_of m))); simpl; lia.
    + rewrite <- app_assoc. by destruct (truthy (memory_id_of m)).
Qed.

End SafeDeleteFacts.

(** ** The dispatch of the memory manager *)

Section DispatchFacts.
Context {S : Type} `{Mem0 S}.
Implicit Types w : world S mem_call.

(** Listing returns and makes one call, the one that reads. *)
Lemma list_memories_run user_id agent_id run_id w :
  exists v w' uid,
    MemoryManager.list_memories user_id agent_id run_id w = (Ok v, w')
    /\ calls w' = calls w ++ [GetAll uid agent_id run_id].
Proof.
  unfold MemoryManager.list_memories, try_except. unfold bind at 1.
  assert (Hpre : exists uid w0,
    (if negb (truthy_opt user_id) && negb (truthy_opt agent_id)
        && negb (truthy_opt run_id)
     then
       bind (print [Lit "🔍 Fetching memories for default user: ";
                    Val (VStr MemoryManager.DEFAULT_USER_ID)])
            (fun _ => ret (Some MemoryManager.DEFAULT_USER_ID))
     else bind (print [Lit "🔍 Fetching memories..."]) (fun _ => ret user_id)) w
    = (Ok uid, w0)
    /\ service w0 = service w /\ calls w0 = calls w).
  { destruct (negb (truthy_opt user_id) && negb (truthy_opt agent_id)
              && negb (truthy_opt run_id)); eexists _, _; (split; [reflexivity|done]). }
  destruct Hpre as (uid & w0 & -> & Hsv0 & Hc0).
  unfold bind at 1. unfold call. rewrite Hsv0, Hc0.
  destruct (mem_get_all uid agent_id run_id (service w)) as [[e|response] s1]; simpl.
  { eexists _, _, uid. split; [reflexivity|]. done. }
  unfold bind at 1. unfold len.
  destruct (py_len (MemoryManager.memories_list_of response)) as [n|] eqn:Hlen; simpl.
  2:{ eexists _, _, uid. split; [reflexivity|]. done. }
  unfold bind at 1. unfold bind at 1. unfold iter.
  destruct (py_iter (MemoryManager.memories_list_of response)) as [items|]; simpl.
  2:{ eexists _, _, uid. split; [reflexivity|]. done. }
  unfold bind at 1.
  match goal with |- context [MemoryManager.show_memories 1 items ?w1] =>
    destruct (show_memories_frame items 1 w1)
      as (r & w2 & Hshow & Hr & _ & _ & _ & _ & Hc2)
  end.
  rewrite Hshow. simpl in Hc2.
  destruct Hr as [-> | [e ->]]; simpl;
    eexists _, _, uid; (split; [reflexivity|]); simpl; by rewrite Hc2.
Qed.

Variable strip : string -> string.

(** X9. When [--interactive] is not given, [--list-all] and
    [--list-memories] win over every deletion flag given with them: [main]
    returns, or leaves with status 1 because the client could not be
    built, and it makes no deleting call. *)
Theorem main_listing_never_deletes a w :
  MemoryManager.interactive a = false ->
  MemoryManager.list_all a || MemoryManager.list_memories_flag a = true ->
  exists r w',
    MemoryManager.main strip a w = (r, w')
    /\ (r = Ok tt \/ r = Exit 1)
    /\ List.filter is_delete (calls w') = List.filter is_delete (calls w).
Proof.
  intros Hi Hl.
  destruct (init_outcome (MemoryManager.database_url a) w)
    as (w1 & [Hinit | [Hinit _]] & Hcalls).
  - unfold MemoryManager.main. unfold bind at 1. rewrite Hinit, Hi, Hl.
    unfold bind at 1.
    destruct (list_memories_run (MemoryManager.user_id a) (MemoryManager.agent_id a)
                (MemoryManager.run_id a) w1) as (v & w' & uid & -> & Hc).
    eexists _, _. split; [reflexivity|]. split; [by left|].
    rewrite Hc, List.filter_app. simpl. by rewrite app_nil_r.
  - unfold MemoryManager.main. unfold bind at 1. rewrite Hinit.
    eexists _, _. split; [reflexivity|]. split; [by right|done].
Qed.

(** X10. [--delete-memory --memory-id ID], once the client is built:
    [main] makes exactly one call, the deletion of [ID], and returns
    normally whether that deletion succeeded or raised; a failure shows
    only in the last line printed. *)
Theorem main_delete_memory_returns_normally a w w1 id :
  MemoryManager.interactive a = false ->
  MemoryManager.list_all a = false ->
  MemoryManager.list_memories_flag a = false ->
  MemoryManager.delete_memory a = true ->
  MemoryManager.memory_id a = Some id -> id ≠ "" ->
  MemoryManager.init (MemoryManager.database_url a) w = (Ok tt, w1) ->
  exists w',
    MemoryManager.main strip a w = (Ok tt, w')
    /\ calls w' = calls w1 ++ [Delete (VStr id)]
    /\ last (stdout w') = Some
         match (mem_delete (VStr id) (service w1)).1 with
         | inl e => [Lit "❌ Error deleting memory "; Val (VStr id); Lit ": "; Exc e]
         | inr _ => [Lit "✅ Memory deleted successfully"]
         end.
Proof.
  intros Hi Hl Hlm Hd Hid Hne Hinit.
  unfold MemoryManager.main. unfold bind at 1. rewrite Hinit, Hi, Hl, Hlm, Hd, Hid.
  assert (truthy_opt (Some id) = true) as -> by (by destruct id).
  cbn. unfold MemoryManager.delete_memory_by_id, try_except, bind, print, call, ret.
  cbn.
  destruct (mem_delete (VStr id) (service w1)) as [[e|[]] s1]; cbn;
    (eexists; split; [reflexivity|]); cbn; (split; [done|]); by rewrite last_snoc.
Qed.
End DispatchFacts.

(** ** Loading the configuration of the Qdrant manager *)

Section LoadFacts.
Context {S : Type}.
Variable dotenv : option (string * (gmap string string -> gmap string string)).
Variable py_int : string -> option Z.
Implicit Types w : world S qd_call.

Local Abbreviation load_env_config := (QdrantManager.load_env_config dotenv py_int).
Local Abbreviation connect := (QdrantManager.connect dotenv py_int).

(** [load_env_config], spelled out: the environment after the [.env] file
    has been merged into it, the line printed, and the dictionary read from
    the merged environment. *)
Lemma load_env_config_run w :
  let env' := match dotenv with
              | Some (_, file) => file (environ w) ∪ environ w
              | None => environ w
              end in
  let w1 := World env' (stdin w)
              (stdout w ++
                 [match dotenv with
                  | Some (env_path, _) =>
                      [Lit "Loaded environment from: "; Val (VStr env_path)]
                  | None => [Lit "Warning: No .env file found"]
                  end])
              (service w) (calls w) in
  load_env_config w =
    match py_int (default "1536" (env' !! "EMBEDDING_DIMS")) with
    | Some n =>
        (Ok (QdrantManager.Config (env' !! "QDRANT_URL") (env' !! "QDRANT_API_KEY")
               (default "mem0_memories" (env' !! "QDRANT_COLLECTION_NAME")) n
               (default "github_copilot" (env' !! "LLM_PROVIDER"))), w1)
    | None =>
        (Raise (Exception "ValueError" "invalid literal for int() with base 10"), w1)
    end.
Proof.
  unfold QdrantManager.load_env_config, bind, print, getenv, getenv_default, ret, raise.
  destruct dotenv as [[path bindings]|]; simpl;
    match goal with |- context [py_int ?s] => destruct (py_int s) end; reflexivity.
Qed.

(** X11. [load_env_config] loads the [.env] file over the environment
    ([override=True]): a variable bound in the file has the file's value
    afterwards, every other variable keeps its own, and the dictionary
    returned is read from the merged environment. *)
Theorem dotenv_overrides_environment path file w cfg w1 :
  dotenv = Some (path, file) ->
  load_env_config w = (Ok cfg, w1) ->
  let bindings := file (environ w) in
  (forall k v, bindings !! k = Some v -> environ w1 !! k = Some v)
  /\ (forall k, bindings !! k = None -> environ w1 !! k = environ w !! k)
  /\ QdrantManager.url cfg = environ w1 !! "QDRANT_URL"
  /\ QdrantManager.api_key cfg = environ w1 !! "QDRANT_API_KEY"
  /\ QdrantManager.collection_name cfg
     = default "mem0_memories" (environ w1 !! "QDRANT_COLLECTION_NAME")
  /\ QdrantManager.llm_provider cfg
     = default "github_copilot" (environ w1 !! "LLM_PROVIDER").
Proof.
  intros Hdot Hload bindings. rewrite load_env_config_run in Hload.
  rewrite Hdot in Hload.
  destruct (py_int _) in Hload; [|discriminate].
  injection Hload as <- <-. simpl. split_and!; try done.
  - intros k v Hk. by apply lookup_union_Some_l.
  - intros k Hk. by apply lookup_union_r.
Qed.

(** X12. Loading the configuration a second time, as [clear_collection]
    does when no name is given, changes nothing, provided the [.env] file
    reads in the environment the first load produced the bindings it read
    before (no value of the file refers to a variable the load changed):
    the same configuration is returned and the environment stays as the
    first load left it. *)
Theorem load_env_config_twice w cfg w1 :
  load_env_config w = (Ok cfg, w1) ->
  match dotenv with
  | Some (_, file) => file (environ w1) = file (environ w)
  | None => True
  end ->
  exists w2,
    load_env_config w1 = (Ok cfg, w2)
    /\ environ w2 = environ w1
    /\ stdin w2 = stdin w /\ service w2 = service w /\ calls w2 = calls w.
Proof.
  intros Hload Hsame. rewrite load_env_config_run in Hload.
  rewrite load_env_config_run.
  assert (Henv : match dotenv with
                 | Some (_, file) => file (environ w1) ∪ environ w1
                 | None => environ w1
                 end = environ w1).
  { destruct (py_int _) in Hload; [|discriminate]. injection Hload as _ <-.
    simpl in *.
    destruct dotenv as [[path file]|]; [|done].
    by rewrite Hsame, (assoc_L (∪)), (idemp_L (∪)). }
  rewrite Henv.
  destruct (py_int _) eqn:Hint in Hload; [|discriminate].
  injection Hload as <- <-. simpl in *. rewrite Hint.
  eexists. split; [reflexivity|]. done.
Qed.
End LoadFacts.

(** ** The collection commands at their edges *)

(** The two copies of the dimension table agree, the default provider of
    the Qdrant manager included. *)
Lemma get_embedding_dimensions_builder (lp : option string) :
  QdrantManager.get_embedding_dimensions (default "github_copilot" lp)
  = Utils.vector_store_dims lp.
Proof.
  unfold QdrantManager.get_embedding_dimensions, Utils.vector_store_dims, eqs.
  destruct lp as [p|]; simpl; [|reflexivity].
  destruct (String.eqb_spec p "openai") as [->|H1]; [reflexivity|].
  rewrite (bool_decide_eq_false_2 (Some p = Some "openai")) by congruence.
  destruct (String.eqb_spec p "github_copilot") as [->|H2]; [reflexivity|].
  rewrite (bool_decide_eq_false_2 (Some p = Some "github_copilot")) by congruence.
  destruct (String.eqb_spec p "ollama") as [->|H3]; [reflexivity|].
  by rewrite (bool_decide_eq_false_2 (Some p = Some "ollama")) by congruence.
Qed.

Section CommandFacts.
Context {S : Type} `{Qdrant S}.
Variable dotenv : option (string * (gmap string string -> gmap string string)).
Variable py_int : string -> option Z.
Implicit Types w : world S qd_call.

Local Abbreviation load_env_config := (QdrantManager.load_env_config dotenv py_int).
Local Abbreviation connect := (QdrantManager.connect dotenv py_int).
Local Abbreviation create_collection := (QdrantManager.create_collection dotenv py_int).
Local Abbreviation delete_collection := (QdrantManager.delete_collection dotenv py_int).
Local Abbreviation clear_collection := (QdrantManager.clear_collection dotenv py_int).
Local Abbreviation clear_collection_setup :=
  (QdrantManager.clear_collection_setup dotenv py_int).

(** X13. The dimension [create_collection] gives a new collection is the
    one the configuration builder of [utils.py] hands to mem0 as
    [embedding_model_dims] in the same environment, for every
    [LLM_PROVIDER], set or not; it is 768 or 1536, and [EMBEDDING_DIMS]
    has no part in it. *)
Theorem collection_dimension_matches_builder {S' L' : Type} w cfg w1
    (wb : world S' L') :
  load_env_config w = (Ok cfg, w1) ->
  environ wb = environ w1 ->
  exists bcfg wb',
    Utils.get_mem0_client_config wb = (Ok bcfg, wb')
    /\ param bcfg "vector_store" "embedding_model_dims" = Some
         (VInt (QdrantManager.get_embedding_dimensions (QdrantManager.llm_provider cfg)))
    /\ (QdrantManager.get_embedding_dimensions (QdrantManager.llm_provider cfg) = 768%Z
        \/ QdrantManager.get_embedding_dimensions (QdrantManager.llm_provider cfg)
           = 1536%Z).
Proof.
  intros Hload Henv. rewrite load_env_config_run in Hload.
  destruct (py_int _) in Hload; [|discriminate].
  injection Hload as <- <-.
  cbn [QdrantManager.llm_provider environ] in *.
  rewrite <- Henv. clear Henv.
  destruct (builder_steps wb)
    as (d1 & wb1 & d2 & bcfg & env' & _ & _ & Hrun & _ & _ & _ & _ & Hvs & _).
  eexists bcfg, _. split; [exact Hrun|]. split.
  - unfold param. rewrite Hvs, get_embedding_dimensions_builder.
    by destruct (bool_decide (environ wb !! "VECTOR_STORE_PROVIDER" = Some "qdrant")).
  - unfold QdrantManager.get_embedding_dimensions.
    repeat match goal with |- context [String.eqb ?a ?b] => destruct (String.eqb a b) end;
      simpl; auto.
Qed.

(** A failure to load the configuration or to build the client leaves
    every collection command at once. *)
Lemma connect_failure_propagates a w e w1 :
  connect w = (Raise e, w1) ->
  create_collection a w = (Raise e, w1)
  /\ (truthy_opt (QdrantManager.arg_collection_name a) = true ->
        delete_collection a w = (Raise e, w1)
        /\ clear_collection a w = (Raise e, w1))
  /\ stdin w1 = stdin w /\ service w1 = service w /\ calls w1 = calls w.
Proof.
  intros Hconn.
  destruct (connect_frame dotenv py_int w) as (r & w1' & Hc & _ & Hin & Hsv & Hcalls).
  rewrite Hconn in Hc. injection Hc as <- <-.
  split_and!; try done.
  - unfold QdrantManager.create_collection, bind. by rewrite Hconn.
  - intros Hname. split.
    + unfold QdrantManager.delete_collection. rewrite Hname. simpl.
      unfold bind. by rewrite Hconn.
    + unfold QdrantManager.clear_collection, QdrantManager.clear_collection_setup.
      rewrite Hname. unfold bind, ret. by rewrite Hconn.
Qed.

(** X14. When the configuration a command builds its client from has no
    [QDRANT_URL] or no [QDRANT_API_KEY] (unset or empty), the command ends
    with the [ValueError] of [get_qdrant_client]: it is not caught, no
    request is made and no input is read.  So end [create_collection],
    [delete_collection] given a name, and [clear_collection]; without a
    name [clear_collection] loads the configuration twice and builds the
    client from the second load.  [delete_collection] without a name
    returns before it loads anything. *)
Theorem missing_credentials_raise a w cfg w1 :
  load_env_config w = (Ok cfg, w1) ->
  truthy_opt (QdrantManager.url cfg) = false
    \/ truthy_opt (QdrantManager.api_key cfg) = false ->
  let e := Exception "ValueError"
             "QDRANT_URL and QDRANT_API_KEY must be set in environment" in
  create_collection a w = (Raise e, w1)
  /\ (truthy_opt (QdrantManager.arg_collection_name a) = true ->
        delete_collection a w = (Raise e, w1)
        /\ clear_collection a w = (Raise e, w1))
  /\ (truthy_opt (QdrantManager.arg_collection_name a) = false ->
        delete_collection a w =
          (Ok tt,
           World (environ w) (stdin w)
             (stdout w ++ [[Lit "❌ Collection name is required for deletion"]])
             (service w) (calls w))
        /\ forall cfg2 w2,
             load_env_config w1 = (Ok cfg2, w2) ->
             truthy_opt (QdrantManager.url cfg2) = false
               \/ truthy_opt (QdrantManager.api_key cfg2) = false ->
             clear_collection a w = (Raise e, w2)
             /\ stdin w2 = stdin w /\ service w2 = service w /\ calls w2 = calls w)
  /\ stdin w1 = stdin w /\ service w1 = service w /\ calls w1 = calls w.
Proof.
  intros Hload Hmiss e.
  assert (Hclient : forall c, truthy_opt (QdrantManager.url c) = false
                              \/ truthy_opt (QdrantManager.api_key c) = false ->
            forall w0, QdrantManager.get_qdrant_client (S:=S) c w0 = (Raise e, w0)).
  { intros c Hc w0. unfold QdrantManager.get_qdrant_client.
    destruct Hc as [-> | ->]; simpl; [done|]. by rewrite orb_true_r. }
  assert (Hconn : connect w = (Raise e, w1)).
  { unfold QdrantManager.connect, bind. rewrite Hload. by rewrite Hclient. }
  destruct (connect_failure_propagates a w e w1 Hconn) as (Hcreate & Hnamed & Hframe).
  split; [exact Hcreate|]. split; [exact Hnamed|]. split; [|exact Hframe].
  intros Hname. split.
  - unfold QdrantManager.delete_collection. by rewrite Hname.
  - intros cfg2 w2 Hload2 Hmiss2.
    destruct (load_env_config_frame dotenv py_int w1) as (r & w2' & Hrun & _ & Hin & Hsv & Hc).
    rewrite Hload2 in Hrun. injection Hrun as <- <-.
    destruct Hframe as (Hin1 & Hsv1 & Hc1).
    split; [|split_and!; congruence].
    unfold QdrantManager.clear_collection, QdrantManager.clear_collection_setup.
    rewrite Hname. unfold bind at 1. unfold bind at 1. unfold bind at 1.
    rewrite Hload. unfold ret at 1. unfold bind at 1.
    unfold QdrantManager.connect. unfold bind at 1. rewrite Hload2.
    unfold bind at 1. by rewrite Hclient.
Qed.

(** X15. An [EMBEDDING_DIMS] that [int] does not accept makes
    [create_collection] and [delete_collection] end with a [ValueError]
    before any request, although neither command uses the value. *)
Theorem unparsable_dimension_raises a w :
  let env' := match dotenv with
              | Some (_, file) => file (environ w) ∪ environ w
              | None => environ w
              end in
  py_int (default "1536" (env' !! "EMBEDDING_DIMS")) = None ->
  exists w1,
    create_collection a w
    = (Raise (Exception "ValueError" "invalid literal for int() with base 10"), w1)
    /\ (truthy_opt (QdrantManager.arg_collection_name a) = true ->
          delete_collection a w
          = (Raise (Exception "ValueError" "invalid literal for int() with base 10"), w1))
    /\ stdin w1 = stdin w /\ service w1 = service w /\ calls w1 = calls w.
Proof.
  intros env' Hint.
  pose proof (load_env_config_run dotenv py_int w) as Hload.
  cbv zeta in Hload. fold env' in Hload. rewrite Hint in Hload.
  eexists.
  edestruct (connect_failure_propagates a w) as (Hc & Hd & Hrest).
  { unfold QdrantManager.connect, bind. rewrite Hload. reflexivity. }
  split; [exact Hc|]. split; [|exact Hrest].
  intros Hname. by destruct (Hd Hname).
Qed.
End CommandFacts.

Section CommandOutcomes.
Context {S : Type} `{Qdrant S}.
Variable dotenv : option (string * (gmap string string -> gmap string string)).
Variable py_int : string -> option Z.
Implicit Types w : world S qd_call.

Local Abbreviation connect := (QdrantManager.connect dotenv py_int).
Local Abbreviation create_collection := (QdrantManager.create_collection dotenv py_int).
Local Abbreviation delete_collection := (QdrantManager.delete_collection dotenv py_int).
Local Abbreviation clear_collection := (QdrantManager.clear_collection dotenv py_int).
Local Abbreviation clear_collection_setup :=
  (QdrantManager.clear_collection_setup dotenv py_int).

(** The creation itself: one call; the four lines of the report follow
    only if it returns. *)
Lemma create_run cfg name dims w :
  QdrantManager.create cfg name dims w =
    let w0 := World (environ w) (stdin w)
                (stdout w ++ [[Lit "Creating collection '"; Val (VStr name);
                               Lit "' with "; Val (VInt dims); Lit " dimensions..."]])
                (service w) (calls w) in
    match qd_create_collection name dims COSINE (service w) with
    | (inl e, s1) =>
        (Raise e,
         World (environ w) (stdin w) (stdout w0) s1
           (calls w ++ [CreateCollection name dims COSINE]))
    | (inr _, s1) =>
        (Ok tt,
         World (environ w) (stdin w)
           (stdout w0 ++
              [[Lit "✅ Collection '"; Val (VStr name); Lit "' created successfully!"];
               [Lit "   - Dimensions: "; Val (VInt dims)];
               [Lit "   - Distance: COSINE"];
               [Lit "   - Provider: "; Val (VStr (QdrantManager.llm_provider cfg))]])
           s1 (calls w ++ [CreateCollection name dims COSINE]))
    end.
Proof.
  unfold QdrantManager.create, bind, call, print. cbn.
  destruct (qd_create_collection name dims COSINE (service w)) as [[e|[]] s1]; cbn;
    [reflexivity|]. by rewrite <- !app_assoc.
Qed.

Lemma not_existing (name : string) (names : list string) :
  name ∉ names -> filter (fun c => c = name) names = [].
Proof.
  intros Hnot. destruct (filter (fun c => c = name) names) as [|c cs] eqn:E; [done|].
  assert (c ∈ filter (fun c => c = name) names) as Hc by (rewrite E; apply list_elem_of_here).
  apply list_elem_of_filter in Hc as [-> Hc]. done.
Qed.

(** X16. [create_collection] for a name that is not among the
    collections: whatever [--force] says, the collections are listed, the
    collection is created with the dimension of the provider and the
    cosine distance, nothing is deleted, and the command returns; a
    failure of the creation is reported in the last line. *)
Theorem create_collection_when_absent a w cfg w1 names s1 :
  let name := or_default (QdrantManager.arg_collection_name a)
                         (QdrantManager.collection_name cfg) in
  let dims := QdrantManager.get_embedding_dimensions (QdrantManager.llm_provider cfg) in
  connect w = (Ok cfg, w1) ->
  qd_get_collections (service w1) = (inr names, s1) ->
  name ∉ names ->
  exists w',
    create_collection a w = (Ok tt, w')
    /\ calls w' = calls w ++ [GetCollections; CreateCollection name dims COSINE]
    /\ last (stdout w') = Some
         match (qd_create_collection name dims COSINE s1).1 with
         | inl e => [Lit "❌ Error creating collection: "; Exc e]
         | inr _ => [Lit "   - Provider: "; Val (VStr (QdrantManager.llm_provider cfg))]
         end.
Proof.
  intros name dims Hconn Hget Hnot.
  destruct (connect_frame dotenv py_int w) as (r & w1' & Hc & _ & _ & _ & Hcalls).
  rewrite Hconn in Hc. injection Hc as <- <-.
  unfold QdrantManager.create_collection. unfold bind at 1. rewrite Hconn.
  fold name dims.
  unfold QdrantManager.create_collection_try, try_except. unfold bind at 1.
  unfold call at 1. rewrite Hget. cbn [fst snd].
  rewrite (not_existing name names Hnot). rewrite create_run. cbn.
  destruct (qd_create_collection name dims COSINE s1) as [[e|[]] s2]; cbn.
  - eexists. split; [reflexivity|]. cbn. rewrite Hcalls, <- app_assoc.
    split; [done|]. by rewrite last_snoc.
  - eexists. split; [reflexivity|]. cbn. rewrite Hcalls, <- app_assoc.
    split; [done|].
    by rewrite last_app.
Qed.

(** The [try] statement of [create_collection] always returns. *)
Lemma create_collection_try_returns cfg name dims force w :
  exists w', QdrantManager.create_collection_try cfg name dims force w = (Ok tt, w').
Proof.
  unfold QdrantManager.create_collection_try, try_except. unfold bind at 1.
  unfold call at 1.
  destruct (qd_get_collections (service w)) as [[e|names] s1]; cbn [fst snd];
    [by eexists|].
  destruct (filter (fun c => c = name) names) as [|c cs].
  - rewrite create_run. cbn.
    destruct (qd_create_collection name dims COSINE s1) as [[e|[]] s2]; by eexists.
  - destruct force; cbn [negb]; [|by eexists].
    unfold bind at 1. unfold print at 1. unfold bind at 1. unfold call at 1.
    cbn [fst snd service].
    destruct (qd_delete_collection name s1) as [[e|[]] s2]; cbn [fst snd]; [by eexists|].
    rewrite create_run. cbn.
    destruct (qd_create_collection name dims COSINE s2) as [[e|[]] s3]; by eexists.
Qed.


(** X18. Without [--force], at the end of the input, the [EOFError] of
    the confirmation prompt is not caught: [delete_collection] and
    [clear_collection] end with it, the prompt is the last line printed
    and no request is made. *)
Theorem prompt_at_end_of_input a w :
  QdrantManager.force a = false ->
  (forall name cfg w1,
     QdrantManager.arg_collection_name a = Some name -> name ≠ "" ->
     connect w = (Ok cfg, w1) -> stdin w1 = [] ->
     delete_collection a w =
       (Raise (Exception "EOFError" "EOF when reading a line"),
        World (environ w1) [] 
          (stdout w1 ++ [[Lit "Are you sure you want to delete collection '";
                          Val (VStr name); Lit "'? (y/N): "]])
          (service w) (calls w)))
  /\ (forall name w1,
     clear_collection_setup a w = (Ok name, w1) -> stdin w1 = [] ->
     clear_collection a w =
       (Raise (Exception "EOFError" "EOF when reading a line"),
        World (environ w1) []
          (stdout w1 ++ [[Lit "Are you sure you want to clear all vectors from '";
                          Val (VStr name); Lit "'? (y/N): "]])
          (service w) (calls w))).
Proof.
  intros Hforce. split.
  - intros name cfg w1 Hname Hne Hconn Hin.
    destruct (connect_frame dotenv py_int w) as (r & w1' & Hc & _ & _ & Hsv & Hcalls).
    rewrite Hconn in Hc. injection Hc as <- <-.
    unfold QdrantManager.delete_collection. rewrite Hname, Hforce.
    destruct name; [done|]. cbn. unfold bind at 1. rewrite Hconn.
    unfold bind, input. by rewrite Hin, Hsv, Hcalls.
  - intros name w1 Hsetup Hin.
    destruct (clear_collection_setup_frame dotenv py_int a w)
      as (r & w1' & Hc & _ & Hsv & Hcalls).
    rewrite Hsetup in Hc. injection Hc as <- <-.
    unfold QdrantManager.clear_collection. unfold bind at 1.
    rewrite Hsetup, Hforce. cbn. unfold bind, input. by rewrite Hin, Hsv, Hcalls.
Qed.

(** X19. With [--force], clearing a collection in which [scroll] finds
    no point makes that one request and no deletion, and reports the
    collection as already empty. *)
Theorem clear_collection_when_empty a w name w1 s1 :
  QdrantManager.force a = true ->
  clear_collection_setup a w = (Ok name, w1) ->
  qd_scroll name 10000 (service w1) = (inr [], s1) ->
  clear_collection a w =
    (Ok tt,
     World (environ w1) (stdin w1)
       (stdout w1 ++ [[Lit "Collection '"; Val (VStr name); Lit "' is already empty"]])
       s1 (calls w ++ [Scroll name 10000])).
Proof.
  intros Hforce Hsetup Hscroll.
  destruct (clear_collection_setup_frame dotenv py_int a w)
    as (r & w1' & Hc & _ & _ & Hcalls).
  rewrite Hsetup in Hc. injection Hc as <- <-.
  unfold QdrantManager.clear_collection. unfold bind at 1. rewrite Hsetup, Hforce.
  cbn. unfold QdrantManager.clear_collection_try, try_except, bind, call, print.
  rewrite Hscroll. cbn. by rewrite Hcalls.
Qed.
End CommandOutcomes.

(** ** The read-only commands of the Qdrant manager *)

Section QuietFacts.
Context {S L : Type}.
Implicit Types w : world S L.

Lemma quiet_ret {A} (a : A) : quiet (S:=S) (L:=L) (ret a).
Proof. intros w. by eexists _, _. Qed.

Lemma quiet_raise {A} e : quiet (S:=S) (L:=L) (A:=A) (raise e).
Proof. intros w. by eexists _, _. Qed.

Lemma quiet_print l : quiet (S:=S) (L:=L) (print l).
Proof. intros w. by eexists _, _. Qed.

Lemma quiet_bind {A B} (m : M (world S L) A) (k : A -> M (world S L) B) :
  quiet m -> (forall a, quiet (k a)) -> quiet (bind m k).
Proof.
  intros Hm Hk w. unfold bind.
  destruct (Hm w) as (r & w1 & -> & Hr & Hin & Hsv & Hc).
  destruct r as [a|e|c]; [| |by destruct (Hr c)].
  - destruct (Hk a w1) as (r' & w2 & -> & Hr' & Hin' & Hsv' & Hc').
    eexists _, _. split; [reflexivity|]. split; [done|]. split_and!; congruence.
  - by eexists _, _.
Qed.

Lemma quiet_try_except {A} (m : M (world S L) A) h :
  quiet m -> (forall e, quiet (h e)) -> quiet (try_except m h).
Proof.
  intros Hm Hh w. unfold try_except.
  destruct (Hm w) as (r & w1 & -> & Hr & Hin & Hsv & Hc).
  destruct r as [a|e|c]; [| |by destruct (Hr c)].
  - by eexists _, _.
  - destruct (Hh e w1) as (r' & w2 & -> & Hr' & Hin' & Hsv' & Hc').
    eexists _, _. split; [reflexivity|]. split; [done|]. split_and!; congruence.
Qed.

Lemma quiet_when b (m : M (world S L) unit) : quiet m -> quiet (when b m).
Proof. destruct b; [done|]. intros _. apply quiet_ret. Qed.

(** A handler that prints turns every exception of a quiet body into a
    normal return. *)
Lemma quiet_caught (m : M (world S L) unit) (h : exception -> line) w :
  quiet m ->
  exists w', try_except m (fun e => print (h e)) w = (Ok tt, w')
             /\ stdin w' = stdin w /\ service w' = service w /\ calls w' = calls w.
Proof.
  intros Hm. unfold try_except.
  destruct (Hm w) as (r & w1 & -> & Hr & Hin & Hsv & Hc).
  destruct r as [[]|e|c]; [| |by destruct (Hr c)]; by eexists.
Qed.

(** Relabelling the log of a quiet computation keeps it quiet. *)
Lemma quiet_relabel {L' A} (f : L' -> L) (m : M (world S L') A) :
  quiet m -> quiet (relabel f m).
Proof.
  intros Hm w. unfold relabel.
  destruct (Hm (World (environ w) (stdin w) (stdout w) (service w) []))
    as (r & w1 & -> & Hr & Hin & Hsv & Hc).
  eexists _, _. split; [reflexivity|]. split; [done|]. cbn in *.
  rewrite Hc. cbn. by rewrite app_nil_r.
Qed.
End QuietFacts.

Section InspectFacts.
Context {S : Type} `{QdrantInfo S}.
Variable dotenv : option (string * (gmap string string -> gmap string string)).
Variable py_int : string -> option Z.
Variable py_str : value -> string.
Variable json_dumps : list (string * string) -> string.
Implicit Types w : world S info_call.

Local Abbreviation load_env_config := (QdrantInspect.load_env_config dotenv py_int).
Local Abbreviation connect := (QdrantInspect.connect dotenv py_int).
Local Abbreviation named_collection := (QdrantInspect.named_collection dotenv py_int).
Local Abbreviation list_collections := (QdrantInspect.list_collections dotenv py_int).
Local Abbreviation collection_info :=
  (QdrantInspect.collection_info dotenv py_int py_str json_dumps).
Local Abbreviation collection_info_try :=
  (QdrantInspect.collection_info_try py_str json_dumps).
Local Abbreviation count_vectors := (QdrantInspect.count_vectors dotenv py_int).
Local Abbreviation test_connection := (QdrantInspect.test_connection dotenv py_int).

Lemma quiet_load_env_config : quiet (S:=S) load_env_config.
Proof.
  apply quiet_relabel. intros w.
  destruct (load_env_config_frame dotenv py_int w) as (r & w1 & Hrun & Hrest).
  by exists r, w1.
Qed.

Lemma quiet_connect : quiet (S:=S) connect.
Proof.
  apply quiet_relabel. intros w.
  destruct (connect_frame dotenv py_int w) as (r & w1 & Hrun & Hrest).
  by exists r, w1.
Qed.

Lemma quiet_named_collection a : quiet (S:=S) (named_collection a).
Proof.
  unfold QdrantInspect.named_collection.
  apply quiet_bind.
  - destruct (truthy_opt _); [apply quiet_ret|].
    apply quiet_bind; [apply quiet_load_env_config|]. intros cfg. apply quiet_ret.
  - intros name. apply quiet_bind; [apply quiet_connect|]. intros _. apply quiet_ret.
Qed.

Lemma quiet_show_payload_schema schema :
  quiet (S:=S) (QdrantInspect.show_payload_schema py_str json_dumps schema).
Proof.
  apply quiet_try_except.
  - apply quiet_bind.
    + destruct schema; first [apply quiet_ret | apply quiet_raise].
    + intros items. apply quiet_print.
  - intros _. apply quiet_print.
Qed.

Ltac quiet_steps :=
  repeat first
    [ apply quiet_print | apply quiet_ret | apply quiet_raise
    | apply quiet_show_payload_schema
    | apply quiet_when
    | apply quiet_bind; [|intros ?]
    | match goal with |- quiet (match ?x with _ => _ end) => destruct x end ].

(** Everything [collection_info] does after [get_collection] has
    answered. *)
Lemma collection_info_try_run name w :
  exists w',
    collection_info_try name w = (Ok tt, w')
    /\ stdin w' = stdin w /\ calls w' = calls w ++ [GetCollection name].
Proof.
  unfold QdrantInspect.collection_info_try, try_except. unfold bind at 1.
  unfold call at 1.
  destruct (qd_get_collection name (service w)) as [[e|info] s1]; [by eexists|].
  match goal with |- context [bind ?m ?k ?w1] =>
    assert (quiet (S:=S) (bind m k)) as Hq by quiet_steps;
    destruct (Hq w1) as (r & w2 & -> & Hr & Hin & Hsv & Hc)
  end.
  destruct r as [[]|e|c]; [| |by destruct (Hr c)]; by eexists.
Qed.

Lemma count_vectors_try_run name w :
  exists w',
    QdrantInspect.count_vectors_try name w = (Ok tt, w')
    /\ stdin w' = stdin w /\ calls w' = calls w ++ [Count name].
Proof.
  unfold QdrantInspect.count_vectors_try, try_except, bind, call, print.
  destruct (qd_count name (service w)) as [[e|n] s1]; by eexists.
Qed.

(** X20. Once the name is settled and the client built, [collection_info]
    and [count_vectors] return normally after exactly one request, for the
    description and for the count of that collection, and read no input:
    whatever the client answers or raises, and whatever the description
    holds, is reported, not raised. *)
Theorem inspection_commands_return a w name w1 :
  named_collection a w = (Ok name, w1) ->
  (exists w', collection_info a w = (Ok tt, w')
              /\ calls w' = calls w ++ [GetCollection name] /\ stdin w' = stdin w)
  /\ (exists w', count_vectors a w = (Ok tt, w')
              /\ calls w' = calls w ++ [Count name] /\ stdin w' = stdin w).
Proof.
  intros Hname.
  destruct (quiet_named_collection a w) as (r & w1' & Hrun & _ & Hin & _ & Hc).
  rewrite Hname in Hrun. injection Hrun as <- <-.
  split.
  - destruct (collection_info_try_run name w1) as (w' & Hrun & Hin' & Hc').
    exists w'. split_and!; [|congruence..].
    unfold QdrantInspect.collection_info, bind. by rewrite Hname.
  - destruct (count_vectors_try_run name w1) as (w' & Hrun & Hin' & Hc').
    exists w'. split_and!; [|congruence..].
    unfold QdrantInspect.count_vectors, bind. by rewrite Hname.
Qed.

Lemma raises_after_print {A} l (k : M (world S info_call) A) e :
  (forall w, exists w', k w = (Raise e, w')
                        /\ exists ls, stdout w' = stdout w ++ ls) ->
  forall w, exists w', bind (print l) (fun _ => k) w = (Raise e, w')
                       /\ exists ls, stdout w' = stdout w ++ ls.
Proof.
  intros Hk w. unfold bind, print.
  destruct (Hk (World (environ w) (stdin w) (stdout w ++ [l]) (service w) (calls w)))
    as (w' & -> & ls & Hout).
  exists w'. split; [done|]. exists (l :: ls). rewrite Hout. cbn.
  by rewrite <- app_assoc.
Qed.

(** X21. A collection whose vectors configuration has no attribute
    [size] (named vectors): [collection_info] reads the attribute
    unguarded, so its report ends with the [AttributeError]; the loop of
    [list_collections] guards it with [hasattr] and lists the collection
    with its three lines, leaving dimensions and distance out. *)
Theorem vectors_without_size a w name w1 info s1 cls :
  named_collection a w = (Ok name, w1) ->
  qd_get_collection name (service w1) = (inr info, s1) ->
  vectors info = Some (NoSize cls) ->
  (exists w',
     collection_info a w = (Ok tt, w')
     /\ last (stdout w') = Some
          [Lit "❌ Error getting collection info: ";
           Exc (Exception "AttributeError"
                  ("'" ++ cls ++ "' object has no attribute 'size'"))])
  /\ QdrantInspect.show_collection name w1 =
       (Ok tt,
        World (environ w1) (stdin w1)
          (stdout w1 ++ [[Lit "📁 "; Val (VStr name)];
                         [Lit "   - Vectors: "; Val (points_count info)];
                         [Lit "   - Status: "; Val (status info)];
                         []])
          s1 (calls w1 ++ [GetCollection name])).
Proof.
  intros Hname Hget Hv. split.
  - unfold QdrantInspect.collection_info. unfold bind at 1. rewrite Hname.
    unfold QdrantInspect.collection_info_try, try_except. unfold bind at 1.
    unfold call at 1. rewrite Hget, Hv.
    cbn [fst snd].
    match goal with |- context [bind (print ?l) (fun _ => ?k) ?w0] =>
      assert (exists w2, bind (print l) (fun _ => k) w0
                         = (Raise (Exception "AttributeError"
                                     ("'" ++ cls ++ "' object has no attribute 'size'")),
                            w2)
                         /\ exists ls, stdout w2 = stdout w0 ++ ls)
        as (w2 & Hrun & ls & Hout)
    end.
    { do 5 apply raises_after_print.
      intros w0. eexists. split; [reflexivity|]. exists []. by rewrite app_nil_r. }
    rewrite Hrun. eexists. split; [reflexivity|]. cbn. by rewrite last_snoc.
  - unfold QdrantInspect.show_collection, bind, call, print. rewrite Hget, Hv. cbn.
    by rewrite <- !app_assoc.
Qed.

(** The loop of [list_collections]: one [get_collection] per name, in the
    order of the listing, until one raises. *)
Lemma show_collection_run name w :
  exists r w',
    QdrantInspect.show_collection name w = (r, w')
    /\ stdin w' = stdin w /\ calls w' = calls w ++ [GetCollection name]
    /\ (r = Ok tt \/ exists e, r = Raise e).
Proof.
  unfold QdrantInspect.show_collection. unfold bind at 1. unfold call at 1.
  destruct (qd_get_collection name (service w)) as [[e|info] s1].
  - eexists _, _. split; [reflexivity|]. split_and!; eauto.
  - match goal with |- context [bind ?m ?k ?w1] =>
      assert (quiet (S:=S) (bind m k)) as Hq by quiet_steps;
      destruct (Hq w1) as (r & w2 & -> & Hr & Hin & Hsv & Hc)
    end.
    exists r, w2. split; [done|]. split_and!; [done..|].
    destruct r as [[]|e|c]; [by left|right; by eexists|by destruct (Hr c)].
Qed.

Lemma show_collections_run names : forall w,
  exists r w' k,
    for_fold names tt (fun _ name => QdrantInspect.show_collection name) w = (r, w')
    /\ stdin w' = stdin w
    /\ k <= length names
    /\ calls w' = calls w ++ map GetCollection (take k names)
    /\ ((r = Ok tt /\ k = length names) \/ exists e, r = Raise e).
Proof.
  induction names as [|name names IH]; intros w.
  - exists (Ok tt), w, 0. split_and!; try done. { by rewrite app_nil_r. } by left.
  - cbn [for_fold]. unfold bind at 1.
    destruct (show_collection_run name w) as (r & w1 & -> & Hin & Hc & Hr).
    destruct Hr as [-> | [e ->]].
    + destruct (IH w1) as (r' & w2 & k & -> & Hin' & Hk & Hc' & Hr').
      exists r', w2, (Datatypes.S k). split; [done|]. split_and!.
      * congruence.
      * cbn. lia.
      * rewrite Hc', Hc. cbn. by rewrite <- app_assoc.
      * destruct Hr' as [[-> ->]|Hr']; [by left|by right].
    + exists (Raise e), w1, 1. split; [done|]. split_and!; try done.
      * cbn. lia.
      * right. by eexists.
Qed.

(** X22. [list_collections], once the client is built, returns normally
    and reads no input.  It lists the collections once and then asks for
    the description of each name in turn, in the order of the listing: the
    requests are a prefix of the names, all of them unless the command
    ended by reporting an error. *)
Theorem list_collections_calls w cfg w1 :
  connect w = (Ok cfg, w1) ->
  exists w',
    list_collections w = (Ok tt, w')
    /\ stdin w' = stdin w
    /\ match (qd_get_collections (service w)).1 with
       | inl e =>
           calls w' = calls w ++ [Basic GetCollections]
           /\ last (stdout w') = Some [Lit "❌ Error listing collections: "; Exc e]
       | inr names =>
           exists k,
             k <= length names
             /\ calls w' = calls w ++ Basic GetCollections
                                      :: map GetCollection (take k names)
             /\ (k = length names
                 \/ exists e, last (stdout w')
                              = Some [Lit "❌ Error listing collections: "; Exc e])
       end.
Proof.
  intros Hconn.
  destruct (quiet_connect w) as (r & w1' & Hrun & _ & Hin & Hsv & Hc).
  rewrite Hconn in Hrun. injection Hrun as <- <-.
  unfold QdrantInspect.list_collections. unfold bind at 1. rewrite Hconn.
  unfold QdrantInspect.list_collections_try, try_except. unfold bind at 1.
  unfold call at 1. rewrite Hsv.
  destruct (qd_get_collections (service w)) as [[e|names] s1]; cbn [fst snd].
  - eexists. split; [reflexivity|]. cbn. rewrite Hc. split_and!; try done.
    by rewrite last_snoc.
  - destruct names as [|name names].
    + eexists. split; [reflexivity|]. cbn. split; [done|].
      exists 0. rewrite Hc. split_and!; try done. by left.
    + unfold bind at 1. unfold print at 1. unfold bind at 1. unfold print at 1.
      match goal with |- context [for_fold ?l tt ?f ?w0] =>
        destruct (show_collections_run l w0) as (r & w2 & k & -> & Hin' & Hk & Hc' & Hr)
      end.
      cbn [stdin calls] in Hin', Hc'.
      destruct Hr as [[-> ->]|[e ->]].
      * exists w2. split; [done|]. split; [congruence|].
        exists (length (name :: names)). split; [done|]. split; [|by left].
        rewrite Hc', Hc. by rewrite <- app_assoc.
      * eexists. split; [reflexivity|]. cbn. split; [congruence|].
        exists k. split; [done|]. split.
        -- rewrite Hc', Hc. by rewrite <- app_assoc.
        -- right. exists e. by rewrite last_snoc.
Qed.

Lemma test_connection_try_run cfg w :
  exists w',
    QdrantInspect.test_connection_try cfg w = (Ok tt, w')
    /\ stdin w' = stdin w
    /\ if negb (truthy_opt (QdrantManager.url cfg))
          || negb (truthy_opt (QdrantManager.api_key cfg))
       then
         calls w' = calls w /\ service w' = service w
         /\ last (stdout w') = Some
              [Lit "❌ Connection failed: ";
               Exc (Exception "ValueError"
                      "QDRANT_URL and QDRANT_API_KEY must be set in environment")]
       else
         match qd_get_collections (service w) with
         | (inl e, _) =>
             calls w' = calls w ++ [Basic GetCollections]
             /\ last (stdout w') = Some [Lit "❌ Connection failed: "; Exc e]
         | (inr names, s1) =>
             calls w' = calls w ++ [Basic GetCollections; GetClusterInfo]
             /\ last (stdout w') = Some
                  match (qd_get_cluster_info s1).1 with
                  | inl _ =>
                      [Lit "Cluster info not available (this is normal for cloud instances)"]
                  | inr info => [Lit "Cluster status: "; Val info]
                  end
         end.
Proof.
  unfold QdrantInspect.test_connection_try, try_except. unfold bind at 1.
  unfold QdrantInspect.get_qdrant_client, relabel, QdrantManager.get_qdrant_client.
  destruct (negb (truthy_opt (QdrantManager.url cfg))
            || negb (truthy_opt (QdrantManager.api_key cfg))).
  - eexists. split; [reflexivity|]. cbn. rewrite app_nil_r. split_and!; try done.
    by rewrite last_snoc.
  - cbn [ret raise environ stdin stdout service calls map].
    unfold bind at 1. unfold call at 1. cbn [service].
    destruct (qd_get_collections (service w)) as [[e|names] s1].
    + eexists. split; [reflexivity|]. cbn. rewrite app_nil_r. split_and!; try done.
      by rewrite last_snoc.
    + unfold bind, print, QdrantInspect.try_bare, call. cbn.
      destruct (qd_get_cluster_info s1) as [[e|info] s2]; cbn;
        (eexists; split; [reflexivity|]; cbn; rewrite app_nil_r, <- app_assoc;
         split_and!; try done; by rewrite last_snoc).
Qed.

End InspectFacts.

(** ** The further properties against the test doubles *)

(** With the Supabase store the two builders give the same dictionary. *)
Lemma builders_agree_supabase :
  exists cfg w',
    Utils.get_mem0_client_config (manager_world [] (inr three_memories)) = (Ok cfg, w')
    /\ MemoryManager.get_mem0_client_config (manager_world [] (inr three_memories))
       = (Ok cfg, w').
Proof.
  destruct (builders_agree (manager_world [] (inr three_memories))) as (cfg & cfg' & w' & H1 & H2 & _ & _ & _ & Heq).
  rewrite (Heq ltac:(vm_compute; discriminate)) in H2.
  exists cfg, w'. split; [exact H1 | exact H2].
Defined.

(** The double builds the client: one call, and a normal return. *)
Lemma init_failure_policy_connected :
  exists cfg w1,
    MemoryManager.init None (manager_world [] (inr three_memories)) = (Ok tt, w1)
    /\ calls w1 = [FromConfig cfg].
Proof.
  destruct (init_failure_policy None (manager_world [] (inr three_memories)))
    as (cfg & w1 & Hc & _ & Hrun).
  simpl in Hrun. destruct Hrun as [Hrun _].
  exists cfg, w1. split; [exact Hrun | exact Hc].
Defined.

(** The argument [postgresql://other/db] replaces the [DATABASE_URL] of the
    environment. *)
Lemma init_database_url_override_other :
  exists cfg w1,
    (MemoryManager.init (Some "postgresql://other/db")
       (manager_world [] (inr three_memories))).2 = w1
    /\ calls w1 = [FromConfig cfg]
    /\ param cfg "vector_store" "connection_string" = Some (VStr "postgresql://other/db")
    /\ environ w1 !! "DATABASE_URL" = Some "postgresql://other/db".
Proof.
  destruct (init_database_url_override "postgresql://other/db"
              (manager_world [] (inr three_memories)) ltac:(discriminate))
    as (cfg & r & w1 & Hrun & Hc & Hp & He).
  exists cfg, w1. rewrite Hrun. split_and!; [reflexivity | exact Hc | exact Hp | exact He].
Defined.

(** Three memories, one of which cannot be deleted: a boolean all the
    same. *)
Lemma safe_delete_all_never_raises_three :
  exists b w',
    MemoryManager.safe_delete_all_memories
      (manager_world ["DELETE"] (inr three_memories)) = (Ok b, w').
Proof.
  destruct (safe_delete_all_never_raises (manager_world ["DELETE"] (inr three_memories)))
    as (b & w' & ids & Hrun & _).
  exists b, w'. exact Hrun.
Defined.

(** An empty [results]: [True], although [DELETE] is waiting on the
    input. *)
Lemma safe_delete_all_nothing_listed_empty :
  (MemoryManager.safe_delete_all_memories
     (manager_world ["DELETE"] (inr (VDict [("results", VList [])])))).1 = Ok true.
Proof.
  pose proof (safe_delete_all_nothing_listed
                (manager_world ["DELETE"] (inr (VDict [("results", VList [])])))
                (VDict [("results", VList [])])
                (FakeMem0 (inr (VDict [("results", VList [])])) [])) as Hthm.
  rewrite (Hthm eq_refl eq_refl). reflexivity.
Defined.

(** Three memories and no input. *)
Lemma safe_delete_all_at_end_of_input_three :
  exists w',
    MemoryManager.safe_delete_all_memories (manager_world [] (inr three_memories))
    = (Ok false, w')
    /\ calls w' = [GetAll (Some "user") None None].
Proof.
  pose proof (safe_delete_all_at_end_of_input (manager_world [] (inr three_memories))
                three_memories (FakeMem0 (inr three_memories) []) 3) as Hthm.
  destruct (Hthm eq_refl eq_refl eq_refl eq_refl) as (w' & Hrun & Hc & _).
  exists w'. split; [exact Hrun | exact Hc].
Defined.

(** A listing that opens with a string: the record after it is not
    deleted. *)
Lemma safe_delete_all_first_record_is_a_string :
  exists w',
    MemoryManager.safe_delete_all_memories
      (manager_world ["DELETE"] (inr (VList [VStr "likes tea"; memory "m1" "owns a cat"])))
    = (Ok false, w')
    /\ calls w' = [GetAll (Some "user") None None].
Proof.
  pose proof (safe_delete_all_first_record_not_a_dict
                (manager_world ["DELETE"]
                   (inr (VList [VStr "likes tea"; memory "m1" "owns a cat"])))
                [] (VList [VStr "likes tea"; memory "m1" "owns a cat"])
                (FakeMem0 (inr (VList [VStr "likes tea"; memory "m1" "owns a cat"])) [])
                (VStr "likes tea") [memory "m1" "owns a cat"]) as Hthm.
  destruct (Hthm eq_refl eq_refl eq_refl eq_refl) as (w' & Hrun & Hc & _).
  exists w'. split; [exact Hrun | exact Hc].
Defined.


(** [--list-all] against three memories. *)
Lemma main_listing_never_deletes_list_all :
  exists r w',
    MemoryManager.main (fun s => s) list_all_alone (manager_world [] (inr three_memories))
    = (r, w')
    /\ List.filter is_delete (calls w') = [].
Proof.
  destruct (main_listing_never_deletes (fun s => s) list_all_alone
              (manager_world [] (inr three_memories)) eq_refl eq_refl)
    as (r & w' & Hrun & _ & Hc).
  exists r, w'. split; [exact Hrun | exact Hc].
Defined.

(** [--delete-memory --memory-id m2], which the double refuses: [main]
    returns. *)
Lemma main_delete_memory_returns_after_failure :
  exists w',
    MemoryManager.main (fun s => s)
      {| MemoryManager.database_url := None;
         MemoryManager.interactive := false;
         MemoryManager.list_all := false;
         MemoryManager.list_memories_flag := false;
         MemoryManager.delete_memory := true;
         MemoryManager.delete_user_memories_flag := false;
         MemoryManager.delete_agent_memories_flag := false;
         MemoryManager.delete_run_memories_flag := false;
         MemoryManager.safe_delete_all := false;
         MemoryManager.user_id := None;
         MemoryManager.agent_id := None;
         MemoryManager.run_id := None;
         MemoryManager.memory_id := Some stuck_memory |}
      (manager_world [] (inr three_memories)) = (Ok tt, w')
    /\ last (stdout w') = Some
         [Lit "❌ Error deleting memory "; Val (VStr stuck_memory); Lit ": ";
          Exc (Exception "RuntimeError" "delete failed")].
Proof.
  edestruct (main_delete_memory_returns_normally (fun s => s)
              {| MemoryManager.database_url := None;
                 MemoryManager.interactive := false;
                 MemoryManager.list_all := false;
                 MemoryManager.list_memories_flag := false;
                 MemoryManager.delete_memory := true;
                 MemoryManager.delete_user_memories_flag := false;
                 MemoryManager.delete_agent_memories_flag := false;
                 MemoryManager.delete_run_memories_flag := false;
                 MemoryManager.safe_delete_all := false;
                 MemoryManager.user_id := None;
                 MemoryManager.agent_id := None;
                 MemoryManager.run_id := None;
                 MemoryManager.memory_id := Some stuck_memory |}
              (manager_world [] (inr three_memories))
              (MemoryManager.init None (manager_world [] (inr three_memories))).2
              stuck_memory eq_refl eq_refl eq_refl eq_refl eq_refl ltac:(discriminate))
    as (w' & Hrun & _ & Hlast).
  { vm_compute. reflexivity. }
  exists w'. split; [exact Hrun | exact Hlast].
Defined.

Lemma dotenv_overrides_environment_url :
  let run := QdrantManager.load_env_config other_env int_of_literal (qdrant_world []) in
  environ run.2 !! "QDRANT_URL" = Some "https://other.example:6333"
  /\ environ run.2 !! "QDRANT_API_KEY" = Some "secret".
Proof.
  intros run.
  pose proof (dotenv_overrides_environment other_env int_of_literal ".env"
                (fun _ => {[ "QDRANT_URL" := "https://other.example:6333" ]})
                (qdrant_world [])
                (QdrantManager.Config (Some "https://other.example:6333") (Some "secret")
                   "mem0_memories" 1536 "github_copilot")
                run.2 eq_refl) as Hthm.
  cbv zeta in Hthm.
  destruct Hthm as (Hfile & Hkept & _).
  - vm_compute. reflexivity.
  - split.
    + apply Hfile. reflexivity.
    + rewrite Hkept; reflexivity.
Defined.

(** The file loaded twice. *)
Lemma load_env_config_twice_with_file :
  exists w2,
    QdrantManager.load_env_config other_env int_of_literal
      (QdrantManager.load_env_config other_env int_of_literal (qdrant_world [])).2
    = (Ok (QdrantManager.Config (Some "https://other.example:6333") (Some "secret")
             "mem0_memories" 1536 "github_copilot"), w2)
    /\ calls w2 = [].
Proof.
  destruct (load_env_config_twice other_env int_of_literal (qdrant_world [])
              (QdrantManager.Config (Some "https://other.example:6333") (Some "secret")
                 "mem0_memories" 1536 "github_copilot")
              (QdrantManager.load_env_config other_env int_of_literal (qdrant_world [])).2)
    as (w2 & Hrun & _ & _ & _ & Hc).
  - vm_compute. reflexivity.
  - reflexivity.
  - exists w2. split; [exact Hrun | exact Hc].
Defined.

(** A file whose value refers to the variable it binds is not read the
    same twice: the second load appends the suffix again. *)
Lemma load_env_config_twice_grows :
  let first := QdrantManager.load_env_config growing_env int_of_literal (qdrant_world []) in
  let second := QdrantManager.load_env_config growing_env int_of_literal first.2 in
  environ first.2 !! "QDRANT_URL" = Some "https://qdrant.example:6333/v2"
  /\ environ second.2 !! "QDRANT_URL" = Some "https://qdrant.example:6333/v2/v2".
Proof. vm_compute. split; reflexivity. Qed.

(** No [LLM_PROVIDER]: 1536 on both sides. *)
Lemma collection_dimension_matches_builder_default :
  exists bcfg wb',
    Utils.get_mem0_client_config
      (QdrantManager.load_env_config None int_of_literal (qdrant_world [])).2
    = (Ok bcfg, wb')
    /\ param bcfg "vector_store" "embedding_model_dims" = Some (VInt 1536).
Proof.
  destruct (collection_dimension_matches_builder None int_of_literal (qdrant_world [])
              example_config
              (QdrantManager.load_env_config None int_of_literal (qdrant_world [])).2
              (QdrantManager.load_env_config None int_of_literal (qdrant_world [])).2)
    as (bcfg & wb' & Hrun & Hdim & _).
  - vm_compute. reflexivity.
  - reflexivity.
  - exists bcfg, wb'. split; [exact Hrun | exact Hdim].
Defined.

(** The three commands with [--force] and no name, without the two
    variables: creating and clearing end with the error, deleting asks
    for a name. *)
Lemma missing_credentials_raise_create :
  let e := Exception "ValueError"
             "QDRANT_URL and QDRANT_API_KEY must be set in environment" in
  (QdrantManager.create_collection None int_of_literal (QdrantManager.Args None true)
     qdrant_world_without_credentials).1 = Raise e
  /\ (QdrantManager.clear_collection None int_of_literal (QdrantManager.Args None true)
        qdrant_world_without_credentials).1 = Raise e
  /\ (QdrantManager.delete_collection None int_of_literal (QdrantManager.Args None true)
        qdrant_world_without_credentials).1 = Ok tt.
Proof.
  intros e.
  pose proof (missing_credentials_raise None int_of_literal (QdrantManager.Args None true)
                qdrant_world_without_credentials
                (QdrantManager.Config None None "mem0_memories" 1536 "github_copilot")
                (QdrantManager.load_env_config None int_of_literal
                   qdrant_world_without_credentials).2) as Hthm.
  destruct Hthm as (Hrun & _ & Hunnamed & _).
  - vm_compute. reflexivity.
  - left. reflexivity.
  - destruct (Hunnamed eq_refl) as (Hdelete & Hclear).
    destruct (Hclear (QdrantManager.Config None None "mem0_memories" 1536 "github_copilot")
                (QdrantManager.load_env_config None int_of_literal
                   (QdrantManager.load_env_config None int_of_literal
                      qdrant_world_without_credentials).2).2
                ltac:(vm_compute; reflexivity) (or_introl eq_refl)) as (Hc & _).
    rewrite Hrun, Hc, Hdelete. split_and!; reflexivity.
Defined.

(** [EMBEDDING_DIMS=large]. *)
Lemma unparsable_dimension_raises_large :
  (QdrantManager.create_collection None int_of_literal (QdrantManager.Args None false)
     qdrant_world_bad_dimension).1
  = Raise (Exception "ValueError" "invalid literal for int() with base 10").
Proof.
  destruct (unparsable_dimension_raises None int_of_literal (QdrantManager.Args None false)
              qdrant_world_bad_dimension) as (w1 & Hrun & _).
  - vm_compute. reflexivity.
  - rewrite Hrun. reflexivity.
Defined.

(** [create-collection --collection-name notes] beside [mem0_memories]. *)
Lemma create_collection_when_absent_notes :
  exists w',
    QdrantManager.create_collection None int_of_literal
      (QdrantManager.Args (Some "notes") false) (qdrant_world []) = (Ok tt, w')
    /\ calls w' = [GetCollections; CreateCollection "notes" 1536 COSINE].
Proof.
  pose proof (create_collection_when_absent None int_of_literal
                (QdrantManager.Args (Some "notes") false) (qdrant_world [])
                example_config
                (QdrantManager.connect None int_of_literal (qdrant_world [])).2
                ["mem0_memories"] (FakeQdrant [("mem0_memories", three_points)])) as Hthm.
  destruct Hthm as (w' & Hrun & Hc & _).
  - vm_compute. reflexivity.
  - reflexivity.
  - intros Hin. apply list_elem_of_singleton in Hin. discriminate Hin.
  - exists w'. split; [exact Hrun | exact Hc].
Defined.


(** [delete-collection --collection-name mem0_memories] with no input. *)
Lemma prompt_at_end_of_input_delete :
  (QdrantManager.delete_collection None int_of_literal
     (QdrantManager.Args (Some "mem0_memories") false) (qdrant_world [])).1
  = Raise (Exception "EOFError" "EOF when reading a line").
Proof.
  destruct (prompt_at_end_of_input None int_of_literal
              (QdrantManager.Args (Some "mem0_memories") false) (qdrant_world []) eq_refl)
    as (Hdelete & _).
  rewrite (Hdelete "mem0_memories" example_config
             (QdrantManager.connect None int_of_literal (qdrant_world [])).2
             eq_refl ltac:(discriminate) ltac:(vm_compute; reflexivity) eq_refl).
  reflexivity.
Defined.

(** [clear-collection --collection-name scratch --force] on the empty
    collection. *)
Lemma clear_collection_when_empty_scratch :
  calls (QdrantManager.clear_collection None int_of_literal
           (QdrantManager.Args (Some "scratch") true) qdrant_world_with_empty).2
  = [Scroll "scratch" 10000].
Proof.
  pose proof (clear_collection_when_empty None int_of_literal
                (QdrantManager.Args (Some "scratch") true) qdrant_world_with_empty
                "scratch"
                (QdrantManager.clear_collection_setup None int_of_literal
                   (QdrantManager.Args (Some "scratch") true) qdrant_world_with_empty).2
                (FakeQdrant [("mem0_memories", three_points); ("scratch", [])])) as Hthm.
  rewrite Hthm; [reflexivity | reflexivity | vm_compute; reflexivity | reflexivity].
Defined.

Lemma inspection_commands_return_count :
  exists w',
    QdrantInspect.count_vectors None int_of_literal (QdrantInspect.Args None)
      (inspect_world qdrant_credentials) = (Ok tt, w')
    /\ calls w' = [Count "mem0_memories"].
Proof.
  destruct (inspection_commands_return None int_of_literal plain_str no_json
              (QdrantInspect.Args None) (inspect_world qdrant_credentials)
              "mem0_memories"
              (QdrantInspect.named_collection None int_of_literal (QdrantInspect.Args None)
                 (inspect_world qdrant_credentials)).2)
    as (_ & w' & Hrun & Hc & _).
  - vm_compute. reflexivity.
  - exists w'. split; [exact Hrun | exact Hc].
Defined.

(** [collection-info --collection-name multi]. *)
Lemma vectors_without_size_multi :
  exists w',
    QdrantInspect.collection_info None int_of_literal plain_str no_json
      (QdrantInspect.Args (Some "multi")) (inspect_world qdrant_credentials) = (Ok tt, w')
    /\ last (stdout w') = Some
         [Lit "❌ Error getting collection info: ";
          Exc (Exception "AttributeError" "'dict' object has no attribute 'size'")].
Proof.
  pose proof (vectors_without_size None int_of_literal plain_str no_json
                (QdrantInspect.Args (Some "multi")) (inspect_world qdrant_credentials)
                "multi"
                (QdrantInspect.named_collection None int_of_literal
                   (QdrantInspect.Args (Some "multi"))
                   (inspect_world qdrant_credentials)).2
                (fake_describe "multi" [])
                (FakeQdrant [("mem0_memories", three_points); ("multi", [])])
                "dict") as Hthm.
  destruct Hthm as ((w' & Hrun & Hlast) & _).
  - vm_compute. reflexivity.
  - reflexivity.
  - reflexivity.
  - exists w'. split; [exact Hrun | exact Hlast].
Defined.

(** [list-collections] with two collections. *)
Lemma list_collections_calls_two :
  exists w',
    QdrantInspect.list_collections None int_of_literal (inspect_world qdrant_credentials)
    = (Ok tt, w')
    /\ exists k, k <= 2
         /\ calls w' = Basic GetCollections
                         :: map GetCollection (take k ["mem0_memories"; "multi"]).
Proof.
  destruct (list_collections_calls None int_of_literal (inspect_world qdrant_credentials)
              example_config
              (QdrantInspect.connect None int_of_literal
                 (inspect_world qdrant_credentials)).2)
    as (w' & Hrun & _ & Hcalls).
  - vm_compute. reflexivity.
  - exists w'. split; [exact Hrun|].
    simpl in Hcalls. destruct Hcalls as (k & Hk & Hc & _).
    exists k. split; [exact Hk | exact Hc].
Defined.


(** ** How an interactive session ends *)

Create HintDb stays.

Section StaysFacts.
Context {S L : Type}.
Implicit Types w : world S L.

Lemma stays_ret {A} (a : A) : stays (S:=S) (L:=L) (ret a).
Proof. intros w c. done. Qed.

Lemma stays_raise {A} e : stays (S:=S) (L:=L) (A:=A) (raise e).
Proof. intros w c. done. Qed.

Lemma stays_print l : stays (S:=S) (L:=L) (print l).
Proof. intros w c. done. Qed.

Lemma stays_input prompt : stays (S:=S) (L:=L) (input prompt).
Proof. intros w c. unfold input. by destruct (stdin w). Qed.

Lemma stays_call {A} entry (op : S -> (exception + A) * S) :
  stays (L:=L) (call entry op).
Proof. intros w c. unfold call. by destruct (op (service w)) as [[e|a] s']. Qed.

Lemma stays_bind {A B} (m : M (world S L) A) (k : A -> M (world S L) B) :
  stays m -> (forall a, stays (k a)) -> stays (bind m k).
Proof.
  intros Hm Hk w c. unfold bind. specialize (Hm w c).
  destruct (m w) as [[a|e|c'] w1]; simpl in *; [apply Hk|done|congruence].
Qed.

Lemma stays_try_except {A} (m : M (world S L) A) h :
  stays m -> (forall e, stays (h e)) -> stays (try_except m h).
Proof.
  intros Hm Hh w c. unfold try_except. specialize (Hm w c).
  destruct (m w) as [[a|e|c'] w1]; simpl in *; [done|apply Hh|congruence].
Qed.

Lemma stays_attempt {A} (m : M (world S L) A) : stays m -> stays (attempt m).
Proof.
  intros Hm w c. unfold attempt. specialize (Hm w c).
  destruct (m w) as [[a|e|c'] w1]; simpl in *; [done|done|congruence].
Qed.

Lemma stays_if {A} (b : bool) (m1 m2 : M (world S L) A) :
  stays m1 -> stays m2 -> stays (if b then m1 else m2).
Proof. by destruct b. Qed.

Lemma stays_method_get v k d : stays (S:=S) (L:=L) (method_get v k d).
Proof. intros w c. by destruct v. Qed.

Lemma stays_len v : stays (S:=S) (L:=L) (len v).
Proof. intros w c. unfold len. by destruct (py_len v). Qed.

Lemma stays_iter v : stays (S:=S) (L:=L) (iter v).
Proof. intros w c. unfold iter. by destruct (py_iter v). Qed.

Lemma stays_for_fold {A B} (xs : list A) (body : B -> A -> M (world S L) B) :
  (forall acc x, stays (body acc x)) -> forall acc, stays (for_fold xs acc body).
Proof.
  intros Hbody. induction xs as [|x xs IH]; intros acc; cbn [for_fold].
  - apply stays_ret.
  - apply stays_bind; [apply Hbody|]. intros acc'. apply IH.
Qed.

(** A [try] statement whose handler returns always returns, unless its
    body leaves the process. *)
Lemma returns_try_except {A} (m : M (world S L) A) h :
  stays m -> (forall e, returns (h e)) -> returns (try_except m h).
Proof.
  intros Hm Hh w. unfold try_except. specialize (Hm w).
  destruct (m w) as [[a|e|c] w1]; [by eexists _, _|apply Hh|by destruct (Hm c)].
Qed.

Lemma returns_print_ret {A} l (a : A) :
  returns (S:=S) (L:=L) (bind (print l) (fun _ => ret a)).
Proof. intros w. by eexists _, _. Qed.
End StaysFacts.

#[export] Hint Resolve stays_ret stays_raise stays_print stays_input stays_call
  stays_method_get stays_len stays_iter : stays.

Section SessionFacts.
Context {S : Type} `{Mem0 S}.
Variable strip : string -> string.
Implicit Types w : world S mem_call.

Ltac stays := repeat (intros; first
  [ apply stays_bind | apply stays_try_except | apply stays_if
  | apply stays_attempt | apply stays_for_fold
  | solve [auto with stays] ]).

Lemma stays_show_memories items : forall i,
  stays (S:=S) (MemoryManager.show_memories i items).
Proof.
  induction items as [|m items IH]; intros i; cbn [MemoryManager.show_memories].
  - apply stays_ret.
  - apply stays_bind; [|intros _; apply IH].
    unfold MemoryManager.show_memory. stays.
    intros w c. unfold slice_to.
    by match goal with |- context [match ?v with _ => _ end] => destruct v end.
Qed.

Lemma returns_list_memories u a r :
  returns (S:=S) (MemoryManager.list_memories u a r).
Proof.
  unfold MemoryManager.list_memories. apply returns_try_except.
  - stays. apply stays_show_memories.
  - intros e. apply returns_print_ret.
Qed.

Lemma returns_delete_memory_by_id i :
  returns (S:=S) (MemoryManager.delete_memory_by_id i).
Proof.
  unfold MemoryManager.delete_memory_by_id. apply returns_try_except; [stays|].
  intros e. apply returns_print_ret.
Qed.

Lemma returns_delete_user_memories i :
  returns (S:=S) (MemoryManager.delete_user_memories i).
Proof.
  unfold MemoryManager.delete_user_memories. apply returns_try_except; [stays|].
  intros e. apply returns_print_ret.
Qed.

Lemma returns_delete_agent_memories i :
  returns (S:=S) (MemoryManager.delete_agent_memories i).
Proof.
  unfold MemoryManager.delete_agent_memories. apply returns_try_except; [stays|].
  intros e. apply returns_print_ret.
Qed.

Lemma returns_delete_run_memories i :
  returns (S:=S) (MemoryManager.delete_run_memories i).
Proof.
  unfold MemoryManager.delete_run_memories. apply returns_try_except; [stays|].
  intros e. apply returns_print_ret.
Qed.

Lemma stays_delete_one locals m : stays (S:=S) (MemoryManager.delete_one locals m).
Proof.
  destruct locals as [mid count]. unfold MemoryManager.delete_one.
  apply stays_bind; [stays|]. intros [e|id].
  - unfold MemoryManager.could_not_delete. destruct mid; stays.
  - apply stays_if; [|stays]. apply stays_try_except; [stays|].
    intros e. unfold MemoryManager.could_not_delete. stays.
Qed.

Lemma returns_safe_delete_all_memories :
  returns (S:=S) MemoryManager.safe_delete_all_memories.
Proof.
  unfold MemoryManager.safe_delete_all_memories. apply returns_try_except.
  - stays. apply stays_delete_one.
  - intros e. apply returns_print_ret.
Qed.

(** The two ways a session ends: the farewell, or the end of the input. *)
Local Abbreviation ended r w' :=
  ((r = Ok tt /\ last (stdout w') = Some [Lit "👋 Goodbye!"])
   \/ (r = Raise (Exception "EOFError" "EOF when reading a line") /\ stdin w' = [])).

(** A question of the menu is answered, or the input ends at it. *)
Lemma ask_outcome {A} prompt (action : string -> M (world S mem_call) A) w :
  (forall x, returns (action x)) ->
  exists r w1,
    MemoryManager.ask strip prompt action w = (r, w1)
    /\ (r = Ok tt
        \/ r = Raise (Exception "EOFError" "EOF when reading a line") /\ stdin w1 = []).
Proof.
  intros Ha. unfold MemoryManager.ask. unfold bind at 1. unfold input.
  destruct (stdin w) as [|x rest].
  - eexists _, _. split; [reflexivity|]. by right.
  - destruct (negb (String.eqb (strip x) "")).
    + unfold bind, ret.
      match goal with |- context [action ?x ?w0] =>
        destruct (Ha x w0) as (a & w1 & ->)
      end.
      eexists _, _. split; [reflexivity|]. by left.
    + eexists _, _. split; [reflexivity|]. by left.
Qed.

(** One action of the menu, then the rest of the session. *)
Lemma turn_then {A} (m : M (world S mem_call) A) (k : M (world S mem_call) unit) n w :
  input_shrinks m ->
  (exists r w1, m w = (r, w1)
     /\ ((exists a, r = Ok a)
         \/ r = Raise (Exception "EOFError" "EOF when reading a line") /\ stdin w1 = [])) ->
  (forall w', length (stdin w') <= n -> exists r w'', k w' = (r, w'') /\ ended r w'') ->
  length (stdin w) <= n ->
  exists r w'', bind m (fun _ => k) w = (r, w'') /\ ended r w''.
Proof.
  intros Hshrink (r & w1 & Hrun & Hr) Hk Hn. unfold bind.
  specialize (Hshrink w). rewrite Hrun in *. simpl in Hshrink.
  destruct Hr as [[a ->] | [-> Hin]].
  - apply Hk. lia.
  - eexists _, _. split; [reflexivity|]. by right.
Qed.

Lemma interactive_loop_ends fuel : forall w,
  length (stdin w) <= fuel ->
  exists r w', MemoryManager.interactive_loop strip fuel w = (r, w') /\ ended r w'.
Proof.
  induction fuel as [|fuel IH]; intros w Hfuel.
  - destruct (stdin w) as [|choice rest] eqn:Hin; [|simpl in Hfuel; lia].
    cbn [MemoryManager.interactive_loop]. unfold bind at 1.
    destruct (print_menu_run w) as (w1 & -> & Hw1).
    unfold bind at 1. unfold input. rewrite Hw1, Hin.
    eexists _, _. split; [reflexivity|]. by right.
  - cbn [MemoryManager.interactive_loop]. unfold bind at 1.
    destruct (print_menu_run w) as (w1 & -> & Hw1).
    unfold bind at 1. unfold input. rewrite Hw1.
    destruct (stdin w) as [|choice rest] eqn:Hin.
    { eexists _, _. split; [reflexivity|]. by right. }
    simpl in Hfuel.
    set (w2 := World _ rest _ _ _).
    assert (length (stdin w2) <= fuel) as Hw2 by (cbn; lia).
    clearbody w2.
    repeat (match goal with
            | |- context [if String.eqb ?a ?b then _ else _] => destruct (String.eqb a b)
            end);
      try (eapply turn_then; [ | | exact IH | exact Hw2]);
      try (apply shrinks_list_memories);
      try (apply shrinks_safe_delete_all_memories);
      try (apply shrinks_print);
      try (apply shrinks_ask;
           auto using shrinks_list_memories, shrinks_delete_memory_by_id,
             shrinks_delete_user_memories, shrinks_delete_agent_memories,
             shrinks_delete_run_memories);
      try (match goal with
           | |- context [MemoryManager.list_memories None None None ?w0] =>
               destruct (returns_list_memories None None None w0) as (a & w3 & ->);
               eexists _, _; split; [reflexivity|]; left; by eexists
           | |- context [MemoryManager.safe_delete_all_memories ?w0] =>
               destruct (returns_safe_delete_all_memories w0) as (a & w3 & ->);
               eexists _, _; split; [reflexivity|]; left; by eexists
           | |- context [MemoryManager.ask strip ?p ?act ?w0] =>
               destruct (ask_outcome p act w0) as (r & w3 & -> & Hr);
               [ intros x;
                 first [ apply returns_list_memories | apply returns_delete_memory_by_id
                       | apply returns_delete_user_memories
                       | apply returns_delete_agent_memories
                       | apply returns_delete_run_memories ]
               | eexists _, _; split; [reflexivity|];
                 destruct Hr as [-> | Hr]; [left; by eexists | by right] ]
           end).
    + eexists _, _. split; [reflexivity|]. left. split; [done|]. cbn.
      by rewrite last_snoc.
    + eexists _, _. split; [reflexivity|]. left. by eexists.
Qed.

(** X24. An interactive session ends in one of two ways only: it returns
    after the choice [9], with the farewell as the last line printed, or
    it ends with the [EOFError] of [input] once the input is used up.
    Nothing the client answers or raises ends it, and it never leaves the
    process. *)
Theorem interactive_mode_ends w :
  exists r w',
    MemoryManager.interactive_mode strip w = (r, w')
    /\ ((r = Ok tt /\ last (stdout w') = Some [Lit "👋 Goodbye!"])
        \/ (r = Raise (Exception "EOFError" "EOF when reading a line")
            /\ stdin w' = [])).
Proof.
  unfold MemoryManager.interactive_mode.
  unfold bind at 1. unfold print at 1. unfold bind at 1. unfold print at 1.
  unfold bind at 1. cbn [stdin].
  apply interactive_loop_ends. cbn. lia.
Qed.
End SessionFacts.

(** The session [1], [9] ends with the farewell. *)
Lemma interactive_mode_ends_goodbye :
  exists w',
    MemoryManager.interactive_mode (fun s => s) (manager_world ["1"; "9"] (inr three_memories))
    = (Ok tt, w').
Proof.
  destruct (interactive_mode_ends (fun s => s)
              (manager_world ["1"; "9"] (inr three_memories)))
    as (r & w' & Hrun & [[-> _] | [-> _]]).
  - exists w'. exact Hrun.
  - vm_compute in Hrun. discriminate Hrun.
Defined.
